(** * Identity and access control of the POS backend

    A shallow embedding of the authentication core of the Go backend
    ([pkg/auth]: password policy and hashing, JWT issuance and validation;
    [internal/services]: [AuthService]; [internal/middleware]: the route
    guards built on it) together with the properties its specification
    states about it and further properties read off the code.

    Conventions.
    - A Go [string] is a [string] of bytes; [len] is [String.length].
    - A Go [(T, error)] result is a [result T]; a bare [error] result is an
      [option error] with [None] for [nil].
    - [time.Time] is the instant in nanoseconds since the Unix epoch, an
      unbounded [Z]; [time.Duration] is an [int64] count of nanoseconds whose
      arithmetic wraps.
    - The third-party packages the code calls (google/uuid, x/crypto/bcrypt,
      golang-jwt/jwt/v5, gorm, gin) are modelled in modules of their own, each
      with the idealisation it makes written at its head; of the standard
      library, SHA-2, the key preparation of HMAC and the UTF-8 coercion of
      encoding/json are written out. *)

From Stdlib Require Import ZArith Lia Ascii String List Bool.
From stdpp Require Import base decidable option list strings gmap.

Local Open Scope string_scope.
Local Open Scope Z_scope.

(** ** Errors *)

(** The [error] values that flow through the code.  Sentinel errors are
    constructors of their own, so that [errors.Is] is a pattern match. *)
#[warnings="-register-all"] Inductive error : Type :=
  (* services: the package-level sentinels of auth_service.go *)
  | ErrInvalidCredentials
  | ErrUserNotFound
  | ErrUserNotActive
  | ErrEmailAlreadyExists
  | ErrInvalidToken
  | ErrTokenExpired
  | ErrInsufficientRole
  (* gorm *)
  | gorm_ErrRecordNotFound
  | gorm_ErrDuplicatedKey
  (* bcrypt *)
  | bcrypt_ErrMismatchedHashAndPassword
  | bcrypt_ErrHashTooShort
  | bcrypt_ErrPasswordTooLong
  | bcrypt_InvalidCostError
  (* jwt *)
  | jwt_ErrTokenMalformed
  | jwt_ErrTokenUnverifiable
  | jwt_ErrTokenSignatureInvalid
  | jwt_ErrTokenExpired
  | jwt_ErrTokenNotValidYet
  | jwt_ErrTokenInvalidClaims
  | jwt_ErrSignatureInvalid
  | jwt_ErrInvalidKeyType
  (* jwt: joinErrors(errs...), and newError(message, err, more...), which is
     fmt.Errorf with one %w for err and one for each of more *)
  | jwt_joinedError (errs : list error)
  | jwt_newError (message : string) (err : error) (more : list error)
  (* an I/O failure of the store or of the entropy source *)
  | io_error
  (* errors.New(msg) and fmt.Errorf("msg: %w", cause) *)
  | errors_New (msg : string)
  | fmt_Errorf (msg : string) (cause : error).

Inductive result (A : Type) : Type :=
  | Ok (a : A)
  | Err (e : error).
Arguments Ok {A} a.
Arguments Err {A} e.

Definition is_Ok {A} (r : result A) : bool :=
  match r with Ok _ => true | Err _ => false end.

(** [errors.Is(err, target)] for a sentinel [target] that [is_target]
    recognises: [err] is the sentinel, or wraps it at any depth. *)
Fixpoint errors_Is (is_target : error -> bool) (err : error) : bool :=
  is_target err
  || match err with
     | fmt_Errorf _ cause => errors_Is is_target cause
     | jwt_joinedError errs =>
         (fix any (l : list error) : bool :=
            match l with
            | [] => false
            | e :: l' => errors_Is is_target e || any l'
            end) errs
     | jwt_newError _ err more =>
         errors_Is is_target err
         || (fix any (l : list error) : bool :=
               match l with
               | [] => false
               | e :: l' => errors_Is is_target e || any l'
               end) more
     | _ => false
     end.

Definition is_jwt_ErrTokenExpired (e : error) : bool :=
  match e with jwt_ErrTokenExpired => true | _ => false end.

Definition is_jwt_ErrTokenNotValidYet (e : error) : bool :=
  match e with jwt_ErrTokenNotValidYet => true | _ => false end.

Definition is_jwt_ErrTokenSignatureInvalid (e : error) : bool :=
  match e with jwt_ErrTokenSignatureInvalid => true | _ => false end.

Definition is_jwt_ErrTokenInvalidClaims (e : error) : bool :=
  match e with jwt_ErrTokenInvalidClaims => true | _ => false end.

(** ** package time *)

Module time.

Definition Time := Z.
Definition Duration := Z.

(** Two's-complement wrap-around of [int64] arithmetic. *)
Definition wrap64 (z : Z) : Z := (z + 2 ^ 63) mod 2 ^ 64 - 2 ^ 63.

Definition Nanosecond : Duration := 1.
Definition Second : Duration := 1000000000.
Definition Minute : Duration := 60 * Second.
Definition Hour : Duration := 60 * Minute.

(** [Duration(n) * d] *)
Definition mul (n : Z) (d : Duration) : Duration := wrap64 (wrap64 n * d).

Definition Add (t : Time) (d : Duration) : Time := t + d.
Definition Before (t u : Time) : bool := t <? u.
Definition After (t u : Time) : bool := u <? t.

(** The zero [Time] is January 1, year 1, 00:00:00 UTC: this many
    nanoseconds before the Unix epoch. *)
Definition unixToInternal : Z := 62135596800 * Second.

(** [t.Truncate(d)]: round down to a multiple of [d] since the zero time. *)
Definition Truncate (t : Time) (d : Duration) : Time :=
  if d <=? 0 then t else t - (t + unixToInternal) mod d.

End time.

(** ** package github.com/google/uuid

    A [UUID] is its 128-bit value.  [String] prints the canonical lower-case
    form, [Parse] reads the four spellings the package accepts. *)

Module uuid.

Definition UUID := N.

Definition hexdigits : list ascii := list_ascii_of_string "0123456789abcdef".

Definition hex_digit (d : N) : ascii := nth (N.to_nat d) hexdigits "0"%char.

(** [n] as [digits] hexadecimal digits, most significant first. *)
Fixpoint hex_of (digits : nat) (n : N) : string :=
  match digits with
  | O => ""
  | S k => hex_of k (n / 16) ++ String (hex_digit (n mod 16)) ""
  end.

Definition String (u : UUID) : string :=
  let h := hex_of 32 u in
  substring 0 8 h ++ "-" ++ substring 8 4 h ++ "-" ++ substring 12 4 h ++ "-"
    ++ substring 16 4 h ++ "-" ++ substring 20 12 h.

Definition xval (c : ascii) : option N :=
  let n := N_of_ascii c in
  if ((48 <=? n) && (n <=? 57))%N then Some (n - 48)%N
  else if ((97 <=? n) && (n <=? 102))%N then Some (n - 87)%N
  else if ((65 <=? n) && (n <=? 70))%N then Some (n - 55)%N
  else None.

Fixpoint parse_hex (acc : N) (s : list ascii) : option N :=
  match s with
  | [] => Some acc
  | c :: r => match xval c with
              | Some d => parse_hex (acc * 16 + d)%N r
              | None => None
              end
  end.

Definition lower (c : ascii) : ascii :=
  let n := N_of_ascii c in
  if ((65 <=? n) && (n <=? 90))%N then ascii_of_N (n + 32) else c.

Definition EqualFold (a b : string) : bool :=
  bool_decide (map lower (list_ascii_of_string a) = map lower (list_ascii_of_string b)).

(** The hyphenated body: hyphens at 8, 13, 18 and 23, hexadecimal digit
    pairs at the sixteen fixed offsets; whatever follows offset 36 is not
    looked at. *)
Definition parse_hyphenated (s : string) : option UUID :=
  let at_ i := String.get i s in
  if bool_decide (at_ 8%nat = Some "-"%char ∧ at_ 13%nat = Some "-"%char
                  ∧ at_ 18%nat = Some "-"%char ∧ at_ 23%nat = Some "-"%char)
  then parse_hex 0%N (list_ascii_of_string
         (substring 0 8 s ++ substring 9 4 s ++ substring 14 4 s
            ++ substring 19 4 s ++ substring 24 12 s))
  else None.

Definition Parse (s : string) : option UUID :=
  let n := String.length s in
  if bool_decide (n = 36%nat) then parse_hyphenated s
  else if bool_decide (n = 45%nat) then
    if EqualFold (substring 0 9 s) "urn:uuid:"
    then parse_hyphenated (substring 9 36 s) else None
  else if bool_decide (n = 38%nat) then parse_hyphenated (substring 1 37 s)
  else if bool_decide (n = 32%nat) then parse_hex 0%N (list_ascii_of_string s)
  else None.

End uuid.

(** ** package golang.org/x/crypto/bcrypt

    Idealisation: the Eksblowfish core is a perfect (collision-free) function
    of cost, salt and key material, so a hash is represented by these three.
    What is kept exactly is how the package turns a password into key
    material: the password is NUL-terminated and read cyclically for the
    72 bytes of the Blowfish key schedule.  [GenerateFromPassword] refuses a
    password of more than 72 bytes, [CompareHashAndPassword] does not look
    at the length. *)

Module bcrypt.

Definition MinCost : Z := 4.
Definition MaxCost : Z := 31.
Definition DefaultCost : Z := 10.

(** The hash string stored for a credential: a well-formed bcrypt hash, or
    any other text. *)
Inductive Hash : Type :=
  | Hashed (cost : Z) (salt : string) (key : string)
  | NotAHash (raw : string).

(** [n] bytes read cyclically from [orig], continuing at [cur]. *)
Fixpoint cycle (n : nat) (orig cur : string) : string :=
  match n with
  | O => ""
  | S k =>
      match cur with
      | String c r => String c (cycle k orig r)
      | EmptyString =>
          match orig with
          | String c r => String c (cycle k orig r)
          | EmptyString => ""
          end
      end
  end.

#[global] Arguments cycle : simpl never.

Definition NUL : ascii := Ascii.zero.

Definition key_material (password : string) : string :=
  let ckey := password ++ String NUL "" in
  cycle 72 ckey ckey.

(** [salt] is the reading of crypto/rand, [None] when the source fails. *)
Definition GenerateFromPassword (salt : option string) (password : string) (cost : Z)
  : result Hash :=
  if bool_decide (72 < String.length password)%nat then Err bcrypt_ErrPasswordTooLong
  else
    let cost := if cost <? MinCost then DefaultCost else cost in
    if MaxCost <? cost then Err bcrypt_InvalidCostError
    else match salt with
         | None => Err io_error
         | Some s => Ok (Hashed cost s (key_material password))
         end.

Definition CompareHashAndPassword (hashedPassword : Hash) (password : string)
  : option error :=
  match hashedPassword with
  | NotAHash _ => Some bcrypt_ErrHashTooShort
  | Hashed c s k =>
      if bool_decide (key_material password = k) then None
      else Some bcrypt_ErrMismatchedHashAndPassword
  end.

End bcrypt.


(** ** package encoding/hex *)

Module hex.

Fixpoint EncodeToString (src : string) : string :=
  match src with
  | EmptyString => ""
  | String c r =>
      let n := N_of_ascii c in
      String (uuid.hex_digit (n / 16)) (String (uuid.hex_digit (n mod 16)) (EncodeToString r))
  end.

End hex.

(** ** packages crypto/sha256, crypto/sha512 and crypto/hmac

    The SHA-2 functions of FIPS 180-4 on byte strings, as far as HMAC needs
    them to prepare a key. *)

Module sha2.

(** The parameters in which SHA-256 and SHA-512/384 differ: word size,
    round constants, initial hash value, the rotation and shift amounts of
    the four sigma functions, and the number of bytes of the digest. *)
Record Params : Type := {
  wordBits : Z;
  K : list Z;
  IV : list Z;
  Sigma0 : Z * Z * Z;
  Sigma1 : Z * Z * Z;
  sigma0 : Z * Z * Z;
  sigma1 : Z * Z * Z;
  Size : nat
}.

Definition K256 : list Z :=
  [1116352408; 1899447441; 3049323471; 3921009573; 961987163; 1508970993;
   2453635748; 2870763221; 3624381080; 310598401; 607225278; 1426881987;
   1925078388; 2162078206; 2614888103; 3248222580; 3835390401; 4022224774;
   264347078; 604807628; 770255983; 1249150122; 1555081692; 1996064986;
   2554220882; 2821834349; 2952996808; 3210313671; 3336571891; 3584528711;
   113926993; 338241895; 666307205; 773529912; 1294757372; 1396182291;
   1695183700; 1986661051; 2177026350; 2456956037; 2730485921; 2820302411;
   3259730800; 3345764771; 3516065817; 3600352804; 4094571909; 275423344;
   430227734; 506948616; 659060556; 883997877; 958139571; 1322822218;
   1537002063; 1747873779; 1955562222; 2024104815; 2227730452; 2361852424;
   2428436474; 2756734187; 3204031479; 3329325298].

Definition K512 : list Z :=
  [4794697086780616226; 8158064640168781261; 13096744586834688815;
   16840607885511220156; 4131703408338449720; 6480981068601479193;
   10538285296894168987; 12329834152419229976; 15566598209576043074;
   1334009975649890238; 2608012711638119052; 6128411473006802146;
   8268148722764581231; 9286055187155687089; 11230858885718282805;
   13951009754708518548; 16472876342353939154; 17275323862435702243;
   1135362057144423861; 2597628984639134821; 3308224258029322869;
   5365058923640841347; 6679025012923562964; 8573033837759648693;
   10970295158949994411; 12119686244451234320; 12683024718118986047;
   13788192230050041572; 14330467153632333762; 15395433587784984357;
   489312712824947311; 1452737877330783856; 2861767655752347644;
   3322285676063803686; 5560940570517711597; 5996557281743188959;
   7280758554555802590; 8532644243296465576; 9350256976987008742;
   10552545826968843579; 11727347734174303076; 12113106623233404929;
   14000437183269869457; 14369950271660146224; 15101387698204529176;
   15463397548674623760; 17586052441742319658; 1182934255886127544;
   1847814050463011016; 2177327727835720531; 2830643537854262169;
   3796741975233480872; 4115178125766777443; 5681478168544905931;
   6601373596472566643; 7507060721942968483; 8399075790359081724;
   8693463985226723168; 9568029438360202098; 10144078919501101548;
   10430055236837252648; 11840083180663258601; 13761210420658862357;
   14299343276471374635; 14566680578165727644; 15097957966210449927;
   16922976911328602910; 17689382322260857208; 500013540394364858;
   748580250866718886; 1242879168328830382; 1977374033974150939;
   2944078676154940804; 3659926193048069267; 4368137639120453308;
   4836135668995329356; 5532061633213252278; 6448918945643986474;
   6902733635092675308; 7801388544844847127].

Definition SHA256 : Params :=
  {| wordBits := 32; K := K256;
     IV :=
       [1779033703; 3144134277; 1013904242; 2773480762;
       1359893119; 2600822924; 528734635; 1541459225];
     Sigma0 := (2, 13, 22); Sigma1 := (6, 11, 25);
     sigma0 := (7, 18, 3); sigma1 := (17, 19, 10);
     Size := 32 |}.

Definition SHA512 : Params :=
  {| wordBits := 64; K := K512;
     IV :=
       [7640891576956012808; 13503953896175478587; 4354685564936845355;
       11912009170470909681; 5840696475078001361; 11170449401992604703;
       2270897969802886507; 6620516959819538809];
     Sigma0 := (28, 34, 39); Sigma1 := (14, 18, 41);
     sigma0 := (1, 8, 7); sigma1 := (19, 61, 6);
     Size := 64 |}.

Definition SHA384 : Params :=
  {| wordBits := 64; K := K512;
     IV :=
       [14680500436340154072; 7105036623409894663; 10473403895298186519;
       1526699215303891257; 7436329637833083697; 10282925794625328401;
       15784041429090275239; 5167115440072839076];
     Sigma0 := (28, 34, 39); Sigma1 := (14, 18, 41);
     sigma0 := (1, 8, 7); sigma1 := (19, 61, 6);
     Size := 48 |}.

Section Hash.

Variable p : Params.

Definition word (x : Z) : Z := x mod 2 ^ wordBits p.

Definition rotr (x n : Z) : Z :=
  Z.lor (Z.shiftr x n) (word (Z.shiftl x (wordBits p - n))).

Definition bigSigma (r : Z * Z * Z) (x : Z) : Z :=
  let '(a, b, c) := r in Z.lxor (Z.lxor (rotr x a) (rotr x b)) (rotr x c).

Definition smallSigma (r : Z * Z * Z) (x : Z) : Z :=
  let '(a, b, c) := r in Z.lxor (Z.lxor (rotr x a) (rotr x b)) (Z.shiftr x c).

Definition Ch (x y z : Z) : Z :=
  Z.lxor (Z.land x y) (Z.land (2 ^ wordBits p - 1 - x) z).

Definition Maj (x y z : Z) : Z :=
  Z.lxor (Z.lxor (Z.land x y) (Z.land x z)) (Z.land y z).

(** Bytes per word and per block. *)
Definition wordBytes : nat := Z.to_nat (wordBits p / 8).
Definition BlockSize : nat := (16 * wordBytes)%nat.

(** Big-endian: the number a list of bytes denotes, and the [n] bytes of a
    number. *)
Definition of_bytes (bs : list Z) : Z := fold_left (fun acc b => acc * 256 + b) bs 0.

Fixpoint to_bytes (n : nat) (x : Z) : list Z :=
  match n with
  | O => []
  | S k => (to_bytes k (x / 256) ++ [x mod 256])%list
  end.

(** The message, a one bit, zeros up to the last block, and the length of
    the message in bits in two words. *)
Definition pad (msg : list Z) : list Z :=
  let len := length msg in
  let tail := (2 * wordBytes)%nat in
  let zeros := ((BlockSize - (len + 1 + tail) mod BlockSize) mod BlockSize)%nat in
  (msg ++ [128] ++ replicate zeros 0 ++ to_bytes tail (8 * Z.of_nat len))%list.

Fixpoint words (n : nat) (bs : list Z) : list Z :=
  match n with
  | O => []
  | S k => of_bytes (take wordBytes bs) :: words k (drop wordBytes bs)
  end.

(** The message schedule, extended from the 16 words of a block by [n]
    further words. *)
Fixpoint schedule (n : nat) (W : list Z) : list Z :=
  match n with
  | O => W
  | S k =>
      let t := length W in
      let w i := nth (t - i) W 0 in
      schedule k (W ++ [word (smallSigma (sigma1 p) (w 2%nat) + w 7%nat
                               + smallSigma (sigma0 p) (w 15%nat) + w 16%nat)])%list
  end.

Definition State : Type := (Z * Z * Z * Z * Z * Z * Z * Z)%type.

Definition round (s : State) (kw : Z * Z) : State :=
  let '(a, b, c, d, e, f, g, h) := s in
  let T1 := h + bigSigma (Sigma1 p) e + Ch e f g + fst kw + snd kw in
  let T2 := bigSigma (Sigma0 p) a + Maj a b c in
  (word (T1 + T2), a, b, c, word (d + T1), e, f, g).

Definition compress (H : State) (block : list Z) : State :=
  let W := schedule (length (K p) - 16) (words 16 block) in
  let '(a, b, c, d, e, f, g, h) := fold_left round (zip (K p) W) H in
  let '(a0, b0, c0, d0, e0, f0, g0, h0) := H in
  (word (a0 + a), word (b0 + b), word (c0 + c), word (d0 + d),
   word (e0 + e), word (f0 + f), word (g0 + g), word (h0 + h)).

Fixpoint blocks (n : nat) (H : State) (bs : list Z) : State :=
  match n with
  | O => H
  | S k => blocks k (compress H (take BlockSize bs)) (drop BlockSize bs)
  end.

Definition initial : State :=
  match IV p with
  | [a; b; c; d; e; f; g; h] => (a, b, c, d, e, f, g, h)
  | _ => (0, 0, 0, 0, 0, 0, 0, 0)
  end.

(** The digest of [msg]. *)
Definition Sum (msg : string) : string :=
  let bs := pad (map (fun c => Z.of_N (N_of_ascii c)) (list_ascii_of_string msg)) in
  let '(a, b, c, d, e, f, g, h) := blocks (length bs / BlockSize) initial bs in
  let out := flat_map (to_bytes wordBytes) [a; b; c; d; e; f; g; h] in
  string_of_list_ascii (map (fun b => ascii_of_N (Z.to_N b)) (take (Size p) out)).

End Hash.

#[global] Arguments Sum : simpl never.

End sha2.

Module hmac.

Definition zeros (n : nat) : string := string_of_list_ascii (replicate n Ascii.zero).

(** [hmac.New(h, key)] prepares the key: a key longer than the block of the
    hash is replaced by its digest, and the key is padded with zero bytes to
    the block.  Two keys with the same block give the same tags. *)
Definition block (h : sha2.Params) (key : string) : string :=
  let key := if bool_decide (sha2.BlockSize h < String.length key)%nat
             then sha2.Sum h key else key in
  key ++ zeros (sha2.BlockSize h - String.length key).

#[global] Arguments block : simpl never.

End hmac.

(** ** packages unicode/utf8 and encoding/json *)

Module utf8.

Definition byte (c : ascii) : N := N_of_ascii c.

(** A continuation byte, [0x80] to [0xBF]. *)
Definition between (lo hi : N) (c : ascii) : bool :=
  ((lo <=? byte c) && (byte c <=? hi))%N.

Definition cont : ascii -> bool := between 128 191.

(** The number of bytes of the encoding [s] starts with, as
    [DecodeRuneInString] finds it; [0] when [s] is empty or starts with a
    byte that begins no well-formed encoding (the decoder then answers
    [RuneError] with width 1). *)
Definition size (s : string) : nat :=
  match s with
  | EmptyString => 0
  | String c0 r =>
      let b0 := byte c0 in
      if (b0 <? 128)%N then 1
      else if (b0 <? 194)%N then 0
      else if (b0 <? 224)%N then
        match r with
        | String c1 _ => if cont c1 then 2 else 0
        | _ => 0
        end
      else if (b0 <? 240)%N then
        match r with
        | String c1 (String c2 _) =>
            if between (if (b0 =? 224)%N then 160 else 128)
                       (if (b0 =? 237)%N then 159 else 191) c1 && cont c2
            then 3 else 0
        | _ => 0
        end
      else if (b0 <? 245)%N then
        match r with
        | String c1 (String c2 (String c3 _)) =>
            if between (if (b0 =? 240)%N then 144 else 128)
                       (if (b0 =? 244)%N then 143 else 191) c1 && cont c2 && cont c3
            then 4 else 0
        | _ => 0
        end
      else 0
  end.

(** U+FFFD, the replacement character, encoded. *)
Definition RuneError : string :=
  String (ascii_of_N 239) (String (ascii_of_N 191) (String (ascii_of_N 189) "")).

End utf8.

Module json.

(** What a string is after [json.Marshal] and [json.Unmarshal]: the encoder
    writes every byte that begins no well-formed UTF-8 encoding as U+FFFD
    and copies the well-formed encodings ([skip] bytes of the current one
    are still to be copied); the escapes it uses are undone by the
    decoder. *)
Fixpoint coerce_from (skip : nat) (s : string) : string :=
  match s with
  | EmptyString => EmptyString
  | String c r =>
      match skip with
      | S k => String c (coerce_from k r)
      | O =>
          match utf8.size s with
          | O => utf8.RuneError ++ coerce_from 0 r
          | S k => String c (coerce_from k r)
          end
      end
  end.

Definition coerce (s : string) : string := coerce_from 0 s.

#[global] Arguments coerce : simpl never.

End json.

(** ** package github.com/golang-jwt/jwt/v5

    Idealisation: a token string is represented by what it decodes to.  A
    well-formed token is the signing method of its header, the key its
    signature was made with and the claims its JSON decodes to; every other
    string is [Malformed].  HMAC is taken to be unforgeable: a signature
    verifies under a key exactly when HMAC prepares that key and the key the
    signature was made with to the same block. *)

Module jwt.

Inductive SigningMethod : Type :=
  | SigningMethodHS256
  | SigningMethodHS384
  | SigningMethodHS512
  | SigningMethodOther (alg : string).

#[global] Instance SigningMethod_eq_dec : EqDecision SigningMethod.
Proof. solve_decision. Defined.

(** The type assertion of [token.Method] to the HMAC signing method. *)
Definition is_SigningMethodHMAC (m : SigningMethod) : bool :=
  match m with
  | SigningMethodHS256 | SigningMethodHS384 | SigningMethodHS512 => true
  | SigningMethodOther _ => false
  end.

(** The hash of an HMAC method. *)
Definition Hash (m : SigningMethod) : option sha2.Params :=
  match m with
  | SigningMethodHS256 => Some sha2.SHA256
  | SigningMethodHS384 => Some sha2.SHA384
  | SigningMethodHS512 => Some sha2.SHA512
  | SigningMethodOther _ => None
  end.

Record RegisteredClaims : Type := {
  Issuer : string;
  Subject : string;
  ExpiresAt : option time.Time;
  NotBefore : option time.Time;
  IssuedAt : option time.Time;
  ID : string
}.

#[global] Instance RegisteredClaims_eq_dec : EqDecision RegisteredClaims.
Proof. solve_decision. Defined.

Definition TimePrecision : time.Duration := time.Second.

Definition NewNumericDate (t : time.Time) : option time.Time :=
  Some (time.Truncate t TimePrecision).

(** The registered claims after [json.Marshal] and [json.Unmarshal]: the
    strings coerced to valid UTF-8, the dates as the whole seconds
    [NumericDate.MarshalJSON] writes. *)
Definition RegisteredClaims_JSON (c : RegisteredClaims) : RegisteredClaims :=
  {| Issuer := json.coerce (Issuer c);
     Subject := json.coerce (Subject c);
     ExpiresAt := (fun t => time.Truncate t TimePrecision) <$> ExpiresAt c;
     NotBefore := (fun t => time.Truncate t TimePrecision) <$> NotBefore c;
     IssuedAt := (fun t => time.Truncate t TimePrecision) <$> IssuedAt c;
     ID := json.coerce (ID c) |}.

Inductive TokenString (C : Type) : Type :=
  | Signed (method : SigningMethod) (key : string) (claims : C)
  | Malformed (raw : string).
Arguments Signed {C} method key claims.
Arguments Malformed {C} raw.

#[global] Instance TokenString_eq_dec {C} `{EqDecision C} : EqDecision (TokenString C).
Proof. solve_decision. Defined.

(** [jwt.NewWithClaims(method, claims).SignedString(key)] with a byte-slice
    key; [JSON] is what the claims are after their JSON encoding is decoded
    again.  Only the HMAC methods take such a key; what the others answer
    wraps [ErrInvalidKeyType] with a message of their own, which is left
    out. *)
Definition SignedString {C} (method : SigningMethod) (JSON : C -> C) (claims : C)
    (key : string) : result (TokenString C) :=
  if is_SigningMethodHMAC method then Ok (Signed method key (JSON claims))
  else Err jwt_ErrInvalidKeyType.

(** [token.Method.Verify(signingString, signature, key)] for a signature
    made with [signedWith] and a byte-slice [key]. *)
Definition Verify (method : SigningMethod) (signedWith key : string) : option error :=
  match Hash method with
  | Some h =>
      if bool_decide (hmac.block h signedWith = hmac.block h key) then None
      else Some jwt_ErrSignatureInvalid
  | None => Some jwt_ErrInvalidKeyType
  end.

(** A parsed token. *)
Record Token (C : Type) : Type := {
  Method : SigningMethod;
  Claims : C;
  Valid : bool
}.
Arguments Method {C} t.
Arguments Claims {C} t.
Arguments Valid {C} t.

(** The parser options that matter here: [WithoutClaimsValidation] and
    [WithLeeway]. *)
Record Parser : Type := {
  skipClaimsValidation : bool;
  leeway : time.Duration
}.

(** [jwt.NewParser()] *)
Definition NewParser : Parser := {| skipClaimsValidation := false; leeway := 0 |}.

Definition verifyExpiresAt (p : Parser) (c : RegisteredClaims) (cmp : time.Time)
  : option error :=
  match ExpiresAt c with
  | None => None
  | Some exp =>
      if time.Before cmp (time.Add exp (leeway p)) then None else Some jwt_ErrTokenExpired
  end.

Definition verifyNotBefore (p : Parser) (c : RegisteredClaims) (cmp : time.Time)
  : option error :=
  match NotBefore c with
  | None => None
  | Some nbf =>
      if negb (time.Before cmp (time.Add nbf (- leeway p))) then None
      else Some jwt_ErrTokenNotValidYet
  end.

(** [Validator.Validate]: the expiry and the not-before instant are
    checked both, and the errors found are joined; issued-at, audience,
    issuer and subject are only checked on request. *)
Definition Validate (p : Parser) (c : RegisteredClaims) (now : time.Time) : option error :=
  let errs := (option_list (verifyExpiresAt p c now)
               ++ option_list (verifyNotBefore p c now))%list in
  match errs with
  | [] => None
  | _ => Some (jwt_joinedError errs)
  end.

(** [Parser.ParseWithClaims]: decode, ask [keyFunc] for the key, verify the
    signature, validate the registered claims, and only then mark the token
    valid.  A string that does not decode is refused before the key is asked
    for, with an error that names the defect; the one value
    [jwt_ErrTokenMalformed] stands for these errors. *)
Definition Parser_ParseWithClaims {C} (p : Parser) (registered : C -> RegisteredClaims)
    (tokenString : TokenString C) (keyFunc : SigningMethod -> result string)
    (now : time.Time) : result (Token C) :=
  match tokenString with
  | Malformed _ => Err jwt_ErrTokenMalformed
  | Signed method signedWith claims =>
      match keyFunc method with
      | Err e => Err (jwt_newError "error while executing keyfunc" jwt_ErrTokenUnverifiable [e])
      | Ok key =>
          match Verify method signedWith key with
          | Some e => Err (jwt_newError "" jwt_ErrTokenSignatureInvalid [e])
          | None =>
              match (if skipClaimsValidation p then None
                     else Validate p (registered claims) now) with
              | Some e => Err (jwt_newError "" jwt_ErrTokenInvalidClaims [e])
              | None => Ok {| Method := method; Claims := claims; Valid := true |}
              end
          end
      end
  end.

(** The package-level [jwt.ParseWithClaims] parses with a default parser. *)
Definition ParseWithClaims {C} := @Parser_ParseWithClaims C NewParser.

(** [Parser.ParseUnverified]: decode only; no key, no signature, no claims
    validation, and the token is not marked valid. *)
Definition ParseUnverified {C} (tokenString : TokenString C) : result (Token C) :=
  match tokenString with
  | Malformed _ => Err jwt_ErrTokenMalformed
  | Signed method _ claims => Ok {| Method := method; Claims := claims; Valid := false |}
  end.

End jwt.

(** ** package auth (pkg/auth) *)

Module auth.

(** *** password.go *)

Record PasswordManager : Type := { saltRounds : Z }.

Definition NewPasswordManager (saltRounds : Z) : PasswordManager :=
  let saltRounds := if saltRounds <? 10 then 12 else saltRounds in
  {| saltRounds := saltRounds |}.

Definition in_range (lo hi : N) (c : ascii) : bool :=
  let n := N_of_ascii c in ((lo <=? n) && (n <=? hi))%N.

(** [regexp.MustCompile(class).MatchString(s)] for a one-character class:
    some byte of [s] belongs to the class. *)
Definition MatchString (class : ascii -> bool) (s : string) : bool :=
  existsb class (list_ascii_of_string s).

Definition isUpper : ascii -> bool := in_range 65 90.
Definition isLower : ascii -> bool := in_range 97 122.
Definition isNumber : ascii -> bool := in_range 48 57.

(** The members of the last character class of [ValidatePassword], with the
    double quote given by its code. *)
Definition specialChars : list ascii :=
  list_ascii_of_string "!@#$%^&*()_+-=[]{};':" ++ [ascii_of_nat 34]
    ++ list_ascii_of_string "\|,.<>/?".

Definition isSpecial (c : ascii) : bool := bool_decide (c ∈ specialChars).

Definition ValidatePassword (pm : PasswordManager) (password : string) : option error :=
  if bool_decide (String.length password < 8)%nat then
    Some (errors_New "password must be at least 8 characters long")
  else if bool_decide (128 < String.length password)%nat then
    Some (errors_New "password must be less than 128 characters long")
  else if negb (MatchString isUpper password) then
    Some (errors_New "password must contain at least one uppercase letter")
  else if negb (MatchString isLower password) then
    Some (errors_New "password must contain at least one lowercase letter")
  else if negb (MatchString isNumber password) then
    Some (errors_New "password must contain at least one number")
  else if negb (MatchString isSpecial password) then
    Some (errors_New "password must contain at least one special character")
  else None.

Definition HashPassword (pm : PasswordManager) (salt : option string) (password : string)
  : result bcrypt.Hash :=
  match ValidatePassword pm password with
  | Some err => Err err
  | None =>
      match bcrypt.GenerateFromPassword salt password (saltRounds pm) with
      | Err err => Err err
      | Ok hashedBytes => Ok hashedBytes
      end
  end.

Definition VerifyPassword (pm : PasswordManager) (password : string) (hash : bcrypt.Hash)
  : option error :=
  bcrypt.CompareHashAndPassword hash password.

(** *** the JWT manager *)

Record Claims : Type := {
  UserID : string;
  Email : string;
  Role : string;
  Name : string;
  TokenType : string;
  RegisteredClaims : jwt.RegisteredClaims
}.

#[global] Instance Claims_eq_dec : EqDecision Claims.
Proof. solve_decision. Defined.

(** A token string carrying [Claims]. *)
Definition Token : Type := jwt.TokenString Claims.

(** [Claims] after [json.Marshal] and [json.Unmarshal]. *)
Definition Claims_JSON (c : Claims) : Claims :=
  {| UserID := json.coerce (UserID c);
     Email := json.coerce (Email c);
     Role := json.coerce (Role c);
     Name := json.coerce (Name c);
     TokenType := json.coerce (TokenType c);
     RegisteredClaims := jwt.RegisteredClaims_JSON (RegisteredClaims c) |}.

Record JWTManager : Type := {
  secretKey : string;
  accessTokenTTL : time.Duration;
  refreshTokenTTL : time.Duration
}.

Definition NewJWTManager (secretKey : string) (accessTTLHours refreshTTLDays : Z)
  : JWTManager :=
  {| secretKey := secretKey;
     accessTokenTTL := time.mul accessTTLHours time.Hour;
     refreshTokenTTL := time.mul (time.mul refreshTTLDays 24) time.Hour |}.

(** [entropy] is what [rand.Read] delivers for the 16 bytes asked, [None]
    when it fails. *)
Definition generateUniqueID (entropy : option string) : result string :=
  match entropy with
  | None => Err io_error
  | Some bytes => Ok (hex.EncodeToString bytes)
  end.

Definition GenerateAccessToken (j : JWTManager) (entropy : option string) (now : time.Time)
    (userID email role name : string) : result Token :=
  match generateUniqueID entropy with
  | Err err => Err err
  | Ok tokenID =>
      let claims :=
        {| UserID := userID;
           Email := email;
           Role := role;
           Name := name;
           TokenType := "access";
           RegisteredClaims :=
             {| jwt.ID := tokenID;
                jwt.ExpiresAt := jwt.NewNumericDate (time.Add now (accessTokenTTL j));
                jwt.IssuedAt := jwt.NewNumericDate now;
                jwt.NotBefore := jwt.NewNumericDate now;
                jwt.Issuer := "pos-system";
                jwt.Subject := userID |} |} in
      jwt.SignedString jwt.SigningMethodHS256 Claims_JSON claims (secretKey j)
  end.

Definition GenerateRefreshToken (j : JWTManager) (entropy : option string) (now : time.Time)
    (userID email : string) : result Token :=
  match generateUniqueID entropy with
  | Err err => Err err
  | Ok tokenID =>
      let claims :=
        {| UserID := userID;
           Email := email;
           Role := "";
           Name := "";
           TokenType := "refresh";
           RegisteredClaims :=
             {| jwt.ID := tokenID;
                jwt.ExpiresAt := jwt.NewNumericDate (time.Add now (refreshTokenTTL j));
                jwt.IssuedAt := jwt.NewNumericDate now;
                jwt.NotBefore := jwt.NewNumericDate now;
                jwt.Issuer := "pos-system";
                jwt.Subject := userID |} |} in
      jwt.SignedString jwt.SigningMethodHS256 Claims_JSON claims (secretKey j)
  end.

(** The signature of the signing library's entry point, as the validation
    functions call it: token string, key function, and the instant at which
    the library reads the clock. *)
Definition ParseFn : Type :=
  Token -> (jwt.SigningMethod -> result string) -> time.Time -> result (jwt.Token Claims).

(** What the code links against: [jwt.ParseWithClaims] of golang-jwt v5. *)
Definition jwt_ParseWithClaims : ParseFn := jwt.ParseWithClaims RegisteredClaims.

Section Validation.

(** The validation functions are written once for any signing library. *)
Variable ParseWithClaims : ParseFn.

(** The key function [ValidateToken] hands to the library. *)
Definition keyFunc (j : JWTManager) (method : jwt.SigningMethod) : result string :=
  if negb (jwt.is_SigningMethodHMAC method)
  then Err (errors_New "invalid token signing method")
  else Ok (secretKey j).

Definition ValidateToken (j : JWTManager) (tokenString : Token) (now : time.Time)
  : result Claims :=
  match ParseWithClaims tokenString (keyFunc j) now with
  | Err err => Err err
  | Ok token =>
      if jwt.Valid token then
        let claims := jwt.Claims token in
        (* Check if token is expired *)
        if match jwt.ExpiresAt (RegisteredClaims claims) with
           | Some exp => time.Before exp now
           | None => false
           end
        then Err (errors_New "token has expired")
        else Ok claims
      else Err (errors_New "invalid token")
  end.

Definition ValidateAccessToken (j : JWTManager) (tokenString : Token) (now : time.Time)
  : result Claims :=
  match ValidateToken j tokenString now with
  | Err err => Err err
  | Ok claims =>
      if negb (bool_decide (TokenType claims = "access"))
      then Err (errors_New "invalid token type, expected access token")
      else Ok claims
  end.

Definition ValidateRefreshToken (j : JWTManager) (tokenString : Token) (now : time.Time)
  : result Claims :=
  match ValidateToken j tokenString now with
  | Err err => Err err
  | Ok claims =>
      if negb (bool_decide (TokenType claims = "refresh"))
      then Err (errors_New "invalid token type, expected refresh token")
      else Ok claims
  end.

End Validation.

(** [authHeader] in the form [Bearer <token>] gives the token, anything else
    the empty string. *)
Definition ExtractTokenFromBearerString (authHeader : string) : string :=
  if bool_decide (7 < String.length authHeader)%nat
     && bool_decide (substring 0 7 authHeader = "Bearer ")
  then substring 7 (String.length authHeader - 7) authHeader
  else "".

(** Claims without validation (for debugging). *)
Definition GetTokenClaims (tokenString : Token) : result Claims :=
  match jwt.ParseUnverified tokenString with
  | Err err => Err err
  | Ok token => Ok (jwt.Claims token)
  end.

(** *** password.go, the generators *)

(** The four bytes one call of [randInt] reads. *)
Definition Bytes4 : Type := (ascii * ascii * ascii * ascii)%type.

(** [int] is 64 bits wide: the four bytes assemble to a value below 2^32,
    the negation is there for narrower platforms.  [%] truncates. *)
Definition randInt (bytes : Bytes4) (max : Z) : Z :=
  if max <=? 0 then 0
  else
    let '(b0, b1, b2, b3) := bytes in
    let n := Z.lor (Z.lor (Z.lor (Z.shiftl (Z.of_N (N_of_ascii b0)) 24)
                                 (Z.shiftl (Z.of_N (N_of_ascii b1)) 16))
                          (Z.shiftl (Z.of_N (N_of_ascii b2)) 8))
                   (Z.of_N (N_of_ascii b3)) in
    let n := if n <? 0 then time.wrap64 (- n) else n in
    Z.rem n max.

Definition uppercase : list ascii := list_ascii_of_string "ABCDEFGHIJKLMNOPQRSTUVWXYZ".
Definition lowercase : list ascii := list_ascii_of_string "abcdefghijklmnopqrstuvwxyz".
Definition numbers : list ascii := list_ascii_of_string "0123456789".
Definition special : list ascii := list_ascii_of_string "!@#$%^&*()_+-=[]{}|;:,.<>?".
Definition allChars : list ascii := uppercase ++ lowercase ++ numbers ++ special.

(** [s[i]] and [s[i] = c] on a byte slice; [None] is the run-time panic of
    an index out of range. *)
Definition byteAt (s : list ascii) (i : Z) : option ascii :=
  if 0 <=? i then s !! Z.to_nat i else None.

Definition setAt (s : list ascii) (i : Z) (c : ascii) : option (list ascii) :=
  if (0 <=? i) && (i <? Z.of_nat (length s)) then Some (<[Z.to_nat i := c]> s) else None.

(** [for i := ...; i < length; i++ { password[i] = allChars[randInt(len(allChars))] }],
    with [n] iterations left; [rnd k] is what the [k]-th call of [randInt]
    reads. *)
Fixpoint fillRest (rnd : nat -> Bytes4) (n : nat) (i : Z) (k : nat) (password : list ascii)
  : option (list ascii) :=
  match n with
  | O => Some password
  | S n' =>
      c ← byteAt allChars (randInt (rnd k) (Z.of_nat (length allChars)));
      password ← setAt password i c;
      fillRest rnd n' (i + 1) (S k) password
  end.

(** [for i := ...; i > 0; i-- { j := randInt(i + 1); swap password[i], password[j] }] *)
Fixpoint shuffle (rnd : nat -> Bytes4) (n : nat) (i : Z) (k : nat) (password : list ascii)
  : option (list ascii) :=
  match n with
  | O => Some password
  | S n' =>
      let j := randInt (rnd k) (i + 1) in
      pj ← byteAt password j;
      pi ← byteAt password i;
      password ← setAt password i pj;
      password ← setAt password j pi;
      shuffle rnd n' (i - 1) (S k) password
  end.

(** [make([]byte, n)]: the runtime allocates [n] bytes as long as [n] is
    within [limit], a bound set by the platform and by the memory left (and
    itself an [int]); beyond it the program stops. *)
Definition makeBytes (limit n : Z) : option (list ascii) :=
  if (0 <=? n) && (n <=? limit) then Some (replicate (Z.to_nat n) Ascii.zero) else None.

(** The error result of the Go function is always [nil]; [None] is the
    program stopped by a panic or by the runtime. *)
Definition GenerateRandomPassword (pm : PasswordManager) (limit : Z) (rnd : nat -> Bytes4)
    (length : Z) : option string :=
  let length := if length <? 8 then 12 else length in
  password ← makeBytes limit length;
  (* Ensure at least one character from each required set *)
  c ← byteAt uppercase (randInt (rnd 0%nat) (Z.of_nat (List.length uppercase)));
  password ← setAt password 0 c;
  c ← byteAt lowercase (randInt (rnd 1%nat) (Z.of_nat (List.length lowercase)));
  password ← setAt password 1 c;
  c ← byteAt numbers (randInt (rnd 2%nat) (Z.of_nat (List.length numbers)));
  password ← setAt password 2 c;
  c ← byteAt special (randInt (rnd 3%nat) (Z.of_nat (List.length special)));
  password ← setAt password 3 c;
  (* Fill the rest with random characters *)
  password ← fillRest rnd (Z.to_nat (length - 4)) 4 4%nat password;
  (* Shuffle the password *)
  password ← shuffle rnd (Z.to_nat (Z.of_nat (List.length password) - 1))
               (Z.of_nat (List.length password) - 1) (Z.to_nat length) password;
  Some (string_of_list_ascii password).

(** [entropy] is what [rand.Read] delivers for the 32 bytes asked. *)
Definition GenerateResetToken (pm : PasswordManager) (entropy : option string)
  : result string :=
  match entropy with
  | None => Err io_error
  | Some bytes => Ok (hex.EncodeToString bytes)
  end.

Definition GenerateEmailVerificationToken (pm : PasswordManager) (entropy : option string)
  : result string :=
  match entropy with
  | None => Err io_error
  | Some bytes => Ok (hex.EncodeToString bytes)
  end.

(** *** session.go *)

Module Session.
Record t : Type := {
  SessionToken : string;
  UserID : string;
  ExpiresAt : time.Time;
  CreatedAt : time.Time;
  UpdatedAt : time.Time;
  IPAddress : string;
  UserAgent : string;
  IsActive : bool
}.
End Session.

Record SessionManager : Type := { sessionTTL : time.Duration }.

Definition NewSessionManager (sessionTTLHours : Z) : SessionManager :=
  {| sessionTTL := time.mul sessionTTLHours time.Hour |}.

Definition generateSecureToken (entropy : option string) : result string :=
  match entropy with
  | None => Err io_error
  | Some bytes => Ok (hex.EncodeToString bytes)
  end.

Definition GenerateSession (sm : SessionManager) (entropy : option string) (now : time.Time)
    (userID ipAddress userAgent : string) : result Session.t :=
  match generateSecureToken entropy with
  | Err err => Err err
  | Ok sessionToken =>
      Ok {| Session.SessionToken := sessionToken;
            Session.UserID := userID;
            Session.ExpiresAt := time.Add now (sessionTTL sm);
            Session.CreatedAt := now;
            Session.UpdatedAt := now;
            Session.IPAddress := ipAddress;
            Session.UserAgent := userAgent;
            Session.IsActive := true |}
  end.

(** [session] is a pointer: [None] is [nil]. *)
Definition IsSessionValid (sm : SessionManager) (session : option Session.t)
    (now : time.Time) : bool :=
  match session with
  | None => false
  | Some session => Session.IsActive session && time.Before now (Session.ExpiresAt session)
  end.

(** The clock is read twice: [now] for the new expiry, [now'] for
    [UpdatedAt]. *)
Definition RefreshSession (sm : SessionManager) (session : Session.t)
    (now now' : time.Time) : Session.t :=
  {| Session.SessionToken := Session.SessionToken session;
     Session.UserID := Session.UserID session;
     Session.ExpiresAt := time.Add now (sessionTTL sm);
     Session.CreatedAt := Session.CreatedAt session;
     Session.UpdatedAt := now';
     Session.IPAddress := Session.IPAddress session;
     Session.UserAgent := Session.UserAgent session;
     Session.IsActive := Session.IsActive session |}.

Definition RevokeSession (sm : SessionManager) (session : Session.t) (now : time.Time)
  : Session.t :=
  {| Session.SessionToken := Session.SessionToken session;
     Session.UserID := Session.UserID session;
     Session.ExpiresAt := Session.ExpiresAt session;
     Session.CreatedAt := Session.CreatedAt session;
     Session.UpdatedAt := now;
     Session.IPAddress := Session.IPAddress session;
     Session.UserAgent := Session.UserAgent session;
     Session.IsActive := false |}.

Record AuthManager : Type := {
  jwtManager : JWTManager;
  sessionManager : SessionManager;
  passwordManager : PasswordManager
}.

Definition NewAuthManager (jwtSecret : string)
    (accessTTLHours refreshTTLDays sessionTTLHours passwordSaltRounds : Z) : AuthManager :=
  {| jwtManager := NewJWTManager jwtSecret accessTTLHours refreshTTLDays;
     sessionManager := NewSessionManager sessionTTLHours;
     passwordManager := NewPasswordManager passwordSaltRounds |}.

(** The two tokens are minted one after the other; the readings of the
    clock within the call are taken to be the one instant [now], here and in
    [RefreshAuthTokens]. *)
Definition CreateAuthTokens (am : AuthManager) (accessEntropy refreshEntropy : option string)
    (now : time.Time) (userID email role name : string) : result (Token * Token) :=
  match GenerateAccessToken (jwtManager am) accessEntropy now userID email role name with
  | Err err => Err err
  | Ok accessToken =>
      match GenerateRefreshToken (jwtManager am) refreshEntropy now userID email with
      | Err err => Err err
      | Ok refreshToken => Ok (accessToken, refreshToken)
      end
  end.

Definition RefreshAuthTokens (am : AuthManager) (accessEntropy refreshEntropy : option string)
    (now : time.Time) (refreshTokenString : Token) : result (Token * Token) :=
  (* Validate refresh token *)
  match ValidateRefreshToken jwt_ParseWithClaims (jwtManager am) refreshTokenString now with
  | Err _ => Err (errors_New "invalid refresh token")
  | Ok claims =>
      (* Generate new tokens *)
      match GenerateAccessToken (jwtManager am) accessEntropy now (UserID claims)
              (Email claims) (Role claims) (Name claims) with
      | Err err => Err err
      | Ok newAccessToken =>
          match GenerateRefreshToken (jwtManager am) refreshEntropy now (UserID claims)
                  (Email claims) with
          | Err err => Err err
          | Ok newRefreshToken => Ok (newAccessToken, newRefreshToken)
          end
      end
  end.

End auth.

(** ** package models (internal/models)

    The fields the authentication operations read or write; the audit
    columns ([CreatedAt], [UpdatedAt]), the avatar and the requester's address
    and agent are left out. *)

Module models.

Definition Role : Type := string.
Definition RoleAdmin : Role := "ADMIN".
Definition RoleManager : Role := "MANAGER".
Definition RoleCashier : Role := "CASHIER".

(** [models.ValidateRole]: membership in the closed set of roles. *)
Definition ValidateRole (role : string) : bool :=
  bool_decide (role = RoleAdmin) || bool_decide (role = RoleManager)
  || bool_decide (role = RoleCashier).

Module User.
Record t : Type := {
  ID : uuid.UUID;
  Email : string;
  Name : string;
  Role : models.Role;
  IsActive : bool;
  LastLoginAt : option time.Time
}.
End User.

(** The role helpers of the user model. *)
Definition IsAdmin (u : User.t) : bool := bool_decide (User.Role u = RoleAdmin).

Definition IsManager (u : User.t) : bool :=
  bool_decide (User.Role u = RoleAdmin) || bool_decide (User.Role u = RoleManager).

Definition IsCashier (u : User.t) : bool :=
  bool_decide (User.Role u = RoleAdmin) || bool_decide (User.Role u = RoleManager)
  || bool_decide (User.Role u = RoleCashier).

Definition CanAccessResource (u : User.t) (requiredRole : Role) : bool :=
  if bool_decide (requiredRole = RoleAdmin) then IsAdmin u
  else if bool_decide (requiredRole = RoleManager) then IsManager u
  else if bool_decide (requiredRole = RoleCashier) then IsCashier u
  else false.

Module Account.
Record t : Type := {
  ID : uuid.UUID;
  UserID : uuid.UUID;
  Type_ : string;
  Provider : string;
  ProviderAccountID : string
}.
End Account.

Module Session.
Record t : Type := {
  ID : uuid.UUID;
  SessionToken : auth.Token;
  UserID : uuid.UUID;
  ExpiresAt : time.Time;
  IsActive : bool
}.
End Session.

Module Password.
Record t : Type := {
  ID : uuid.UUID;
  UserID : uuid.UUID;
  HashedPassword : bcrypt.Hash
}.
End Password.

Module RegisterRequest.
Record t : Type := { Name : string; Email : string; Password : string }.
End RegisterRequest.

Module LoginRequest.
Record t : Type := { Email : string; Password : string }.
End LoginRequest.

Module AuthResponse.
Record t : Type := {
  User : User.t;
  AccessToken : auth.Token;
  RefreshToken : auth.Token;
  ExpiresIn : Z
}.
End AuthResponse.

Module RefreshTokenRequest.
Record t : Type := { RefreshToken : auth.Token }.
End RefreshTokenRequest.

Module RefreshTokenResponse.
Record t : Type := { AccessToken : auth.Token; RefreshToken : auth.Token; ExpiresIn : Z }.
End RefreshTokenResponse.

Module ChangePasswordRequest.
Record t : Type := { CurrentPassword : string; NewPassword : string }.
End ChangePasswordRequest.

End models.

(** ** The store and the world around one call *)

(** The four tables the authentication service works on. *)
Record DB : Type := {
  users : list models.User.t;
  passwords : list models.Password.t;
  accounts : list models.Account.t;
  sessions : list models.Session.t
}.

Definition emptyDB : DB :=
  {| users := []; passwords := []; accounts := []; sessions := [] |}.

(** The repository calls the service makes; each returns an [error] and can
    fail for reasons of its own (connection, timeout). *)
Inductive RepoCall : Type :=
  | UserCreate | UserGetByID | UserGetByEmail | UserUpdateLastLogin | UserSetActiveStatus
  | PasswordCreate | PasswordGetByUserID | PasswordUpdate
  | AccountCreate
  | SessionCreate | SessionGetByToken | SessionGetByUserID
  | SessionDelete (id : uuid.UUID)
  | SessionRevokeAllUserSessions
  | TxCommit.

(** What one service call reads from outside the store: the clock, the
    identifiers [uuid.New] hands out, the entropy behind the salt and the two
    token ids, and which repository calls fail on their own account.  A call
    reads the clock several times; the readings within one call are taken to
    be the one instant [now]. *)
Record Env : Type := {
  now : time.Time;
  newUserID : uuid.UUID;
  newPasswordID : uuid.UUID;
  newAccountID : uuid.UUID;
  newSessionID : uuid.UUID;
  salt : option string;
  accessEntropy : option string;
  refreshEntropy : option string;
  fault : RepoCall -> bool
}.

(** A computation on the store.  An error does not undo what was written
    before it. *)
Definition M (A : Type) : Type := DB -> result A * DB.

Definition ret {A} (a : A) : M A := fun db => (Ok a, db).
Definition fail {A} (e : error) : M A := fun db => (Err e, db).
Definition lift {A} (r : result A) : M A := fun db => (r, db).

Definition bind {A B} (m : M A) (k : A -> M B) : M B :=
  fun db =>
    match m db with
    | (Ok a, db') => k a db'
    | (Err e, db') => (Err e, db')
    end.

(** [if err != nil { h err }] *)
Definition orElse {A} (m : M A) (h : error -> M A) : M A :=
  fun db =>
    match m db with
    | (Err e, db') => h e db'
    | r => r
    end.

(** Run [m] and hand its outcome, error or not, to the continuation. *)
Definition try {A} (m : M A) : M (result A) :=
  fun db => let '(r, db') := m db in (Ok r, db').

Declare Scope store_scope.
Delimit Scope store_scope with store.
Notation "x <- m ;; k" := (bind m (fun x => k))
  (at level 100, m at next level, right associativity) : store_scope.
Notation "m ;;; k" := (bind m (fun _ => k))
  (at level 100, right associativity) : store_scope.

(** ** package gorm *)

Module gorm.

(** A transaction handle: the writes executed through it, applied to the
    store when it commits and dropped when it rolls back.  A write made
    through another handle is outside the transaction. *)
Definition Tx : Type := list (DB -> DB).

Definition Begin : M Tx := ret [].

Definition Rollback (tx : Tx) : M unit := ret tt.

Definition Commit (env : Env) (tx : Tx) : M unit :=
  fun db =>
    if fault env TxCommit then (Err io_error, db)
    else (Ok tt, fold_left (fun d w => w d) tx db).

End gorm.

(** ** package repository

    Modelled from the spec: the sources declare the repository interfaces
    only, their implementations are missing.  What follows is an in-memory
    reference store for the calls the authentication service makes, after
    the SessionStore contract of the specification and the analogous
    credential and identity contracts: [Create] inserts and fails on a
    duplicate of a unique column (the primary keys and the UNIQUE columns of
    the schema), the getters fail with not-found and return the row whatever
    its flags, [Delete] removes the rows with the given id and is idempotent
    (the [Session] model has no soft-delete column),
    [RevokeAllUserSessions] clears the active flag of the user's sessions.
    Foreign keys are not checked.  Every call first consults [fault] and
    fails with an I/O error when told to. *)

Module repository.

Import models.

Definition guarded {A} (env : Env) (call : RepoCall) (m : M A) : M A :=
  fun db => if fault env call then (Err io_error, db) else m db.

Definition find_or_not_found {A} (f : A -> bool) (l : list A) : result A :=
  match List.find f l with
  | Some a => Ok a
  | None => Err gorm_ErrRecordNotFound
  end.

Module User.

Definition Create (env : Env) (user : User.t) : M unit :=
  guarded env UserCreate (fun db =>
    if existsb (fun u => bool_decide (User.ID u = User.ID user)
                         || bool_decide (User.Email u = User.Email user)) (users db)
    then (Err gorm_ErrDuplicatedKey, db)
    else (Ok tt, {| users := users db ++ [user]; passwords := passwords db;
                    accounts := accounts db; sessions := sessions db |})).

Definition GetByID (env : Env) (id : uuid.UUID) : M User.t :=
  guarded env UserGetByID (fun db =>
    (find_or_not_found (fun u => bool_decide (User.ID u = id)) (users db), db)).

Definition GetByEmail (env : Env) (email : string) : M User.t :=
  guarded env UserGetByEmail (fun db =>
    (find_or_not_found (fun u => bool_decide (User.Email u = email)) (users db), db)).

Definition touch (now : time.Time) (id : uuid.UUID) (u : User.t) : User.t :=
  if bool_decide (User.ID u = id)
  then {| User.ID := User.ID u; User.Email := User.Email u; User.Name := User.Name u;
          User.Role := User.Role u; User.IsActive := User.IsActive u;
          User.LastLoginAt := Some now |}
  else u.

Definition UpdateLastLogin (env : Env) (id : uuid.UUID) : M unit :=
  guarded env UserUpdateLastLogin (fun db =>
    (Ok tt, {| users := map (touch (now env) id) (users db); passwords := passwords db;
               accounts := accounts db; sessions := sessions db |})).

Definition SetActiveStatus (env : Env) (id : uuid.UUID) (isActive : bool) : M unit :=
  guarded env UserSetActiveStatus (fun db =>
    (Ok tt,
     {| users := map (fun u => if bool_decide (User.ID u = id)
                               then {| User.ID := User.ID u; User.Email := User.Email u;
                                       User.Name := User.Name u; User.Role := User.Role u;
                                       User.IsActive := isActive;
                                       User.LastLoginAt := User.LastLoginAt u |}
                               else u) (users db);
        passwords := passwords db; accounts := accounts db; sessions := sessions db |})).

End User.

Module Password.

Definition Create (env : Env) (password : Password.t) : M unit :=
  guarded env PasswordCreate (fun db =>
    if existsb (fun p => bool_decide (Password.ID p = Password.ID password)
                         || bool_decide (Password.UserID p = Password.UserID password))
         (passwords db)
    then (Err gorm_ErrDuplicatedKey, db)
    else (Ok tt, {| users := users db; passwords := passwords db ++ [password];
                    accounts := accounts db; sessions := sessions db |})).

Definition GetByUserID (env : Env) (userID : uuid.UUID) : M Password.t :=
  guarded env PasswordGetByUserID (fun db =>
    (find_or_not_found (fun p => bool_decide (Password.UserID p = userID)) (passwords db),
     db)).

Definition Update (env : Env) (password : Password.t) : M unit :=
  guarded env PasswordUpdate (fun db =>
    (Ok tt, {| users := users db;
               passwords := map (fun p => if bool_decide (Password.ID p = Password.ID password)
                                          then password else p) (passwords db);
               accounts := accounts db; sessions := sessions db |})).

End Password.

Module Account.

Definition Create (env : Env) (account : Account.t) : M unit :=
  guarded env AccountCreate (fun db =>
    if existsb (fun a => bool_decide (Account.ID a = Account.ID account)
                         || (bool_decide (Account.Provider a = Account.Provider account)
                             && bool_decide (Account.ProviderAccountID a
                                             = Account.ProviderAccountID account)))
         (accounts db)
    then (Err gorm_ErrDuplicatedKey, db)
    else (Ok tt, {| users := users db; passwords := passwords db;
                    accounts := accounts db ++ [account]; sessions := sessions db |})).

End Account.

Module Session.

(** The row as stored: the column default [true] stands in for the zero
    value of [IsActive], which is all the service ever passes. *)
Definition stored (session : Session.t) : Session.t :=
  {| Session.ID := Session.ID session; Session.SessionToken := Session.SessionToken session;
     Session.UserID := Session.UserID session; Session.ExpiresAt := Session.ExpiresAt session;
     Session.IsActive := true |}.

Definition Create (env : Env) (session : Session.t) : M unit :=
  guarded env SessionCreate (fun db =>
    if existsb (fun x => bool_decide (Session.ID x = Session.ID session)
                         || bool_decide (Session.SessionToken x = Session.SessionToken session))
         (sessions db)
    then (Err gorm_ErrDuplicatedKey, db)
    else (Ok tt, {| users := users db; passwords := passwords db; accounts := accounts db;
                    sessions := sessions db ++ [stored session] |})).

Definition GetByToken (env : Env) (token : auth.Token) : M Session.t :=
  guarded env SessionGetByToken (fun db =>
    (find_or_not_found (fun x => bool_decide (Session.SessionToken x = token)) (sessions db),
     db)).

Definition GetByUserID (env : Env) (userID : uuid.UUID) : M (list Session.t) :=
  guarded env SessionGetByUserID (fun db =>
    (Ok (List.filter (fun x => bool_decide (Session.UserID x = userID)) (sessions db)), db)).

Definition Delete (env : Env) (id : uuid.UUID) : M unit :=
  guarded env (SessionDelete id) (fun db =>
    (Ok tt, {| users := users db; passwords := passwords db; accounts := accounts db;
               sessions := List.filter (fun x => negb (bool_decide (Session.ID x = id)))
                             (sessions db) |})).

Definition RevokeAllUserSessions (env : Env) (userID : uuid.UUID) : M unit :=
  guarded env SessionRevokeAllUserSessions (fun db =>
    (Ok tt,
     {| users := users db; passwords := passwords db; accounts := accounts db;
        sessions :=
          map (fun x => if bool_decide (Session.UserID x = userID)
                        then {| Session.ID := Session.ID x;
                                Session.SessionToken := Session.SessionToken x;
                                Session.UserID := Session.UserID x;
                                Session.ExpiresAt := Session.ExpiresAt x;
                                Session.IsActive := false |}
                        else x) (sessions db) |})).

End Session.

End repository.

(** ** package services (internal/services/auth_service.go) *)

Module services.

Import models.
Local Open Scope store_scope.

Record AuthService : Type := { jwtManager : auth.JWTManager }.

(** [errors.Is(err, gorm.ErrRecordNotFound)] *)
Definition is_ErrRecordNotFound : error -> bool :=
  errors_Is (fun e => match e with gorm_ErrRecordNotFound => true | _ => false end).

(** [return nil, fmt.Errorf(msg + ": %w", err)] *)
Definition wrapped {A} (msg : string) (err : error) : M A := fail (fmt_Errorf msg err).

(** The session both [Register] and [Login] build. *)
Definition newSession (env : Env) (userID : uuid.UUID) (refreshToken : auth.Token)
  : Session.t :=
  {| Session.ID := newSessionID env;
     Session.UserID := userID;
     Session.SessionToken := refreshToken;
     Session.ExpiresAt := time.Add (now env) (24 * time.Hour * 30);
     Session.IsActive := false |}.

Definition Register (s : AuthService) (env : Env) (req : RegisterRequest.t)
  : M AuthResponse.t :=
  (* Check if user already exists *)
  existingUser <- try (repository.User.GetByEmail env (RegisterRequest.Email req)) ;;
  if is_Ok existingUser then fail ErrEmailAlreadyExists else
  (* Start transaction *)
  tx <- gorm.Begin ;;
  (* Create user *)
  let user :=
    {| User.ID := newUserID env;
       User.Email := RegisterRequest.Email req;
       User.Name := RegisterRequest.Name req;
       User.Role := RoleCashier;
       User.IsActive := true;
       User.LastLoginAt := None |} in
  orElse (repository.User.Create env user)
    (fun err => gorm.Rollback tx ;;; wrapped "failed to create user" err) ;;;
  (* Hash password *)
  hashedPassword <-
    orElse (lift (bcrypt.GenerateFromPassword (salt env) (RegisterRequest.Password req)
                    bcrypt.DefaultCost))
      (fun err => gorm.Rollback tx ;;; wrapped "failed to hash password" err) ;;
  (* Create password record *)
  let password :=
    {| Password.ID := newPasswordID env;
       Password.UserID := User.ID user;
       Password.HashedPassword := hashedPassword |} in
  orElse (repository.Password.Create env password)
    (fun err => gorm.Rollback tx ;;; wrapped "failed to create password" err) ;;;
  (* Create email account record *)
  let account :=
    {| Account.ID := newAccountID env;
       Account.UserID := User.ID user;
       Account.Type_ := "email";
       Account.Provider := "email";
       Account.ProviderAccountID := RegisterRequest.Email req |} in
  orElse (repository.Account.Create env account)
    (fun err => gorm.Rollback tx ;;; wrapped "failed to create account" err) ;;;
  (* Commit transaction *)
  orElse (gorm.Commit env tx) (wrapped "failed to commit transaction") ;;;
  (* Generate tokens *)
  accessToken <-
    orElse (lift (auth.GenerateAccessToken (jwtManager s) (accessEntropy env) (now env)
                    (uuid.String (User.ID user)) (User.Email user) (User.Role user)
                    (User.Name user)))
      (wrapped "failed to generate access token") ;;
  refreshToken <-
    orElse (lift (auth.GenerateRefreshToken (jwtManager s) (refreshEntropy env) (now env)
                    (uuid.String (User.ID user)) (User.Email user)))
      (wrapped "failed to generate refresh token") ;;
  (* Create session *)
  let session := newSession env (User.ID user) refreshToken in
  orElse (repository.Session.Create env session) (wrapped "failed to create session") ;;;
  ret {| AuthResponse.AccessToken := accessToken;
         AuthResponse.RefreshToken := refreshToken;
         AuthResponse.ExpiresIn := 3600;
         AuthResponse.User := user |}.

Definition Login (s : AuthService) (env : Env) (req : LoginRequest.t) : M AuthResponse.t :=
  (* Get user by email *)
  user <-
    orElse (repository.User.GetByEmail env (LoginRequest.Email req))
      (fun err =>
         if is_ErrRecordNotFound err then fail ErrInvalidCredentials
         else wrapped "failed to get user" err) ;;
  (* Check if user is active *)
  if negb (User.IsActive user) then fail ErrUserNotActive else
  (* Get password record *)
  password <-
    orElse (repository.Password.GetByUserID env (User.ID user))
      (fun _ => fail ErrInvalidCredentials) ;;
  (* Verify password *)
  match bcrypt.CompareHashAndPassword (Password.HashedPassword password)
          (LoginRequest.Password req) with
  | Some _ => fail ErrInvalidCredentials
  | None =>
  (* Update last login: the error is logged, the login goes on *)
  _ <- try (repository.User.UpdateLastLogin env (User.ID user)) ;;
  (* Generate tokens *)
  accessToken <-
    orElse (lift (auth.GenerateAccessToken (jwtManager s) (accessEntropy env) (now env)
                    (uuid.String (User.ID user)) (User.Email user) (User.Role user)
                    (User.Name user)))
      (wrapped "failed to generate access token") ;;
  refreshToken <-
    orElse (lift (auth.GenerateRefreshToken (jwtManager s) (refreshEntropy env) (now env)
                    (uuid.String (User.ID user)) (User.Email user)))
      (wrapped "failed to generate refresh token") ;;
  (* Create or update session *)
  let session := newSession env (User.ID user) refreshToken in
  orElse (repository.Session.Create env session) (wrapped "failed to create session") ;;;
  ret {| AuthResponse.AccessToken := accessToken;
         AuthResponse.RefreshToken := refreshToken;
         AuthResponse.ExpiresIn := 3600;
         AuthResponse.User := user |}
  end.

Definition RefreshToken (s : AuthService) (env : Env) (req : RefreshTokenRequest.t)
  : M RefreshTokenResponse.t :=
  (* Validate refresh token *)
  claims <-
    orElse (lift (auth.ValidateRefreshToken auth.jwt_ParseWithClaims (jwtManager s)
                    (RefreshTokenRequest.RefreshToken req) (now env)))
      (fun _ => fail ErrInvalidToken) ;;
  (* Get user *)
  match uuid.Parse (auth.UserID claims) with
  | None => fail ErrInvalidToken
  | Some userID =>
  user <- orElse (repository.User.GetByID env userID) (fun _ => fail ErrUserNotFound) ;;
  (* Check if user is still active *)
  if negb (User.IsActive user) then fail ErrUserNotActive else
  (* Check if session exists and is valid *)
  session <-
    orElse (repository.Session.GetByToken env (RefreshTokenRequest.RefreshToken req))
      (fun _ => fail ErrInvalidToken) ;;
  if time.Before (Session.ExpiresAt session) (now env) then
    (* Clean up expired session *)
    _ <- try (repository.Session.Delete env (Session.ID session)) ;;
    fail ErrTokenExpired
  else
  (* Generate new access token *)
  accessToken <-
    orElse (lift (auth.GenerateAccessToken (jwtManager s) (accessEntropy env) (now env)
                    (uuid.String (User.ID user)) (User.Email user) (User.Role user)
                    (User.Name user)))
      (wrapped "failed to generate access token") ;;
  ret {| RefreshTokenResponse.AccessToken := accessToken;
         RefreshTokenResponse.RefreshToken := jwt.Malformed "";
         RefreshTokenResponse.ExpiresIn := 3600 |}
  end.

Definition Logout (s : AuthService) (env : Env) (refreshToken : auth.Token) : M unit :=
  found <- try (repository.Session.GetByToken env refreshToken) ;;
  match found with
  | Err _ =>
      (* Session not found, consider it already logged out *)
      ret tt
  | Ok session => repository.Session.Delete env (Session.ID session)
  end.

Definition GetUserFromToken (s : AuthService) (env : Env) (token : auth.Token) : M User.t :=
  claims <-
    orElse (lift (auth.ValidateAccessToken auth.jwt_ParseWithClaims (jwtManager s) token
                    (now env)))
      (fun _ => fail ErrInvalidToken) ;;
  match uuid.Parse (auth.UserID claims) with
  | None => fail ErrInvalidToken
  | Some userID =>
  user <- orElse (repository.User.GetByID env userID) (fun _ => fail ErrUserNotFound) ;;
  if negb (User.IsActive user) then fail ErrUserNotActive else
  ret user
  end.

Definition roleHierarchy : gmap string Z :=
  <[RoleCashier := 1]> (<[RoleManager := 2]> (<[RoleAdmin := 3]> ∅)).

Definition ValidateRole (s : AuthService) (userRole requiredRole : Role) : option error :=
  let userLevel := default 0 (roleHierarchy !! userRole) in
  let requiredLevel := default 0 (roleHierarchy !! requiredRole) in
  if userLevel <? requiredLevel then Some ErrInsufficientRole else None.

Definition ChangePassword (s : AuthService) (env : Env) (userID : uuid.UUID)
    (req : ChangePasswordRequest.t) : M unit :=
  (* Get current password *)
  currentPassword <-
    orElse (repository.Password.GetByUserID env userID)
      (wrapped "failed to get current password") ;;
  (* Verify current password *)
  match bcrypt.CompareHashAndPassword (Password.HashedPassword currentPassword)
          (ChangePasswordRequest.CurrentPassword req) with
  | Some _ => fail ErrInvalidCredentials
  | None =>
  (* Hash new password *)
  hashedPassword <-
    orElse (lift (bcrypt.GenerateFromPassword (salt env)
                    (ChangePasswordRequest.NewPassword req) bcrypt.DefaultCost))
      (wrapped "failed to hash new password") ;;
  (* Update password *)
  let currentPassword :=
    {| Password.ID := Password.ID currentPassword;
       Password.UserID := Password.UserID currentPassword;
       Password.HashedPassword := hashedPassword |} in
  orElse (repository.Password.Update env currentPassword)
    (wrapped "failed to update password") ;;;
  (* Invalidate all existing sessions for the user *)
  found <- try (repository.Session.GetByUserID env userID) ;;
  match found with
  | Ok sessions =>
      fun db =>
        (Ok tt,
         fold_left (fun d session => snd (repository.Session.Delete env (Session.ID session) d))
           sessions db)
  | Err _ => ret tt
  end
  end.

End services.

(** ** package strings *)

Module strings.

Definition HasPrefix (s prefix : string) : bool := String.prefix prefix s.

Definition TrimPrefix (s prefix : string) : string :=
  if HasPrefix s prefix
  then substring (String.length prefix) (String.length s - String.length prefix) s
  else s.

End strings.

(** ** package github.com/gin-gonic/gin

    Of a request context, what the handlers of this program use: the
    request headers, the keys handlers set for one another, the responses
    written with [c.JSON] in the order of the calls (status and the text of
    the [error] field), and whether [c.Abort] was called. *)

Module gin.

Import models.

(** The values the handlers store under keys; a type assertion on the
    stored [interface{}] is a match on the constructor. *)
Inductive Value : Type :=
  | VUser (user : User.t)
  | VUUID (id : uuid.UUID)
  | VString (s : string)
  | VRole (role : Role).

Record Context : Type :=
  { Header : gmap string string;
    Keys : gmap string Value;
    written : list (Z * string);
    aborted : bool }.

(** The value of the header, the empty string without one. *)
Definition GetHeader (c : Context) (key : string) : string := default "" (Header c !! key).

Definition JSON (c : Context) (code : Z) (error : string) : Context :=
  {| Header := Header c; Keys := Keys c;
     written := (written c ++ [(code, error)])%list; aborted := aborted c |}.

Definition Abort (c : Context) : Context :=
  {| Header := Header c; Keys := Keys c; written := written c; aborted := true |}.

Definition Set_ (c : Context) (key : string) (value : Value) : Context :=
  {| Header := Header c; Keys := <[key := value]> (Keys c);
     written := written c; aborted := aborted c |}.

Definition Get (c : Context) (key : string) : option Value := Keys c !! key.

End gin.

Module http.
Definition StatusUnauthorized : Z := 401.
Definition StatusForbidden : Z := 403.
Definition StatusInternalServerError : Z := 500.
End http.

(** ** package middleware (internal/middleware)

    Every handler of the package either answers and aborts, or ends with
    [c.Next()]: a handler is what it does to the context and the store
    before that, and the handlers of a route run in order until one has
    aborted. *)

Module middleware.

Import models.

Record AuthMiddleware : Type := { authService : services.AuthService }.

Definition NewAuthMiddleware (authService : services.AuthService) : AuthMiddleware :=
  {| authService := authService |}.

Definition HandlerFunc : Type := Env -> gin.Context -> DB -> gin.Context * DB.

Fixpoint run (handlers : list HandlerFunc) (env : Env) (c : gin.Context) (db : DB)
  : gin.Context * DB :=
  match handlers with
  | [] => (c, db)
  | handler :: rest =>
      if gin.aborted c then (c, db)
      else let (c', db') := handler env c db in run rest env c' db'
  end.

Section Handlers.

(** The token a compact serialisation stands for. *)
Variable decode : string -> auth.Token.

Definition RequireAuth (m : AuthMiddleware) : HandlerFunc := fun env c db =>
  (* Get token from Authorization header *)
  let authHeader := gin.GetHeader c "Authorization" in
  if bool_decide (authHeader = "") then
    (gin.Abort (gin.JSON c http.StatusUnauthorized "Authorization header required"), db)
  else
  (* Check if header starts with "Bearer " *)
  if negb (strings.HasPrefix authHeader "Bearer ") then
    (gin.Abort (gin.JSON c http.StatusUnauthorized "Invalid authorization header format"), db)
  else
  (* Extract token *)
  let token := strings.TrimPrefix authHeader "Bearer " in
  if bool_decide (token = "") then
    (gin.Abort (gin.JSON c http.StatusUnauthorized "Token required"), db)
  else
  (* Validate token and get user *)
  match services.GetUserFromToken (authService m) env (decode token) db with
  | (Err _, db') =>
      (gin.Abort (gin.JSON c http.StatusUnauthorized "Invalid or expired token"), db')
  | (Ok user, db') =>
      (* Set user in context *)
      let c := gin.Set_ c "user" (gin.VUser user) in
      let c := gin.Set_ c "user_id" (gin.VUUID (User.ID user)) in
      let c := gin.Set_ c "user_email" (gin.VString (User.Email user)) in
      let c := gin.Set_ c "user_role" (gin.VRole (User.Role user)) in
      (c, db')
  end.

Definition OptionalAuth (m : AuthMiddleware) : HandlerFunc := fun env c db =>
  let authHeader := gin.GetHeader c "Authorization" in
  if bool_decide (authHeader = "") then (c, db) else
  if negb (strings.HasPrefix authHeader "Bearer ") then (c, db) else
  let token := strings.TrimPrefix authHeader "Bearer " in
  if bool_decide (token = "") then (c, db) else
  match services.GetUserFromToken (authService m) env (decode token) db with
  | (Err _, db') =>
      (* Invalid token, but don't abort since auth is optional *)
      (c, db')
  | (Ok user, db') =>
      let c := gin.Set_ c "user" (gin.VUser user) in
      let c := gin.Set_ c "user_id" (gin.VUUID (User.ID user)) in
      let c := gin.Set_ c "user_email" (gin.VString (User.Email user)) in
      let c := gin.Set_ c "user_role" (gin.VRole (User.Role user)) in
      (c, db')
  end.

End Handlers.

Definition RequireRole (m : AuthMiddleware) (requiredRole : Role) : HandlerFunc :=
  fun env c db =>
  (* Get user from context (should be set by RequireAuth middleware) *)
  match gin.Get c "user" with
  | None => (gin.Abort (gin.JSON c http.StatusUnauthorized "Authentication required"), db)
  | Some (gin.VUser user) =>
      (* Check role *)
      match services.ValidateRole (authService m) (User.Role user) requiredRole with
      | Some _ =>
          (gin.Abort (gin.JSON c http.StatusForbidden "Insufficient permissions"), db)
      | None => (c, db)
      end
  | Some _ =>
      (gin.Abort (gin.JSON c http.StatusInternalServerError "Invalid user context"), db)
  end.

Definition RequireAdmin (m : AuthMiddleware) : HandlerFunc := RequireRole m RoleAdmin.

Definition RequireManager (m : AuthMiddleware) : HandlerFunc := RequireRole m RoleManager.

Definition RequireActivation (m : AuthMiddleware) : HandlerFunc := fun env c db =>
  match gin.Get c "user" with
  | None => (gin.Abort (gin.JSON c http.StatusUnauthorized "Authentication required"), db)
  | Some (gin.VUser user) =>
      (* Check if user is active *)
      if negb (User.IsActive user) then
        (gin.Abort (gin.JSON c http.StatusForbidden "Account is not active"), db)
      else (c, db)
  | Some _ =>
      (gin.Abort (gin.JSON c http.StatusInternalServerError "Invalid user context"), db)
  end.

(** [nil, false] is [None]; a key holding something else than a user gives
    [nil, false] as well. *)
Definition GetUserFromContext (c : gin.Context) : option User.t :=
  match gin.Get c "user" with
  | Some (gin.VUser user) => Some user
  | _ => None
  end.

Definition GetUserRoleFromContext (c : gin.Context) : Role * bool :=
  match gin.Get c "user_role" with
  | Some (gin.VRole role) => (role, true)
  | _ => ("", false)
  end.

End middleware.

(** * Worked inputs and auxiliary predicates *)

Import models.

(** One manager, one instant and the two tokens it issues there: used by the
    worked instances below. *)
Definition sampleManager : auth.JWTManager := auth.NewJWTManager "test-secret-key" 1 7.
Definition sampleInstant : time.Time := 1700000000123456789.

Definition sampleAccessToken : auth.Token :=
  match auth.GenerateAccessToken sampleManager (Some "0123456789abcdef") sampleInstant
          "user123" "test@example.com" "MANAGER" "Test User" with
  | Ok tok => tok
  | Err _ => jwt.Malformed ""
  end.

(** No byte of [s] is NUL. *)
Definition nul_free (s : string) : bool :=
  forallb (fun c => negb (bool_decide (c = bcrypt.NUL))) (list_ascii_of_string s).

(** A conforming secret of exactly 72 bytes, and the same with one more
    byte. *)
Definition secret72 : string :=
  "Abc12345!Abc12345!Abc12345!Abc12345!Abc12345!Abc12345!Abc12345!Abc12345!".
Definition secret73 : string := secret72 ++ "y".

(** No session row holds the token: it was never stored, or its session
    was deleted. *)
Definition session_revoked (db : DB) (token : auth.Token) : Prop :=
  forall x, In x (sessions db) -> Session.SessionToken x <> token.

Definition noFault : RepoCall -> bool := fun _ => false.

Ltac run_store :=
  unfold bind, orElse, try, lift, fail, ret, services.wrapped, repository.guarded,
    repository.find_or_not_found in *;
  cbv beta.

(** A worked scenario: Ann registers on the empty store; a minute later
    further calls are made. *)
Definition sampleService : services.AuthService := {| services.jwtManager := sampleManager |}.

Definition sampleEnv : Env :=
  {| now := sampleInstant;
     newUserID := 1%N; newPasswordID := 2%N; newAccountID := 3%N; newSessionID := 4%N;
     salt := Some "0123456789abcdef";
     accessEntropy := Some "aaaaaaaaaaaaaaaa";
     refreshEntropy := Some "rrrrrrrrrrrrrrrr";
     fault := noFault |}.

Definition withFault (env : Env) (f : RepoCall -> bool) : Env :=
  {| now := now env;
     newUserID := newUserID env; newPasswordID := newPasswordID env;
     newAccountID := newAccountID env; newSessionID := newSessionID env;
     salt := salt env; accessEntropy := accessEntropy env;
     refreshEntropy := refreshEntropy env;
     fault := f |}.

Definition laterEnv : Env :=
  {| now := sampleInstant + 60 * time.Second;
     newUserID := 5%N; newPasswordID := 6%N; newAccountID := 7%N; newSessionID := 8%N;
     salt := Some "fedcba9876543210";
     accessEntropy := Some "AAAAAAAAAAAAAAAA";
     refreshEntropy := Some "RRRRRRRRRRRRRRRR";
     fault := noFault |}.

Definition annRegisters : RegisterRequest.t :=
  {| RegisterRequest.Name := "Ann";
     RegisterRequest.Email := "a@x.com";
     RegisterRequest.Password := "Abc12345!" |}.

Definition registered : result AuthResponse.t * DB :=
  services.Register sampleService sampleEnv annRegisters emptyDB.

Definition annRefreshToken : auth.Token :=
  match fst registered with
  | Ok r => AuthResponse.RefreshToken r
  | Err _ => jwt.Malformed ""
  end.

Definition annRefreshes : RefreshTokenRequest.t :=
  {| RefreshTokenRequest.RefreshToken := annRefreshToken |}.

Definition loggedOut : DB :=
  snd (services.Logout sampleService laterEnv annRefreshToken (snd registered)).

Definition loggedOutDeactivated : DB :=
  snd (repository.User.SetActiveStatus laterEnv 1%N false loggedOut).

Definition annChangesPassword : ChangePasswordRequest.t :=
  {| ChangePasswordRequest.CurrentPassword := "Abc12345!";
     ChangePasswordRequest.NewPassword := "Xyz98765?" |}.

(** The session store is down while the sessions of the user are read. *)
Definition sessionsUnreadable : RepoCall -> bool :=
  fun call => match call with SessionGetByUserID => true | _ => false end.

Definition unknownLogin : LoginRequest.t :=
  {| LoginRequest.Email := "nobody@x.com"; LoginRequest.Password := "Abc12345!" |}.
Definition wrongLogin : LoginRequest.t :=
  {| LoginRequest.Email := "a@x.com"; LoginRequest.Password := "Wrong12345!" |}.

Ltac unfold_repos :=
  unfold repository.User.GetByEmail, repository.User.Create, repository.User.UpdateLastLogin,
    repository.Password.Create, repository.Password.GetByUserID,
    repository.Account.Create, repository.Session.Create,
    gorm.Begin, gorm.Rollback, gorm.Commit in *.

(** The strength policy in the words of the specification: a secret
    violates it when it is shorter than 8 or longer than 128, or lacks an
    uppercase letter, a lowercase letter, a digit or a symbol. *)
Definition violatesPolicy (secret : string) : Prop :=
  (String.length secret < 8)%nat \/ (128 < String.length secret)%nat
  \/ auth.MatchString auth.isUpper secret = false
  \/ auth.MatchString auth.isLower secret = false
  \/ auth.MatchString auth.isNumber secret = false
  \/ auth.MatchString auth.isSpecial secret = false.

Definition weakRegisters : RegisterRequest.t :=
  {| RegisterRequest.Name := "Ann";
     RegisterRequest.Email := "a@x.com";
     RegisterRequest.Password := "weak" |}.

(** The credential table cannot be written. *)
Definition credentialsUnwritable : RepoCall -> bool :=
  fun call => match call with PasswordCreate => true | _ => false end.

(** The account table cannot be written. *)
Definition accountsUnwritable : RepoCall -> bool :=
  fun call => match call with AccountCreate => true | _ => false end.

Definition longRegisters : RegisterRequest.t :=
  {| RegisterRequest.Name := "Ann";
     RegisterRequest.Email := "a@x.com";
     RegisterRequest.Password := secret73 |}.

(** Some byte of [l] belongs to the class. *)
Definition hasClass (class : ascii -> bool) (l : list ascii) : Prop :=
  exists (m : nat) (c : ascii), l !! m = Some c /\ class c = true.

Definition sampleRefreshToken : auth.Token :=
  match auth.GenerateRefreshToken sampleManager (Some "fedcba9876543210") sampleInstant
          "user123" "test@example.com" with
  | Ok tok => tok
  | Err _ => jwt.Malformed ""
  end.

Definition lastLoginUnwritable : RepoCall -> bool :=
  fun call => match call with UserUpdateLastLogin => true | _ => false end.

Definition deactivated : DB :=
  snd (repository.User.SetActiveStatus laterEnv 1%N false (snd registered)).

Definition annLogsIn : LoginRequest.t :=
  {| LoginRequest.Email := "a@x.com"; LoginRequest.Password := "Abc12345!" |}.

Definition loggedInTwice : result AuthResponse.t * DB :=
  services.Login sampleService laterEnv annLogsIn (snd registered).

Definition annRefreshesSecond : RefreshTokenRequest.t :=
  {| RefreshTokenRequest.RefreshToken :=
       match fst loggedInTwice with
       | Ok r => AuthResponse.RefreshToken r
       | Err _ => jwt.Malformed ""
       end |}.

(** The context [RequireAuth] hands on for a user. *)
Definition authenticated (c : gin.Context) (user : User.t) : gin.Context :=
  gin.Set_ (gin.Set_ (gin.Set_ (gin.Set_ c "user" (gin.VUser user))
                        "user_id" (gin.VUUID (User.ID user)))
              "user_email" (gin.VString (User.Email user)))
    "user_role" (gin.VRole (User.Role user)).

Definition annAccessToken : auth.Token :=
  match fst registered with
  | Ok r => AuthResponse.AccessToken r
  | Err _ => jwt.Malformed ""
  end.

Definition sampleDecode : string -> auth.Token :=
  fun raw => if bool_decide (raw = "ann") then annAccessToken else jwt.Malformed raw.

Definition sampleMiddleware : middleware.AuthMiddleware :=
  middleware.NewAuthMiddleware sampleService.

Definition annRequests : gin.Context :=
  {| gin.Header := {[ "Authorization" := "Bearer ann" ]};
     gin.Keys := ∅; gin.written := []; gin.aborted := false |}.

Definition promoted : DB :=
  {| users := map (fun u => {| User.ID := User.ID u; User.Email := User.Email u;
                               User.Name := User.Name u; User.Role := RoleAdmin;
                               User.IsActive := User.IsActive u;
                               User.LastLoginAt := User.LastLoginAt u |})
                (users (snd registered));
     passwords := passwords (snd registered);
     accounts := accounts (snd registered);
     sessions := sessions (snd registered) |}.

(** * Properties *)

(** ** The role check *)

Lemma roleHierarchy_unrecognized (role : Role) :
  models.ValidateRole role = false -> services.roleHierarchy !! role = None.
Proof.
  unfold models.ValidateRole. intros H.
  apply orb_false_iff in H as [H Hc]. apply orb_false_iff in H as [Ha Hm].
  apply bool_decide_eq_false in Ha, Hm, Hc.
  unfold services.roleHierarchy.
  rewrite !lookup_insert_ne by congruence. apply lookup_empty.
Qed.

Lemma roleHierarchy_recognized (role : Role) :
  models.ValidateRole role = true ->
  exists level, services.roleHierarchy !! role = Some level /\ 1 <= level.
Proof.
  unfold models.ValidateRole. intros H.
  apply orb_true_iff in H as [H | Hc]; [apply orb_true_iff in H as [Ha | Hm] |].
  - apply bool_decide_eq_true in Ha as ->. exists 3. split; [reflexivity | lia].
  - apply bool_decide_eq_true in Hm as ->. exists 2. split; [reflexivity | lia].
  - apply bool_decide_eq_true in Hc as ->. exists 1. split; [reflexivity | lia].
Qed.

(** C10.  Roles outside the closed set [{CASHIER, MANAGER, ADMIN}] have rank
    0 in [ValidateRole]: a required role outside the set is granted to every
    held role, recognised or not, and a held role outside the set is refused
    every recognised required role. *)
Theorem ValidateRole_unrecognized (s : services.AuthService) (held required : Role) :
  (models.ValidateRole required = false ->
   default 0 (services.roleHierarchy !! required) = 0
   /\ services.ValidateRole s held required = None)
  /\ (models.ValidateRole held = false -> models.ValidateRole required = true ->
      default 0 (services.roleHierarchy !! held) = 0
      /\ services.ValidateRole s held required = Some ErrInsufficientRole).
Proof.
  split.
  - intros Hreq. apply roleHierarchy_unrecognized in Hreq.
    unfold services.ValidateRole. rewrite Hreq. simpl. split; [reflexivity |].
    destruct (services.roleHierarchy !! held) as [level |] eqn:Hheld; simpl.
    + assert (1 <= level).
      { destruct (models.ValidateRole held) eqn:Hv.
        - apply roleHierarchy_recognized in Hv as (l & Hl & Hge). congruence.
        - apply roleHierarchy_unrecognized in Hv. congruence. }
      destruct (level <? 0) eqn:Hlt; [apply Z.ltb_lt in Hlt; lia | reflexivity].
    + reflexivity.
  - intros Hheld Hreq. apply roleHierarchy_unrecognized in Hheld.
    apply roleHierarchy_recognized in Hreq as (level & Hl & Hge).
    unfold services.ValidateRole. rewrite Hheld, Hl. simpl. split; [reflexivity |].
    destruct (0 <? level) eqn:Hlt; [reflexivity | apply Z.ltb_ge in Hlt; lia].
Qed.

Lemma ValidateRole_unrecognized_witness :
  services.ValidateRole {| services.jwtManager := auth.NewJWTManager "k" 1 7 |}
    "GUEST" "OWNER" = None
  /\ services.ValidateRole {| services.jwtManager := auth.NewJWTManager "k" 1 7 |}
       "GUEST" "CASHIER" = Some ErrInsufficientRole.
Proof.
  split.
  - apply (ValidateRole_unrecognized _ "GUEST" "OWNER"). reflexivity.
  - apply (ValidateRole_unrecognized _ "GUEST" "CASHIER"); reflexivity.
Defined.

(** ** Strings, JSON and dates *)

Lemma append_String (c : ascii) (a b : string) :
  (String c a ++ b)%string = String c (a ++ b)%string.
Proof. reflexivity. Qed.

Lemma length_append (a b : string) :
  String.length (a ++ b)%string = (String.length a + String.length b)%nat.
Proof. induction a as [| c a IH]; [reflexivity |]. cbn. by rewrite <- IH. Qed.

Lemma coerce_String_invalid c r :
  utf8.size (String c r) = 0%nat ->
  json.coerce (String c r) = (utf8.RuneError ++ json.coerce r)%string.
Proof. unfold json.coerce. cbn [json.coerce_from]. by intros ->. Qed.

Lemma coerce_RuneError (s : string) :
  json.coerce (utf8.RuneError ++ s) = (utf8.RuneError ++ json.coerce s)%string.
Proof. reflexivity. Qed.

(** A string of bytes below 128 is left as it is. *)
Lemma coerce_ascii (s : string) :
  Forall (fun c => (utf8.byte c < 128)%N) (list_ascii_of_string s) -> json.coerce s = s.
Proof.
  unfold json.coerce. induction s as [| c r IH]; [reflexivity |].
  cbn [list_ascii_of_string]. intros H. apply Forall_cons in H as [Hc Hr].
  cbn [json.coerce_from utf8.size].
  replace (utf8.byte c <? 128)%N with true by (symmetry; by apply N.ltb_lt).
  cbn [json.coerce_from]. f_equal. by apply IH.
Qed.

(** The well-formed encoding at the head of a string: its bytes are copied,
    and they are the head of an encoding whatever follows. *)
Lemma size_head (s : string) (n : nat) :
  utf8.size s = S n ->
  exists c head rest,
    String.length head = n /\ s = String c (head ++ rest)
    /\ forall rest', utf8.size (String c (head ++ rest')) = S n.
Proof.
  destruct s as [| c0 r]; [discriminate |]. cbn [utf8.size]. cbv zeta.
  destruct (utf8.byte c0 <? 128)%N eqn:H1.
  { intros [= <-]. exists c0, "", r. repeat split. intros rest'. cbn. by rewrite H1. }
  destruct (utf8.byte c0 <? 194)%N eqn:H2; [discriminate |].
  destruct (utf8.byte c0 <? 224)%N eqn:H3.
  { destruct r as [| c1 r]; [discriminate |].
    destruct (utf8.cont c1) eqn:Hc1; [| discriminate].
    intros [= <-]. exists c0, (String c1 ""), r. repeat split.
    intros rest'. rewrite !append_String. cbn [utf8.size]. cbv zeta. by rewrite H1, H2, H3, Hc1. }
  destruct (utf8.byte c0 <? 240)%N eqn:H4.
  { destruct r as [| c1 [| c2 r]]; try discriminate.
    destruct (utf8.between _ _ c1 && utf8.cont c2) eqn:Hc; [| discriminate].
    intros [= <-]. exists c0, (String c1 (String c2 "")), r. repeat split.
    intros rest'. rewrite !append_String. cbn [utf8.size]. cbv zeta.
    by rewrite H1, H2, H3, H4, Hc. }
  destruct (utf8.byte c0 <? 245)%N eqn:H5; [| discriminate].
  destruct r as [| c1 [| c2 [| c3 r]]]; try discriminate.
  destruct (utf8.between _ _ c1 && utf8.cont c2 && utf8.cont c3) eqn:Hc; [| discriminate].
  intros [= <-]. exists c0, (String c1 (String c2 (String c3 ""))), r. repeat split.
  intros rest'. rewrite !append_String. cbn [utf8.size]. cbv zeta.
  by rewrite H1, H2, H3, H4, H5, Hc.
Qed.

Lemma coerce_from_skip (head rest : string) :
  json.coerce_from (String.length head) (head ++ rest) = (head ++ json.coerce rest)%string.
Proof.
  induction head as [| c h IH]; [reflexivity |].
  rewrite append_String. cbn [String.length json.coerce_from]. by rewrite IH.
Qed.

Lemma coerce_head c head rest n :
  String.length head = n ->
  utf8.size (String c (head ++ rest)) = S n ->
  json.coerce (String c (head ++ rest)) = String c (head ++ json.coerce rest).
Proof.
  intros <- Hsize. unfold json.coerce at 1. cbn [json.coerce_from]. rewrite Hsize.
  by rewrite coerce_from_skip.
Qed.

(** Strings that went through JSON once go through unchanged. *)
Lemma coerce_idempotent (s : string) : json.coerce (json.coerce s) = json.coerce s.
Proof.
  remember (String.length s) as n eqn:Hn. revert s Hn.
  induction n as [n IH] using lt_wf_ind. intros s Hn.
  destruct s as [| c r]; [reflexivity |].
  destruct (utf8.size (String c r)) as [| k] eqn:Hsize.
  - rewrite (coerce_String_invalid _ _ Hsize), coerce_RuneError.
    f_equal. apply (IH (String.length r)); [simpl in Hn; lia | reflexivity].
  - destruct (size_head _ _ Hsize) as (c' & head & rest & Hlen & Heq & Hany).
    injection Heq as <- ->.
    rewrite (coerce_head _ _ _ _ Hlen Hsize).
    rewrite (coerce_head _ _ _ _ Hlen (Hany _)).
    do 2 f_equal. apply (IH (String.length rest)); [| reflexivity].
    simpl in Hn. rewrite length_append in Hn. lia.
Qed.

Lemma coerce_literal :
  json.coerce "access" = "access" /\ json.coerce "refresh" = "refresh"
  /\ json.coerce "" = "" /\ json.coerce "pos-system" = "pos-system".
Proof. repeat split. Qed.

Lemma Truncate_Second_le (t : time.Time) : time.Truncate t time.Second <= t.
Proof.
  unfold time.Truncate, time.Second. simpl.
  pose proof (Z.mod_pos_bound (t + time.unixToInternal) 1000000000 ltac:(lia)). lia.
Qed.

(** A date of whole seconds is written to JSON and read back as it is. *)
Lemma Truncate_Second_idem (t : time.Time) :
  time.Truncate (time.Truncate t time.Second) time.Second = time.Truncate t time.Second.
Proof.
  unfold time.Truncate, time.unixToInternal.
  change (time.Second <=? 0) with false. cbv iota.
  generalize (62135596800 * time.Second) as u. unfold time.Second. intros u.
  replace (t - (t + u) mod 1000000000 + u) with ((t + u) / 1000000000 * 1000000000)
    by (pose proof (Z.div_mod (t + u) 1000000000 ltac:(lia)); lia).
  rewrite Z.mod_mul by lia. lia.
Qed.

(** ** Tokens *)

Lemma GenerateAccessToken_inv j entropy issued userID email role name tok :
  auth.GenerateAccessToken j entropy issued userID email role name = Ok tok ->
  exists c, tok = jwt.Signed jwt.SigningMethodHS256 (auth.secretKey j) c
    /\ auth.TokenType c = "access" /\ auth.UserID c = json.coerce userID
    /\ jwt.ExpiresAt (auth.RegisteredClaims c)
       = Some (time.Truncate (time.Add issued (auth.accessTokenTTL j)) time.Second)
    /\ jwt.NotBefore (auth.RegisteredClaims c) = Some (time.Truncate issued time.Second).
Proof.
  unfold auth.GenerateAccessToken, auth.generateUniqueID.
  destruct entropy; [| discriminate]. simpl. intros [= <-].
  eexists. split; [reflexivity |]. simpl.
  unfold jwt.TimePrecision. rewrite !Truncate_Second_idem. auto.
Qed.

(** The other claims of an issued access token. *)
Lemma GenerateAccessToken_claims j entropy issued userID email role name m k c :
  auth.GenerateAccessToken j entropy issued userID email role name = Ok (jwt.Signed m k c) ->
  auth.Email c = json.coerce email /\ auth.Role c = json.coerce role
  /\ auth.Name c = json.coerce name.
Proof.
  unfold auth.GenerateAccessToken, auth.generateUniqueID.
  destruct entropy; [| discriminate]. simpl. intros [= <- <- <-]. auto.
Qed.

Lemma GenerateRefreshToken_inv j entropy issued userID email tok :
  auth.GenerateRefreshToken j entropy issued userID email = Ok tok ->
  exists c, tok = jwt.Signed jwt.SigningMethodHS256 (auth.secretKey j) c
    /\ auth.TokenType c = "refresh" /\ auth.UserID c = json.coerce userID
    /\ jwt.ExpiresAt (auth.RegisteredClaims c)
       = Some (time.Truncate (time.Add issued (auth.refreshTokenTTL j)) time.Second)
    /\ jwt.NotBefore (auth.RegisteredClaims c) = Some (time.Truncate issued time.Second).
Proof.
  unfold auth.GenerateRefreshToken, auth.generateUniqueID.
  destruct entropy; [| discriminate]. simpl. intros [= <-].
  eexists. split; [reflexivity |]. simpl.
  unfold jwt.TimePrecision. rewrite !Truncate_Second_idem. auto.
Qed.

(** The other claims of an issued refresh token. *)
Lemma GenerateRefreshToken_claims j entropy issued userID email m k c :
  auth.GenerateRefreshToken j entropy issued userID email = Ok (jwt.Signed m k c) ->
  auth.Email c = json.coerce email /\ auth.Role c = "" /\ auth.Name c = "".
Proof.
  unfold auth.GenerateRefreshToken, auth.generateUniqueID.
  destruct entropy; [| discriminate]. simpl. intros [= <- <- <-]. auto.
Qed.

(** The claims validation of the default parser lets through exactly the
    claims in whose window now lies. *)
Lemma Validate_None (c : jwt.RegisteredClaims) (now : time.Time) :
  jwt.Validate jwt.NewParser c now = None
  <-> (forall exp, jwt.ExpiresAt c = Some exp -> now < exp)
      /\ (forall nbf, jwt.NotBefore c = Some nbf -> nbf <= now).
Proof.
  unfold jwt.Validate, jwt.verifyExpiresAt, jwt.verifyNotBefore, time.Before, time.Add.
  cbn [jwt.leeway jwt.NewParser].
  destruct (jwt.ExpiresAt c) as [exp |]; destruct (jwt.NotBefore c) as [nbf |];
    rewrite ?Z.add_0_r; change (- 0) with 0; rewrite ?Z.add_0_r;
    repeat match goal with
           | |- context [?a <? ?b] => destruct (Z.ltb_spec a b)
           end; cbn; split; try discriminate; try reflexivity;
    try (intros [H1 H2]; try specialize (H1 _ eq_refl); try specialize (H2 _ eq_refl); lia);
    intros _; split; intros ? [=]; subst; lia.
Qed.

(** At and after the expiry the validation reports [ErrTokenExpired],
    alone or joined with what else it found. *)
Lemma Validate_expired (c : jwt.RegisteredClaims) (now exp : time.Time) :
  jwt.ExpiresAt c = Some exp -> exp <= now ->
  exists errs, jwt.Validate jwt.NewParser c now
               = Some (jwt_joinedError (jwt_ErrTokenExpired :: errs)).
Proof.
  intros Hexp Hle.
  unfold jwt.Validate, jwt.verifyExpiresAt, time.Before, time.Add.
  cbn [jwt.leeway jwt.NewParser]. rewrite Hexp, Z.add_0_r.
  replace (now <? exp) with false by (symmetry; apply Z.ltb_ge; lia).
  cbn. eauto.
Qed.

Lemma Verify_own_key (m : jwt.SigningMethod) (k : string) :
  jwt.is_SigningMethodHMAC m = true -> jwt.Verify m k k = None.
Proof.
  intros Hm. unfold jwt.Verify.
  destruct m; try discriminate; cbn [jwt.Hash]; by rewrite bool_decide_true.
Qed.

(** What the default parser of the library returns on a token whose
    signature verifies under the manager's key. *)
Lemma jwt_ParseWithClaims_verified j m k c now :
  jwt.is_SigningMethodHMAC m = true ->
  jwt.Verify m k (auth.secretKey j) = None ->
  auth.jwt_ParseWithClaims (jwt.Signed m k c) (auth.keyFunc j) now
  = match jwt.Validate jwt.NewParser (auth.RegisteredClaims c) now with
    | Some e => Err (jwt_newError "" jwt_ErrTokenInvalidClaims [e])
    | None => Ok {| jwt.Method := m; jwt.Claims := c; jwt.Valid := true |}
    end.
Proof.
  intros Hm Hv. unfold auth.jwt_ParseWithClaims, jwt.ParseWithClaims,
    jwt.Parser_ParseWithClaims, auth.keyFunc.
  rewrite Hm. cbn [negb]. rewrite Hv. reflexivity.
Qed.

Lemma jwt_ParseWithClaims_own_key j m c now :
  jwt.is_SigningMethodHMAC m = true ->
  auth.jwt_ParseWithClaims (jwt.Signed m (auth.secretKey j) c) (auth.keyFunc j) now
  = match jwt.Validate jwt.NewParser (auth.RegisteredClaims c) now with
    | Some e => Err (jwt_newError "" jwt_ErrTokenInvalidClaims [e])
    | None => Ok {| jwt.Method := m; jwt.Claims := c; jwt.Valid := true |}
    end.
Proof.
  intros Hm. apply jwt_ParseWithClaims_verified; [exact Hm | by apply Verify_own_key].
Qed.

Lemma ValidateToken_before_expiry j c exp nbf now :
  jwt.ExpiresAt (auth.RegisteredClaims c) = Some exp ->
  jwt.NotBefore (auth.RegisteredClaims c) = Some nbf ->
  nbf <= now -> now < exp ->
  auth.ValidateToken auth.jwt_ParseWithClaims j
    (jwt.Signed jwt.SigningMethodHS256 (auth.secretKey j) c) now = Ok c.
Proof.
  intros Hexp Hnbf Hle Hlt. unfold auth.ValidateToken.
  rewrite jwt_ParseWithClaims_own_key by reflexivity.
  rewrite (proj2 (Validate_None _ _))
    by (split; intros ? H; rewrite H in *; simplify_eq; lia).
  cbn [jwt.Valid jwt.Claims]. rewrite Hexp. unfold time.Before.
  replace (exp <? now) with false by (symmetry; apply Z.ltb_ge; lia).
  reflexivity.
Qed.

Lemma ValidateToken_from_expiry j m k c exp now :
  jwt.ExpiresAt (auth.RegisteredClaims c) = Some exp ->
  exp <= now ->
  is_Ok (auth.ValidateToken auth.jwt_ParseWithClaims j (jwt.Signed m k c) now) = false.
Proof.
  intros Hexp Hle. unfold auth.ValidateToken.
  unfold auth.jwt_ParseWithClaims, jwt.ParseWithClaims, jwt.Parser_ParseWithClaims,
    auth.keyFunc.
  destruct (jwt.is_SigningMethodHMAC m); cbn [negb]; [| reflexivity].
  destruct (jwt.Verify m k (auth.secretKey j)); [reflexivity |].
  cbn [jwt.skipClaimsValidation jwt.NewParser].
  destruct (Validate_expired _ _ _ Hexp Hle) as [errs ->]. reflexivity.
Qed.

(** Whatever the signing library, a validated token has the type asked for. *)
Lemma ValidateAccessToken_type parse j tok now c :
  auth.ValidateAccessToken parse j tok now = Ok c -> auth.TokenType c = "access".
Proof.
  unfold auth.ValidateAccessToken.
  destruct (auth.ValidateToken parse j tok now) as [c' | e]; [| discriminate].
  destruct (bool_decide (auth.TokenType c' = "access")) eqn:Ht; simpl; [| discriminate].
  intros [= <-]. by apply bool_decide_eq_true in Ht.
Qed.

Lemma ValidateRefreshToken_type parse j tok now c :
  auth.ValidateRefreshToken parse j tok now = Ok c -> auth.TokenType c = "refresh".
Proof.
  unfold auth.ValidateRefreshToken.
  destruct (auth.ValidateToken parse j tok now) as [c' | e]; [| discriminate].
  destruct (bool_decide (auth.TokenType c' = "refresh")) eqn:Ht; simpl; [| discriminate].
  intros [= <-]. by apply bool_decide_eq_true in Ht.
Qed.

(** [ValidateToken] returns the claims the token carries. *)
Lemma ValidateToken_claims j m k c now c' :
  auth.ValidateToken auth.jwt_ParseWithClaims j (jwt.Signed m k c) now = Ok c' -> c' = c.
Proof.
  unfold auth.ValidateToken, auth.jwt_ParseWithClaims, jwt.ParseWithClaims,
    jwt.Parser_ParseWithClaims, auth.keyFunc.
  repeat case_match; try discriminate; simplify_eq; simpl in *; congruence.
Qed.

(** C5.  A token issued by [GenerateAccessToken] validates as an access
    token from its issue until its expiry instant, never validates as a
    refresh token, and no longer validates once the expiry instant is
    reached; a token issued by [GenerateRefreshToken] never validates as an
    access token (and validates as a refresh token until it expires).  The
    claims that come back carry the user id as its JSON encoding decodes,
    that is, coerced to valid UTF-8.  The type test rejects a mismatch for
    any token the signing library accepted, whichever library that is. *)
Theorem issued_token_type (j : auth.JWTManager) (entropy : option string)
    (issued now : time.Time) (userID email role name : string) (tok : auth.Token) :
  (auth.GenerateAccessToken j entropy issued userID email role name = Ok tok ->
   let exp := time.Truncate (time.Add issued (auth.accessTokenTTL j)) time.Second in
   (issued <= now -> now < exp ->
    exists c, auth.ValidateAccessToken auth.jwt_ParseWithClaims j tok now = Ok c
              /\ auth.UserID c = json.coerce userID)
   /\ (exp <= now -> is_Ok (auth.ValidateAccessToken auth.jwt_ParseWithClaims j tok now) = false)
   /\ is_Ok (auth.ValidateRefreshToken auth.jwt_ParseWithClaims j tok now) = false)
  /\ (auth.GenerateRefreshToken j entropy issued userID email = Ok tok ->
      let exp := time.Truncate (time.Add issued (auth.refreshTokenTTL j)) time.Second in
      (issued <= now -> now < exp ->
       exists c, auth.ValidateRefreshToken auth.jwt_ParseWithClaims j tok now = Ok c
                 /\ auth.UserID c = json.coerce userID)
      /\ is_Ok (auth.ValidateAccessToken auth.jwt_ParseWithClaims j tok now) = false)
  /\ (forall (parse : auth.ParseFn) c,
        (auth.ValidateAccessToken parse j tok now = Ok c -> auth.TokenType c = "access")
        /\ (auth.ValidateRefreshToken parse j tok now = Ok c -> auth.TokenType c = "refresh")).
Proof.
  split; [| split].
  - intros Hgen exp.
    apply GenerateAccessToken_inv in Hgen as (c & -> & Hty & Huid & Hexp & Hnbf).
    split; [| split].
    + intros Hle Hlt. exists c. split; [| assumption].
      unfold auth.ValidateAccessToken.
      rewrite (ValidateToken_before_expiry j c _ _ now Hexp Hnbf).
      * rewrite Hty. reflexivity.
      * pose proof (Truncate_Second_le issued). lia.
      * exact Hlt.
    + intros Hle. unfold auth.ValidateAccessToken.
      pose proof (ValidateToken_from_expiry j jwt.SigningMethodHS256 (auth.secretKey j) c _
                  now Hexp Hle) as H.
      destruct (auth.ValidateToken _ _ _ _); [discriminate | reflexivity].
    + unfold auth.ValidateRefreshToken.
      destruct (auth.ValidateToken _ _ _ _) as [c' | e] eqn:Hv; [| reflexivity].
      apply ValidateToken_claims in Hv as ->. rewrite Hty. reflexivity.
  - intros Hgen exp.
    apply GenerateRefreshToken_inv in Hgen as (c & -> & Hty & Huid & Hexp & Hnbf).
    split.
    + intros Hle Hlt. exists c. split; [| assumption].
      unfold auth.ValidateRefreshToken.
      rewrite (ValidateToken_before_expiry j c _ _ now Hexp Hnbf).
      * rewrite Hty. reflexivity.
      * pose proof (Truncate_Second_le issued). lia.
      * exact Hlt.
    + unfold auth.ValidateAccessToken.
      destruct (auth.ValidateToken _ _ _ _) as [c' | e] eqn:Hv; [| reflexivity].
      apply ValidateToken_claims in Hv as ->. rewrite Hty. reflexivity.
  - intros parse c. split.
    + apply ValidateAccessToken_type.
    + apply ValidateRefreshToken_type.
Qed.

Lemma issued_token_type_witness :
  (exists c, auth.ValidateAccessToken auth.jwt_ParseWithClaims sampleManager sampleAccessToken
               (sampleInstant + 5 * time.Second) = Ok c
             /\ auth.UserID c = "user123")
  /\ is_Ok (auth.ValidateRefreshToken auth.jwt_ParseWithClaims sampleManager sampleAccessToken
              (sampleInstant + 5 * time.Second)) = false.
Proof.
  pose proof (issued_token_type sampleManager (Some "0123456789abcdef") sampleInstant
                (sampleInstant + 5 * time.Second) "user123" "test@example.com" "MANAGER"
                "Test User" sampleAccessToken) as [Hacc _].
  specialize (Hacc eq_refl). simpl in Hacc. destruct Hacc as (Hok & _ & Hno).
  split; [| exact Hno].
  apply Hok; vm_compute; [discriminate | reflexivity].
Defined.

(** C6.  [ValidateToken] refuses a token whenever now has reached its
    expiry, the instant [now = ExpiresAt] included, also when its signature
    is valid.  The comparison the function makes itself, once the library has
    accepted the token, refuses every expiry before now whatever the library
    checks; the instant itself is refused by the claims validation of the
    library, which the linked program runs on every call.  The order is
    signature, expiry, token type: whatever the library refuses is refused
    with the library's error; a signature that does not verify gives the
    signature error whatever the expiry and the type; an expired token with a
    valid signature gives the expiry error whatever its type; the type is
    looked at last. *)
Theorem ValidateToken_expiry_order (parse : auth.ParseFn) (j : auth.JWTManager)
    (tok : auth.Token) (now : time.Time) :
  (forall m k c exp,
     tok = jwt.Signed m k c ->
     jwt.ExpiresAt (auth.RegisteredClaims c) = Some exp -> exp <= now ->
     is_Ok (auth.ValidateToken auth.jwt_ParseWithClaims j tok now) = false
     /\ is_Ok (auth.ValidateAccessToken auth.jwt_ParseWithClaims j tok now) = false
     /\ is_Ok (auth.ValidateRefreshToken auth.jwt_ParseWithClaims j tok now) = false)
  /\ (forall c exp,
        auth.ValidateToken parse j tok now = Ok c ->
        jwt.ExpiresAt (auth.RegisteredClaims c) = Some exp -> now <= exp)
  /\ (forall e,
        parse tok (auth.keyFunc j) now = Err e ->
        auth.ValidateToken parse j tok now = Err e
        /\ auth.ValidateAccessToken parse j tok now = Err e
        /\ auth.ValidateRefreshToken parse j tok now = Err e)
  /\ (forall m k c e,
        tok = jwt.Signed m k c -> jwt.is_SigningMethodHMAC m = true ->
        jwt.Verify m k (auth.secretKey j) = Some e ->
        exists e',
          auth.ValidateAccessToken auth.jwt_ParseWithClaims j tok now = Err e'
          /\ auth.ValidateRefreshToken auth.jwt_ParseWithClaims j tok now = Err e'
          /\ errors_Is is_jwt_ErrTokenSignatureInvalid e' = true
          /\ errors_Is is_jwt_ErrTokenExpired e' = false)
  /\ (forall m k c exp,
        tok = jwt.Signed m k c -> jwt.is_SigningMethodHMAC m = true ->
        jwt.Verify m k (auth.secretKey j) = None ->
        jwt.ExpiresAt (auth.RegisteredClaims c) = Some exp -> exp <= now ->
        exists e',
          auth.ValidateAccessToken auth.jwt_ParseWithClaims j tok now = Err e'
          /\ auth.ValidateRefreshToken auth.jwt_ParseWithClaims j tok now = Err e'
          /\ errors_Is is_jwt_ErrTokenExpired e' = true)
  /\ (forall c,
        auth.ValidateToken parse j tok now = Ok c ->
        auth.ValidateAccessToken parse j tok now
        = (if bool_decide (auth.TokenType c = "access") then Ok c
           else Err (errors_New "invalid token type, expected access token"))
        /\ auth.ValidateRefreshToken parse j tok now
           = (if bool_decide (auth.TokenType c = "refresh") then Ok c
              else Err (errors_New "invalid token type, expected refresh token"))).
Proof.
  split; [| split; [| split; [| split; [| split]]]].
  - intros m k c exp -> Hexp Hle.
    pose proof (ValidateToken_from_expiry j m k c exp now Hexp Hle) as Hno.
    unfold auth.ValidateAccessToken, auth.ValidateRefreshToken.
    destruct (auth.ValidateToken _ _ _ _); [discriminate | auto].
  - intros c exp. unfold auth.ValidateToken.
    destruct (parse tok (auth.keyFunc j) now) as [t | e]; [| discriminate].
    destruct (jwt.Valid t); [| discriminate].
    destruct (jwt.ExpiresAt (auth.RegisteredClaims (jwt.Claims t))) as [exp' |] eqn:Hexp.
    + unfold time.Before. destruct (exp' <? now) eqn:Hlt; [discriminate |].
      intros [= <-] Hc. rewrite Hexp in Hc. injection Hc as <-.
      apply Z.ltb_ge in Hlt. exact Hlt.
    + intros [= <-] Hc. congruence.
  - intros e He.
    unfold auth.ValidateAccessToken, auth.ValidateRefreshToken, auth.ValidateToken.
    rewrite He. auto.
  - intros m k c e -> Hm Hv.
    unfold auth.ValidateAccessToken, auth.ValidateRefreshToken, auth.ValidateToken,
      auth.jwt_ParseWithClaims, jwt.ParseWithClaims, jwt.Parser_ParseWithClaims, auth.keyFunc.
    rewrite Hm. cbn [negb]. rewrite Hv. eexists. repeat split.
    revert Hv. unfold jwt.Verify. destruct m; try discriminate Hm; cbn [jwt.Hash].
    all: case_bool_decide; [discriminate |]; intros [= <-]; reflexivity.
  - intros m k c exp -> Hm Hv Hexp Hle.
    unfold auth.ValidateAccessToken, auth.ValidateRefreshToken, auth.ValidateToken.
    rewrite (jwt_ParseWithClaims_verified j m k c now Hm Hv).
    destruct (Validate_expired _ _ _ Hexp Hle) as [errs ->].
    eexists. repeat split.
  - intros c Hv. unfold auth.ValidateAccessToken, auth.ValidateRefreshToken.
    rewrite Hv. split; case_bool_decide; reflexivity.
Qed.

Lemma ValidateToken_expiry_order_witness :
  is_Ok (auth.ValidateToken auth.jwt_ParseWithClaims sampleManager sampleAccessToken
           1700003600000000000) = false
  /\ is_Ok (auth.ValidateAccessToken auth.jwt_ParseWithClaims sampleManager sampleAccessToken
              1700003600000000000) = false
  /\ is_Ok (auth.ValidateRefreshToken auth.jwt_ParseWithClaims sampleManager
              sampleAccessToken 1700003600000000000) = false.
Proof.
  eapply (proj1 (ValidateToken_expiry_order auth.jwt_ParseWithClaims sampleManager
                   sampleAccessToken 1700003600000000000)).
  - vm_compute. reflexivity.
  - vm_compute. reflexivity.
  - vm_compute. discriminate.
Defined.

(** ** Secrets *)

Lemma cycle_terminated_inj (S S' : string) :
  forall (n : nat) (orig orig' : string),
    nul_free S = true -> nul_free S' = true ->
    (String.length S <= n)%nat -> (String.length S' <= n)%nat ->
    bcrypt.cycle n orig (S ++ String bcrypt.NUL "")
    = bcrypt.cycle n orig' (S' ++ String bcrypt.NUL "") ->
    S = S'.
Proof.
  revert S'. induction S as [| a r IH]; intros [| c r'] n orig orig' Hf Hf' Hn Hn' Heq.
  - reflexivity.
  - exfalso. destruct n as [| k]; [simpl in Hn'; lia |].
    simpl in Heq. injection Heq as Hc _.
    unfold nul_free in Hf'. simpl in Hf'. apply andb_true_iff in Hf' as [Hc' _].
    apply negb_true_iff, bool_decide_eq_false in Hc'. congruence.
  - exfalso. destruct n as [| k]; [simpl in Hn; lia |].
    simpl in Heq. injection Heq as Hc _.
    unfold nul_free in Hf. simpl in Hf. apply andb_true_iff in Hf as [Ha _].
    apply negb_true_iff, bool_decide_eq_false in Ha. congruence.
  - destruct n as [| k]; [simpl in Hn; lia |].
    simpl in Heq. injection Heq as -> Hrest.
    unfold nul_free in Hf, Hf'. simpl in Hf, Hf'.
    apply andb_true_iff in Hf as [_ Hf]. apply andb_true_iff in Hf' as [_ Hf'].
    f_equal. apply (IH r' k orig orig'); try assumption; simpl in Hn, Hn'; lia.
Qed.

Lemma key_material_eq (S : string) :
  bcrypt.key_material S
  = bcrypt.cycle 72 (S ++ String bcrypt.NUL "") (S ++ String bcrypt.NUL "").
Proof. unfold bcrypt.key_material. reflexivity. Qed.

(** Among NUL-free passwords of at most 72 bytes the key material
    determines the password. *)
Lemma key_material_inj (S S' : string) :
  nul_free S = true -> nul_free S' = true ->
  (String.length S <= 72)%nat -> (String.length S' <= 72)%nat ->
  bcrypt.key_material S = bcrypt.key_material S' -> S = S'.
Proof.
  intros Hf Hf' Hn Hn' Heq. rewrite !key_material_eq in Heq.
  eapply cycle_terminated_inj; [exact Hf | exact Hf' | | | exact Heq]; assumption.
Qed.

Lemma GenerateFromPassword_ok (salt password : string) (cost : Z) :
  (String.length password <= 72)%nat -> 4 <= cost <= 31 ->
  bcrypt.GenerateFromPassword (Some salt) password cost
  = Ok (bcrypt.Hashed cost salt (bcrypt.key_material password)).
Proof.
  intros Hlen Hc. unfold bcrypt.GenerateFromPassword.
  rewrite bool_decide_false by lia.
  unfold bcrypt.MinCost, bcrypt.MaxCost, bcrypt.DefaultCost.
  replace (cost <? 4) with false by (symmetry; apply Z.ltb_ge; lia).
  replace (31 <? cost) with false by (symmetry; apply Z.ltb_ge; lia).
  reflexivity.
Qed.

(** For the claim as stated: [secret72] and [secret73] both meet the policy
    and differ, yet [secret73] verifies against the hash of [secret72]
    (bcrypt reads 72 bytes), and [secret73] itself cannot be hashed at all. *)
Lemma VerifyPassword_accepts_other_secret :
  auth.ValidatePassword (auth.NewPasswordManager 12) secret72 = None
  /\ auth.ValidatePassword (auth.NewPasswordManager 12) secret73 = None
  /\ secret73 <> secret72
  /\ (exists h,
        auth.HashPassword (auth.NewPasswordManager 12) (Some "0123456789abcdef") secret72
        = Ok h
        /\ auth.VerifyPassword (auth.NewPasswordManager 12) secret73 h = None)
  /\ auth.HashPassword (auth.NewPasswordManager 12) (Some "0123456789abcdef") secret73
     = Err bcrypt_ErrPasswordTooLong.
Proof.
  split; [vm_compute; reflexivity |]. split; [vm_compute; reflexivity |].
  split.
  - intros H. apply (f_equal String.length) in H. vm_compute in H. discriminate.
  - split; [| vm_compute; reflexivity].
    eexists. split; [vm_compute; reflexivity |]. vm_compute. reflexivity.
Qed.

(** C8 (as the code has it).  A secret the policy accepts and bcrypt can take
    (at most 72 bytes; cost at most 31) is hashed, and verifies against its
    hash; a different secret is refused when both are NUL-free and at most
    72 bytes long. *)
Theorem HashPassword_VerifyPassword (rounds : Z) (salt S : string) :
  rounds <= 31 ->
  auth.ValidatePassword (auth.NewPasswordManager rounds) S = None ->
  (String.length S <= 72)%nat ->
  exists h,
    auth.HashPassword (auth.NewPasswordManager rounds) (Some salt) S = Ok h
    /\ auth.VerifyPassword (auth.NewPasswordManager rounds) S h = None
    /\ forall S', S' <> S -> nul_free S = true -> nul_free S' = true ->
                  (String.length S' <= 72)%nat ->
                  auth.VerifyPassword (auth.NewPasswordManager rounds) S' h
                  = Some bcrypt_ErrMismatchedHashAndPassword.
Proof.
  intros Hr Hvalid Hlen.
  unfold auth.HashPassword. rewrite Hvalid.
  assert (Hc : 4 <= auth.saltRounds (auth.NewPasswordManager rounds) <= 31).
  { unfold auth.NewPasswordManager, auth.saltRounds.
    destruct (rounds <? 10) eqn:H10; [lia | apply Z.ltb_ge in H10; lia]. }
  rewrite (GenerateFromPassword_ok salt S _ Hlen Hc).
  eexists. split; [reflexivity |]. split.
  - unfold auth.VerifyPassword, bcrypt.CompareHashAndPassword.
    rewrite bool_decide_true by reflexivity. reflexivity.
  - intros S' Hne Hf Hf' Hlen'.
    unfold auth.VerifyPassword, bcrypt.CompareHashAndPassword.
    rewrite bool_decide_false; [reflexivity |].
    intros Heq. apply Hne. symmetry.
    apply (key_material_inj S S'); auto.
Qed.

Lemma HashPassword_VerifyPassword_witness :
  exists h,
    auth.HashPassword (auth.NewPasswordManager 12) (Some "0123456789abcdef")
      "TestPassword123!" = Ok h
    /\ auth.VerifyPassword (auth.NewPasswordManager 12) "TestPassword123!" h = None
    /\ auth.VerifyPassword (auth.NewPasswordManager 12) "WrongPassword123!" h
       = Some bcrypt_ErrMismatchedHashAndPassword.
Proof.
  destruct (HashPassword_VerifyPassword 12 "0123456789abcdef" "TestPassword123!")
    as (h & Hh & Hv & Hother).
  - lia.
  - vm_compute. reflexivity.
  - simpl. lia.
  - exists h. split; [exact Hh |]. split; [exact Hv |].
    apply Hother.
    + discriminate.
    + vm_compute. reflexivity.
    + vm_compute. reflexivity.
    + simpl. lia.
Defined.

(** ** The authentication service *)

Lemma find_none_revoked db token :
  session_revoked db token ->
  List.find (fun x => bool_decide (Session.SessionToken x = token)) (sessions db) = None.
Proof.
  intros H. destruct (List.find _ _) as [x |] eqn:Hf; [| reflexivity].
  apply find_some in Hf as [Hin Hx]. apply bool_decide_eq_true in Hx.
  exfalso. exact (H x Hin Hx).
Qed.

(** Without a session row for the token, [RefreshToken] fails on every
    path and leaves the store as it was. *)
Lemma RefreshToken_no_session s env req db :
  session_revoked db (RefreshTokenRequest.RefreshToken req) ->
  exists e, services.RefreshToken s env req db = (Err e, db)
            /\ (e = ErrInvalidToken \/ e = ErrUserNotFound \/ e = ErrUserNotActive).
Proof.
  intros Hrev. apply find_none_revoked in Hrev.
  unfold services.RefreshToken, repository.User.GetByID, repository.Session.GetByToken.
  run_store.
  repeat (first [rewrite Hrev | case_match]; simplify_eq); eauto 6.
Qed.

Lemma NoDup_map_eq {A B} (f : A -> B) (l : list A) (x y : A) :
  List.NoDup (map f l) -> In x l -> In y l -> f x = f y -> x = y.
Proof.
  induction l as [| a l IH]; simpl; [tauto |].
  intros Hnd Hx Hy Hf. apply NoDup_cons_iff in Hnd as [Hnot Hnd].
  destruct Hx as [-> | Hx], Hy as [-> | Hy]; auto.
  - exfalso. apply Hnot. rewrite Hf. apply in_map. exact Hy.
  - exfalso. apply Hnot. rewrite <- Hf. apply in_map. exact Hx.
Qed.

(** A logout that reaches the store leaves no session row with the token,
    the tokens of the rows being pairwise distinct (the column is UNIQUE). *)
Lemma Logout_revokes s env token db :
  List.NoDup (map Session.SessionToken (sessions db)) ->
  fault env SessionGetByToken = false ->
  (forall id, fault env (SessionDelete id) = false) ->
  fst (services.Logout s env token db) = Ok tt
  /\ session_revoked (snd (services.Logout s env token db)) token.
Proof.
  intros Hnd Hget Hdel.
  unfold services.Logout, repository.Session.GetByToken, repository.Session.Delete.
  run_store. rewrite Hget.
  destruct (List.find _ (sessions db)) as [x |] eqn:Hf.
  - rewrite Hdel. simpl. split; [reflexivity |].
    apply find_some in Hf as [Hin Hx]. apply bool_decide_eq_true in Hx.
    intros y Hy Htok. apply filter_In in Hy as [Hy Hid].
    apply negb_true_iff, bool_decide_eq_false in Hid. apply Hid.
    f_equal. apply (NoDup_map_eq Session.SessionToken (sessions db)); congruence.
  - simpl. split; [reflexivity |].
    intros y Hy Htok. eapply find_none in Hf; [| exact Hy].
    simpl in Hf. apply bool_decide_eq_false in Hf. contradiction.
Qed.

(** For the claim as stated: Ann logs out and her account is deactivated.
    Her refresh token still carries a valid signature and has not expired,
    its session is gone, and the refresh fails with [ErrUserNotActive], which
    is neither [ErrInvalidToken] nor [ErrTokenExpired]. *)
Lemma RefreshToken_revoked_inactive_user :
  session_revoked loggedOutDeactivated annRefreshToken
  /\ is_Ok (auth.ValidateRefreshToken auth.jwt_ParseWithClaims sampleManager annRefreshToken
              (now laterEnv)) = true
  /\ services.RefreshToken sampleService laterEnv annRefreshes loggedOutDeactivated
     = (Err ErrUserNotActive, loggedOutDeactivated).
Proof.
  split; [| split].
  - intros x Hin. vm_compute in Hin. destruct Hin.
  - vm_compute. reflexivity.
  - vm_compute. reflexivity.
Qed.

(** C1 (as the code has it).  When no session row holds the refresh token
    (the session was deleted, as [Logout] does), [RefreshToken] fails and
    leaves the store untouched.  The error is [ErrInvalidToken] when the
    token names an existing, active user; when the user cannot be read or is
    inactive, [ErrUserNotFound] or [ErrUserNotActive] is reported instead,
    the user being looked at before the session. *)
Theorem RefreshToken_revoked_session (s : services.AuthService) (env : Env)
    (req : RefreshTokenRequest.t) (db : DB) :
  session_revoked db (RefreshTokenRequest.RefreshToken req) ->
  (exists e, services.RefreshToken s env req db = (Err e, db)
             /\ (e = ErrInvalidToken \/ e = ErrUserNotFound \/ e = ErrUserNotActive))
  /\ (forall c id u,
        auth.ValidateRefreshToken auth.jwt_ParseWithClaims (services.jwtManager s)
          (RefreshTokenRequest.RefreshToken req) (now env) = Ok c ->
        uuid.Parse (auth.UserID c) = Some id ->
        fault env UserGetByID = false ->
        List.find (fun u => bool_decide (User.ID u = id)) (users db) = Some u ->
        User.IsActive u = true ->
        services.RefreshToken s env req db = (Err ErrInvalidToken, db)).
Proof.
  intros Hrev. split; [exact (RefreshToken_no_session s env req db Hrev) |].
  intros c id u Hc Hid Hfault Hu Hactive. apply find_none_revoked in Hrev.
  unfold services.RefreshToken, repository.User.GetByID, repository.Session.GetByToken.
  run_store. rewrite Hc, Hid, Hfault, Hu, Hactive. simpl.
  destruct (fault env SessionGetByToken); [reflexivity |].
  rewrite Hrev. reflexivity.
Qed.

Lemma RefreshToken_revoked_session_witness :
  services.RefreshToken sampleService laterEnv annRefreshes loggedOut
  = (Err ErrInvalidToken, loggedOut).
Proof.
  eapply (proj2 (RefreshToken_revoked_session sampleService laterEnv annRefreshes loggedOut
                   (proj2 (Logout_revokes sampleService laterEnv annRefreshToken (snd registered)
                             ltac:(vm_compute; repeat constructor; simpl; tauto)
                             eq_refl (fun _ => eq_refl))))).
  - vm_compute. reflexivity.
  - vm_compute. reflexivity.
  - reflexivity.
  - vm_compute. reflexivity.
  - reflexivity.
Defined.

(** [RefreshToken] reads the expiry of the session row and never its
    active flag: after [RevokeAllUserSessions] has cleared the flag of Ann's
    session, her refresh token is still exchanged. *)
Remark RefreshToken_does_not_read_IsActive :
  map Session.IsActive
    (sessions (snd (repository.Session.RevokeAllUserSessions laterEnv 1%N (snd registered))))
  = [false]
  /\ is_Ok (fst (services.RefreshToken sampleService laterEnv annRefreshes
                   (snd (repository.Session.RevokeAllUserSessions laterEnv 1%N
                           (snd registered))))) = true.
Proof. split; vm_compute; reflexivity. Qed.

(** The loop of [ChangePassword] over the sessions it read. *)
Lemma delete_loop_sessions env (l : list Session.t) :
  (forall id, fault env (SessionDelete id) = false) ->
  forall db x,
    In x (sessions (fold_left
                      (fun d session =>
                         snd (repository.Session.Delete env (Session.ID session) d)) l db)) ->
    In x (sessions db) /\ forall y, In y l -> Session.ID x <> Session.ID y.
Proof.
  intros Hdel. induction l as [| a l IH]; intros db x Hin; simpl in Hin.
  - split; [exact Hin | intros y []].
  - apply IH in Hin as [Hin Hl]. revert Hin.
    unfold repository.Session.Delete, repository.guarded. rewrite Hdel. simpl.
    intros Hin. apply filter_In in Hin as [Hin Hid].
    apply negb_true_iff, bool_decide_eq_false in Hid.
    split; [exact Hin |]. intros y [<- | Hy]; [exact Hid | exact (Hl y Hy)].
Qed.

(** After a [ChangePassword] that succeeded and whose session calls reached
    the store, no session row of the user is left, and no row was added. *)
Lemma ChangePassword_sessions s env userID req db db' :
  services.ChangePassword s env userID req db = (Ok tt, db') ->
  fault env SessionGetByUserID = false ->
  (forall id, fault env (SessionDelete id) = false) ->
  forall x, In x (sessions db') -> In x (sessions db) /\ Session.UserID x <> userID.
Proof.
  unfold services.ChangePassword, repository.Password.GetByUserID, repository.Password.Update,
    repository.Session.GetByUserID.
  run_store. intros Hrun Hget Hdel x.
  rewrite Hget in Hrun.
  repeat (case_match; simplify_eq); simpl in *.
  intros Hin. apply (delete_loop_sessions env _ Hdel) in Hin as [Hin Hl].
  simpl in Hin. split; [exact Hin |].
  intros Hu. apply (Hl x); [| reflexivity].
  apply filter_In. split; [exact Hin | by apply bool_decide_eq_true].
Qed.

(** For the claim as stated: Ann changes her password while the session
    store cannot be read.  [ChangePassword] reports success all the same, and
    her earlier refresh token is exchanged for a new access token. *)
Lemma ChangePassword_keeps_sessions_on_store_error :
  fst (services.ChangePassword sampleService (withFault laterEnv sessionsUnreadable) 1%N
         annChangesPassword (snd registered)) = Ok tt
  /\ is_Ok (fst (services.RefreshToken sampleService laterEnv annRefreshes
                   (snd (services.ChangePassword sampleService
                           (withFault laterEnv sessionsUnreadable) 1%N annChangesPassword
                           (snd registered))))) = true.
Proof. split; vm_compute; reflexivity. Qed.

(** C3 (as the code has it).  After a successful [ChangePassword] during
    which the read of the user's sessions and the deletions reached the
    store, a refresh token whose session rows all belonged to that user is
    refused by [RefreshToken].  ([ChangePassword] does not report an error of
    these session calls.) *)
Theorem ChangePassword_then_RefreshToken (s : services.AuthService) (env env' : Env)
    (userID : uuid.UUID) (req : ChangePasswordRequest.t) (db db' : DB)
    (refresh : RefreshTokenRequest.t) :
  services.ChangePassword s env userID req db = (Ok tt, db') ->
  fault env SessionGetByUserID = false ->
  (forall id, fault env (SessionDelete id) = false) ->
  (forall x, In x (sessions db) ->
             Session.SessionToken x = RefreshTokenRequest.RefreshToken refresh ->
             Session.UserID x = userID) ->
  exists e, services.RefreshToken s env' refresh db' = (Err e, db')
            /\ (e = ErrInvalidToken \/ e = ErrUserNotFound \/ e = ErrUserNotActive).
Proof.
  intros Hrun Hget Hdel Hmine. apply RefreshToken_no_session.
  intros x Hin Htok.
  apply (ChangePassword_sessions s env userID req db db' Hrun Hget Hdel) in Hin as [Hin Hu].
  apply Hu. exact (Hmine x Hin Htok).
Qed.

Lemma ChangePassword_then_RefreshToken_witness :
  exists e,
    services.RefreshToken sampleService laterEnv annRefreshes
      (snd (services.ChangePassword sampleService laterEnv 1%N annChangesPassword
              (snd registered)))
    = (Err e,
       snd (services.ChangePassword sampleService laterEnv 1%N annChangesPassword
              (snd registered)))
    /\ (e = ErrInvalidToken \/ e = ErrUserNotFound \/ e = ErrUserNotActive).
Proof.
  apply (ChangePassword_then_RefreshToken sampleService laterEnv laterEnv 1%N
           annChangesPassword (snd registered)).
  - vm_compute. reflexivity.
  - reflexivity.
  - intros id. reflexivity.
  - intros x Hin _. vm_compute in Hin. destruct Hin as [<- | []]. reflexivity.
Defined.

Lemma find_none_absent {A} (f : A -> bool) (l : list A) :
  (forall x, In x l -> f x = false) -> List.find f l = None.
Proof.
  intros H. destruct (List.find f l) as [x |] eqn:Hf; [| reflexivity].
  apply find_some in Hf as [Hin Hx]. rewrite (H x Hin) in Hx. discriminate.
Qed.

(** C7.  On the same store and under the same conditions, a login with an
    email no user has and a login with the email of an active user and a
    secret that does not match the stored hash fail with the same error
    value and leave the store as it was; the value is
    [ErrInvalidCredentials] whenever the user lookup reaches the store. *)
Theorem Login_same_error (s : services.AuthService) (env : Env) (db : DB)
    (unknown wrong : LoginRequest.t) (u : User.t) :
  (forall x, In x (users db) -> User.Email x <> LoginRequest.Email unknown) ->
  List.find (fun x => bool_decide (User.Email x = LoginRequest.Email wrong)) (users db)
  = Some u ->
  User.IsActive u = true ->
  (forall p,
     List.find (fun p => bool_decide (Password.UserID p = User.ID u)) (passwords db) = Some p ->
     bcrypt.CompareHashAndPassword (Password.HashedPassword p) (LoginRequest.Password wrong)
     <> None) ->
  exists e,
    services.Login s env unknown db = (Err e, db)
    /\ services.Login s env wrong db = (Err e, db)
    /\ (fault env UserGetByEmail = false -> e = ErrInvalidCredentials).
Proof.
  intros Hunknown Hknown Hactive Hwrong.
  assert (Hnone : List.find (fun x => bool_decide (User.Email x = LoginRequest.Email unknown))
                    (users db) = None).
  { apply find_none_absent. intros x Hin. apply bool_decide_eq_false. exact (Hunknown x Hin). }
  unfold services.Login, repository.User.GetByEmail, repository.Password.GetByUserID.
  run_store. rewrite Hnone, Hknown.
  destruct (fault env UserGetByEmail) eqn:Hfault; simpl.
  - eexists. split; [reflexivity |]. split; [reflexivity | discriminate].
  - exists ErrInvalidCredentials. split; [reflexivity |]. split; [| reflexivity].
    rewrite Hactive. simpl.
    destruct (fault env PasswordGetByUserID); [reflexivity |].
    destruct (List.find _ (passwords db)) as [p |] eqn:Hp; [| reflexivity].
    specialize (Hwrong p eq_refl).
    destruct (bcrypt.CompareHashAndPassword _ _); [reflexivity | contradiction].
Qed.

Lemma Login_same_error_witness :
  exists e,
    services.Login sampleService laterEnv unknownLogin (snd registered)
    = (Err e, snd registered)
    /\ services.Login sampleService laterEnv wrongLogin (snd registered)
       = (Err e, snd registered)
    /\ (fault laterEnv UserGetByEmail = false -> e = ErrInvalidCredentials).
Proof.
  eapply (Login_same_error sampleService laterEnv (snd registered) unknownLogin wrongLogin).
  - intros x Hin. vm_compute in Hin. destruct Hin as [<- | []]. discriminate.
  - vm_compute. reflexivity.
  - reflexivity.
  - intros p Hp. vm_compute in Hp. injection Hp as <-. vm_compute. discriminate.
Defined.

(** C9.  A session created by [Register] or [Login] expires thirty days
    after the instant at which the call builds it, and the response reports
    [ExpiresIn = 3600], whatever token lifetimes the service's JWT manager
    was configured with. *)
Theorem session_expiry_fixed (s : services.AuthService) (env : Env) (db db' : DB)
    (resp : AuthResponse.t) :
  (forall req,
     services.Register s env req db = (Ok resp, db') ->
     AuthResponse.ExpiresIn resp = 3600
     /\ exists x, sessions db' = (sessions db ++ [x])%list
                  /\ Session.SessionToken x = AuthResponse.RefreshToken resp
                  /\ Session.UserID x = User.ID (AuthResponse.User resp)
                  /\ Session.ExpiresAt x = now env + 30 * (24 * time.Hour))
  /\ (forall req,
        services.Login s env req db = (Ok resp, db') ->
        AuthResponse.ExpiresIn resp = 3600
        /\ exists x, sessions db' = (sessions db ++ [x])%list
                     /\ Session.SessionToken x = AuthResponse.RefreshToken resp
                     /\ Session.UserID x = User.ID (AuthResponse.User resp)
                     /\ Session.ExpiresAt x = now env + 30 * (24 * time.Hour)).
Proof.
  split; intros req.
  - unfold services.Register. unfold_repos. run_store. intros Hrun.
    repeat (case_match; simplify_eq); simpl in *.
    all: split; [reflexivity |]; eexists; (split; [reflexivity |]); simpl;
      unfold time.Add; repeat split; lia.
  - unfold services.Login. unfold_repos. run_store. intros Hrun.
    repeat (case_match; simplify_eq); simpl in *.
    all: split; [reflexivity |]; eexists; (split; [reflexivity |]); simpl;
      unfold time.Add; repeat split; lia.
Qed.

Lemma session_expiry_fixed_witness :
  exists resp,
    fst registered = Ok resp
    /\ AuthResponse.ExpiresIn resp = 3600
    /\ exists x, sessions (snd registered) = (sessions emptyDB ++ [x])%list
                 /\ Session.SessionToken x = AuthResponse.RefreshToken resp
                 /\ Session.UserID x = User.ID (AuthResponse.User resp)
                 /\ Session.ExpiresAt x = now sampleEnv + 30 * (24 * time.Hour).
Proof.
  destruct (fst registered) as [resp | e] eqn:Hreg; [| vm_compute in Hreg; discriminate].
  exists resp. split; [reflexivity |].
  apply (proj1 (session_expiry_fixed sampleService sampleEnv emptyDB (snd registered) resp)
           annRegisters).
  unfold registered in *. destruct (services.Register _ _ _ _) as [r d]. simpl in *. congruence.
Defined.

Lemma ValidatePassword_rejects pm secret :
  violatesPolicy secret -> exists e, auth.ValidatePassword pm secret = Some e.
Proof.
  unfold violatesPolicy, auth.ValidatePassword. intros H.
  repeat case_match; eauto.
  exfalso.
  repeat match goal with
         | H : bool_decide _ = false |- _ => apply bool_decide_eq_false in H
         | H : negb _ = false |- _ => apply negb_false_iff in H
         end.
  intuition (try lia; congruence).
Qed.

(** For the claim as stated: the secret "weak" breaks the policy in four
    ways, and [Register] accepts it, creating the user, the credential and
    the session. *)
Lemma Register_accepts_weak_secret :
  violatesPolicy "weak"
  /\ is_Ok (fst (services.Register sampleService sampleEnv weakRegisters emptyDB)) = true
  /\ length (users (snd (services.Register sampleService sampleEnv weakRegisters emptyDB)))
     = 1%nat
  /\ length (passwords (snd (services.Register sampleService sampleEnv weakRegisters emptyDB)))
     = 1%nat
  /\ length (sessions (snd (services.Register sampleService sampleEnv weakRegisters emptyDB)))
     = 1%nat.
Proof.
  split; [left; simpl; lia |]. repeat split; vm_compute; reflexivity.
Qed.

(** C4 (as the code has it).  The strength policy is applied by
    [ValidatePassword] and [HashPassword] of the password manager, which
    refuse every violating secret.  [Register] does not consult it: on the
    empty store, with the store and the entropy source working, a violating
    secret of at most 72 bytes is registered, and the user, the credential
    for that secret and the session are created. *)
Theorem Register_without_policy (s : services.AuthService) (env : Env)
    (req : RegisterRequest.t) (pm : auth.PasswordManager) :
  violatesPolicy (RegisterRequest.Password req) ->
  (forall salt, exists e,
      auth.ValidatePassword pm (RegisterRequest.Password req) = Some e
      /\ auth.HashPassword pm salt (RegisterRequest.Password req) = Err e)
  /\ ((String.length (RegisterRequest.Password req) <= 72)%nat ->
      (forall call, fault env call = false) ->
      salt env <> None -> accessEntropy env <> None -> refreshEntropy env <> None ->
      exists resp db',
        services.Register s env req emptyDB = (Ok resp, db')
        /\ User.Email (AuthResponse.User resp) = RegisterRequest.Email req
        /\ users db' = [AuthResponse.User resp]
        /\ (exists p, passwords db' = [p]
                      /\ Password.UserID p = User.ID (AuthResponse.User resp)
                      /\ bcrypt.CompareHashAndPassword (Password.HashedPassword p)
                           (RegisterRequest.Password req) = None)
        /\ (exists x, sessions db' = [x]
                      /\ Session.SessionToken x = AuthResponse.RefreshToken resp
                      /\ Session.UserID x = User.ID (AuthResponse.User resp))).
Proof.
  intros Hweak. split.
  - intros sl. destruct (ValidatePassword_rejects pm _ Hweak) as [e He].
    exists e. split; [exact He |]. unfold auth.HashPassword. rewrite He. reflexivity.
  - intros Hlen Hfault Hsalt Hacc Href.
    destruct (salt env) as [sl |] eqn:Esalt; [| contradiction].
    destruct (accessEntropy env) as [a |] eqn:Eacc; [| contradiction].
    destruct (refreshEntropy env) as [r |] eqn:Eref; [| contradiction].
    unfold services.Register. unfold_repos. run_store.
    rewrite !Hfault, Esalt, Eacc, Eref.
    rewrite (GenerateFromPassword_ok sl _ bcrypt.DefaultCost Hlen)
      by (unfold bcrypt.DefaultCost; lia).
    unfold auth.GenerateAccessToken, auth.GenerateRefreshToken, auth.generateUniqueID,
      jwt.SignedString.
    cbn [emptyDB users passwords accounts sessions existsb is_Ok jwt.is_SigningMethodHMAC
         fold_left app].
    eexists. eexists. split; [reflexivity |].
    cbn [AuthResponse.User AuthResponse.RefreshToken User.Email User.ID users passwords
         sessions].
    split; [reflexivity |]. split; [reflexivity |]. split.
    + eexists. split; [reflexivity |]. split; [reflexivity |].
      unfold bcrypt.CompareHashAndPassword. cbn [Password.HashedPassword].
      rewrite bool_decide_true by reflexivity. reflexivity.
    + eexists. split; [reflexivity |]. split; reflexivity.
Qed.

Lemma Register_without_policy_witness :
  exists resp db',
    services.Register sampleService sampleEnv weakRegisters emptyDB = (Ok resp, db')
    /\ User.Email (AuthResponse.User resp) = "a@x.com"
    /\ users db' = [AuthResponse.User resp]
    /\ (exists p, passwords db' = [p]
                  /\ Password.UserID p = User.ID (AuthResponse.User resp)
                  /\ bcrypt.CompareHashAndPassword (Password.HashedPassword p) "weak" = None)
    /\ (exists x, sessions db' = [x]
                  /\ Session.SessionToken x = AuthResponse.RefreshToken resp
                  /\ Session.UserID x = User.ID (AuthResponse.User resp)).
Proof.
  assert (Hweak : violatesPolicy (RegisterRequest.Password weakRegisters))
    by (left; simpl; lia).
  apply (proj2 (Register_without_policy sampleService sampleEnv weakRegisters
                  (auth.NewPasswordManager 12) Hweak)).
  - simpl. lia.
  - intros call. reflexivity.
  - discriminate.
  - discriminate.
  - discriminate.
Defined.

(** C2 (the code at failing inputs).  [Register] writes through the
    repositories, not through the transaction it opens, so its rollback
    undoes nothing.  When the credential cannot be written, the call fails
    and the user row stays, without credential; the email is then taken for
    every later registration.  The same happens when the secret cannot be
    hashed, and when the account cannot be written the user and the
    credential both stay. *)
Theorem Register_not_all_or_nothing :
  (fst (services.Register sampleService (withFault sampleEnv credentialsUnwritable)
          annRegisters emptyDB)
   = Err (fmt_Errorf "failed to create password" io_error)
   /\ (exists u,
         users (snd (services.Register sampleService
                       (withFault sampleEnv credentialsUnwritable) annRegisters emptyDB))
         = [u]
         /\ User.Email u = "a@x.com")
   /\ passwords (snd (services.Register sampleService
                        (withFault sampleEnv credentialsUnwritable) annRegisters emptyDB))
      = []
   /\ fst (services.Register sampleService laterEnv annRegisters
             (snd (services.Register sampleService
                     (withFault sampleEnv credentialsUnwritable) annRegisters emptyDB)))
      = Err ErrEmailAlreadyExists)
  /\ (fst (services.Register sampleService sampleEnv longRegisters emptyDB)
      = Err (fmt_Errorf "failed to hash password" bcrypt_ErrPasswordTooLong)
      /\ length (users (snd (services.Register sampleService sampleEnv longRegisters emptyDB)))
         = 1%nat
      /\ passwords (snd (services.Register sampleService sampleEnv longRegisters emptyDB)) = [])
  /\ (fst (services.Register sampleService (withFault sampleEnv accountsUnwritable)
             annRegisters emptyDB)
      = Err (fmt_Errorf "failed to create account" io_error)
      /\ length (users (snd (services.Register sampleService
                               (withFault sampleEnv accountsUnwritable) annRegisters emptyDB)))
         = 1%nat
      /\ length (passwords (snd (services.Register sampleService
                                   (withFault sampleEnv accountsUnwritable) annRegisters
                                   emptyDB)))
         = 1%nat
      /\ accounts (snd (services.Register sampleService
                          (withFault sampleEnv accountsUnwritable) annRegisters emptyDB))
         = []).
Proof.
  split; [| split].
  - split; [vm_compute; reflexivity |]. split.
    + eexists. split; vm_compute; reflexivity.
    + split; vm_compute; reflexivity.
  - repeat split; vm_compute; reflexivity.
  - repeat split; vm_compute; reflexivity.
Qed.

(** ** More on tokens *)

Lemma substring_0_length (s : string) : substring 0 (String.length s) s = s.
Proof. induction s as [| c s IH]; simpl; [reflexivity | by rewrite IH]. Qed.

Lemma substring_split (n : nat) :
  forall s, (n <= String.length s)%nat ->
            s = (substring 0 n s ++ substring n (String.length s - n) s)%string.
Proof.
  induction n as [| n IH]; intros s Hn.
  - rewrite Nat.sub_0_r, substring_0_length. by destruct s.
  - destruct s as [| c s]; simpl in *; [lia |].
    rewrite append_String. f_equal. apply IH. lia.
Qed.

(** X1.  [ExtractTokenFromBearerString] undoes the prefixing of a token
    with [Bearer ]: a non-empty token is what it returns exactly for the
    header made of the prefix and that token, and for nothing else. *)
Theorem ExtractTokenFromBearerString_iff (authHeader token : string) :
  token <> "" ->
  (auth.ExtractTokenFromBearerString authHeader = token
   <-> authHeader = ("Bearer " ++ token)%string).
Proof.
  intros Hne. unfold auth.ExtractTokenFromBearerString. split.
  - destruct (bool_decide (7 < String.length authHeader)%nat) eqn:Hlen; simpl;
      [| intros <-; contradiction].
    destruct (bool_decide (substring 0 7 authHeader = "Bearer ")) eqn:Hpre;
      [| intros <-; contradiction].
    apply bool_decide_eq_true in Hlen, Hpre. intros <-.
    rewrite <- Hpre. apply substring_split. lia.
  - intros ->. destruct token as [| c t]; [contradiction |].
    change ("Bearer " ++ String c t)%string
      with (String "B" (String "e" (String "a" (String "r" (String "e" (String "r"
             (String " " (String c t)))))))).
    cbn [String.length]. rewrite bool_decide_true by lia.
    cbn [substring andb]. rewrite bool_decide_true by reflexivity.
    cbn [Nat.sub]. f_equal. apply substring_0_length.
Qed.

Lemma ExtractTokenFromBearerString_iff_witness :
  auth.ExtractTokenFromBearerString "Bearer abc.def.ghi" = "abc.def.ghi".
Proof.
  apply (ExtractTokenFromBearerString_iff "Bearer abc.def.ghi" "abc.def.ghi").
  - discriminate.
  - reflexivity.
Defined.

(** A token [ValidateToken] accepts carries a signature that an HMAC
    method verifies under the manager's key, and now lies in its window. *)
Lemma ValidateToken_accepted (j : auth.JWTManager) (tok : auth.Token) (now : time.Time)
    (c : auth.Claims) :
  auth.ValidateToken auth.jwt_ParseWithClaims j tok now = Ok c ->
  exists m k,
    tok = jwt.Signed m k c
    /\ jwt.is_SigningMethodHMAC m = true
    /\ jwt.Verify m k (auth.secretKey j) = None
    /\ (forall exp, jwt.ExpiresAt (auth.RegisteredClaims c) = Some exp -> now < exp)
    /\ (forall nbf, jwt.NotBefore (auth.RegisteredClaims c) = Some nbf -> nbf <= now).
Proof.
  intros Hv. destruct tok as [m k c' | raw]; [| discriminate].
  pose proof (ValidateToken_claims _ _ _ _ _ _ Hv) as ->.
  revert Hv.
  unfold auth.ValidateToken, auth.jwt_ParseWithClaims, jwt.ParseWithClaims,
    jwt.Parser_ParseWithClaims, auth.keyFunc.
  destruct (jwt.is_SigningMethodHMAC m) eqn:Hm; cbn [negb]; [| discriminate].
  destruct (jwt.Verify m k (auth.secretKey j)) eqn:Hk; [discriminate |].
  cbn [jwt.skipClaimsValidation jwt.NewParser].
  destruct (jwt.Validate _ _ _) eqn:Hval; [discriminate |].
  intros _. apply Validate_None in Hval as [Hexp Hnbf].
  exists m, k. auto.
Qed.

Lemma length_zeros (n : nat) : String.length (hmac.zeros n) = n.
Proof.
  unfold hmac.zeros. induction n as [| n IH]; [reflexivity |].
  cbn [replicate string_of_list_ascii String.length]. by rewrite IH.
Qed.

Lemma zeros_add (n m : nat) : (hmac.zeros n ++ hmac.zeros m)%string = hmac.zeros (n + m).
Proof.
  unfold hmac.zeros. induction n as [| n IH]; [reflexivity |].
  cbn [replicate string_of_list_ascii Nat.add]. rewrite append_String. by rewrite IH.
Qed.

Lemma append_assoc (a b c : string) : ((a ++ b) ++ c)%string = (a ++ (b ++ c))%string.
Proof.
  induction a as [| x a IH]; [reflexivity |]. rewrite !append_String. by rewrite IH.
Qed.

(** HMAC does not tell a key from the same key followed by zero bytes, as
    long as both fit the block of the hash. *)
Lemma block_trailing_zeros (h : sha2.Params) (key : string) (n : nat) :
  (String.length key + n <= sha2.BlockSize h)%nat ->
  hmac.block h (key ++ hmac.zeros n) = hmac.block h key.
Proof.
  intros Hlen. unfold hmac.block. cbv zeta.
  rewrite !bool_decide_false by (rewrite ?length_append, ?length_zeros; lia).
  rewrite length_append, length_zeros, append_assoc, zeros_add.
  replace (n + (sha2.BlockSize h - (String.length key + n)))%nat
    with (sha2.BlockSize h - String.length key)%nat by lia.
  reflexivity.
Qed.

(** X2.  [ValidateToken] accepts a token exactly when its signature was
    made by an HMAC method with a key that HMAC prepares to the same block as
    the manager's key, its expiry, if it has one, lies after now, and its
    not-before instant, if it has one, does not; the claims returned are the
    ones the token carries.  The key need not be the manager's: a token
    signed with the manager's key followed by zero bytes, up to 64 bytes in
    all, is accepted like one signed with the key itself. *)
Theorem ValidateToken_accepts_iff (j : auth.JWTManager) (tok : auth.Token)
    (now : time.Time) (c : auth.Claims) :
  (auth.ValidateToken auth.jwt_ParseWithClaims j tok now = Ok c
   <-> exists m k h,
         tok = jwt.Signed m k c
         /\ jwt.Hash m = Some h
         /\ hmac.block h k = hmac.block h (auth.secretKey j)
         /\ (forall exp, jwt.ExpiresAt (auth.RegisteredClaims c) = Some exp -> now < exp)
         /\ (forall nbf, jwt.NotBefore (auth.RegisteredClaims c) = Some nbf -> nbf <= now))
  /\ (forall m n,
        jwt.is_SigningMethodHMAC m = true ->
        (String.length (auth.secretKey j) + n <= 64)%nat ->
        auth.ValidateToken auth.jwt_ParseWithClaims j
          (jwt.Signed m (auth.secretKey j ++ hmac.zeros n) c) now
        = auth.ValidateToken auth.jwt_ParseWithClaims j
            (jwt.Signed m (auth.secretKey j) c) now).
Proof.
  split; [split |].
  - intros Hv. apply ValidateToken_accepted in Hv as (m & k & -> & Hm & Hk & Hexp & Hnbf).
    exists m, k. revert Hk. unfold jwt.Verify.
    destruct (jwt.Hash m) as [h |]; [| discriminate].
    case_bool_decide; [| discriminate]. intros _. exists h. auto.
  - intros (m & k & h & -> & Hh & Hk & Hexp & Hnbf). unfold auth.ValidateToken.
    rewrite jwt_ParseWithClaims_verified.
    + rewrite (proj2 (Validate_None _ _)) by auto.
      cbn [jwt.Valid jwt.Claims].
      destruct (jwt.ExpiresAt (auth.RegisteredClaims c)) as [exp |] eqn:Eexp;
        [| reflexivity].
      specialize (Hexp _ eq_refl). unfold time.Before.
      replace (exp <? now) with false by (symmetry; apply Z.ltb_ge; lia). reflexivity.
    + destruct m; try discriminate; reflexivity.
    + unfold jwt.Verify. rewrite Hh. by rewrite bool_decide_true.
  - intros m n Hm Hlen. unfold auth.ValidateToken.
    rewrite jwt_ParseWithClaims_own_key by exact Hm.
    rewrite jwt_ParseWithClaims_verified; [reflexivity | exact Hm |].
    unfold jwt.Verify. destruct m; try discriminate; cbn [jwt.Hash].
    all: rewrite block_trailing_zeros by (vm_compute sha2.BlockSize; lia).
    all: by rewrite bool_decide_true.
Qed.

Lemma ValidateToken_accepts_iff_witness :
  auth.ValidateToken auth.jwt_ParseWithClaims sampleManager
    (jwt.Signed jwt.SigningMethodHS256 ("test-secret-key" ++ String Ascii.zero "")
       {| auth.UserID := "u"; auth.Email := "e"; auth.Role := "ADMIN"; auth.Name := "n";
          auth.TokenType := "access";
          auth.RegisteredClaims :=
            {| jwt.Issuer := ""; jwt.Subject := ""; jwt.ExpiresAt := None;
               jwt.NotBefore := None; jwt.IssuedAt := None; jwt.ID := "" |} |}) 0
  = auth.ValidateToken auth.jwt_ParseWithClaims sampleManager
      (jwt.Signed jwt.SigningMethodHS256 "test-secret-key"
         {| auth.UserID := "u"; auth.Email := "e"; auth.Role := "ADMIN"; auth.Name := "n";
            auth.TokenType := "access";
            auth.RegisteredClaims :=
              {| jwt.Issuer := ""; jwt.Subject := ""; jwt.ExpiresAt := None;
                 jwt.NotBefore := None; jwt.IssuedAt := None; jwt.ID := "" |} |}) 0.
Proof.
  apply (proj2 (ValidateToken_accepts_iff sampleManager (jwt.Malformed "") 0 _)
           jwt.SigningMethodHS256 1%nat).
  - reflexivity.
  - vm_compute. lia.
Defined.

Lemma wrap64_small (z : Z) : - 2 ^ 63 <= z < 2 ^ 63 -> time.wrap64 z = z.
Proof.
  intros H. unfold time.wrap64.
  rewrite Z.mod_small by lia. lia.
Qed.

(** X3.  The lifetimes [NewJWTManager] computes are the configured hours
    and days without overflow as long as the hours are within 2562047 and
    the days within 106751 in absolute value. *)
Theorem NewJWTManager_TTL (secretKey : string) (accessTTLHours refreshTTLDays : Z) :
  (- 2562047 <= accessTTLHours <= 2562047 ->
   auth.accessTokenTTL (auth.NewJWTManager secretKey accessTTLHours refreshTTLDays)
   = accessTTLHours * 3600 * time.Second)
  /\ (- 106751 <= refreshTTLDays <= 106751 ->
      auth.refreshTokenTTL (auth.NewJWTManager secretKey accessTTLHours refreshTTLDays)
      = refreshTTLDays * 86400 * time.Second).
Proof.
  unfold auth.NewJWTManager, time.mul, time.Hour, time.Minute, time.Second. simpl. split.
  - intros H. rewrite (wrap64_small accessTTLHours) by lia.
    rewrite wrap64_small by lia. lia.
  - intros H. rewrite (wrap64_small refreshTTLDays) by lia.
    rewrite (wrap64_small (refreshTTLDays * 24)) by lia.
    rewrite (wrap64_small (refreshTTLDays * 24)) by lia.
    rewrite wrap64_small by lia. lia.
Qed.

Lemma NewJWTManager_TTL_witness :
  auth.accessTokenTTL (auth.NewJWTManager "k" 24 7) = 24 * 3600 * time.Second
  /\ auth.refreshTokenTTL (auth.NewJWTManager "k" 24 7) = 7 * 86400 * time.Second.
Proof.
  split.
  - apply (proj1 (NewJWTManager_TTL "k" 24 7)). lia.
  - apply (proj2 (NewJWTManager_TTL "k" 24 7)). lia.
Defined.

Lemma Truncate_Second_mono (t u : time.Time) :
  t <= u -> time.Truncate t time.Second <= time.Truncate u time.Second.
Proof.
  intros H. unfold time.Truncate, time.Second. simpl.
  set (o := time.unixToInternal).
  pose proof (Z.div_mod (t + o) 1000000000 ltac:(lia)).
  pose proof (Z.div_mod (u + o) 1000000000 ltac:(lia)).
  pose proof (Z.div_le_mono (t + o) (u + o) 1000000000 ltac:(lia) ltac:(lia)).
  lia.
Qed.

(** X4.  A manager configured with a number of access hours from
    -2562047 to 0 issues access tokens that are refused at every instant:
    their expiry does not lie after their not-before instant.  The lower
    bound is where the lifetime stops fitting 64 bits: with -2562048 hours
    the product wraps around to a positive lifetime. *)
Theorem nonpositive_TTL_token_never_valid (secretKey : string)
    (accessTTLHours refreshTTLDays : Z) (entropy : option string) (issued now : time.Time)
    (userID email role name : string) (tok : auth.Token) :
  (- 2562047 <= accessTTLHours <= 0 ->
   auth.GenerateAccessToken (auth.NewJWTManager secretKey accessTTLHours refreshTTLDays)
     entropy issued userID email role name = Ok tok ->
   is_Ok (auth.ValidateAccessToken auth.jwt_ParseWithClaims
            (auth.NewJWTManager secretKey accessTTLHours refreshTTLDays) tok now) = false)
  /\ 0 < auth.accessTokenTTL (auth.NewJWTManager secretKey (- 2562048) refreshTTLDays).
Proof.
  split; [| vm_compute; reflexivity].
  intros Hh Hgen.
  assert (Httl : auth.accessTokenTTL
                   (auth.NewJWTManager secretKey accessTTLHours refreshTTLDays)
                 = accessTTLHours * 3600 * time.Second).
  { unfold auth.NewJWTManager, time.mul, time.Hour, time.Minute, time.Second. simpl.
    rewrite (wrap64_small accessTTLHours) by lia. rewrite wrap64_small by lia. lia. }
  apply GenerateAccessToken_inv in Hgen as (c & -> & Hty & Huid & Hexp & Hnbf).
  unfold auth.ValidateAccessToken.
  destruct (auth.ValidateToken _ _ _ _) as [c' | e] eqn:Hv; [| reflexivity].
  exfalso. apply ValidateToken_accepted in Hv as (m & k & Heq & _ & _ & Hlt & Hle).
  injection Heq as <- <- <-.
  specialize (Hlt _ Hexp). specialize (Hle _ Hnbf).
  rewrite Httl in Hlt.
  pose proof (Truncate_Second_mono (time.Add issued (accessTTLHours * 3600 * time.Second))
                issued) as Hmono.
  unfold time.Add, time.Second in *. lia.
Qed.

Lemma nonpositive_TTL_token_never_valid_witness :
  is_Ok (auth.ValidateAccessToken auth.jwt_ParseWithClaims (auth.NewJWTManager "k" 0 7)
           (jwt.Signed jwt.SigningMethodHS256 "k"
              {| auth.UserID := "u"; auth.Email := "e"; auth.Role := "ADMIN"; auth.Name := "n";
                 auth.TokenType := "access";
                 auth.RegisteredClaims :=
                   {| jwt.Issuer := "pos-system"; jwt.Subject := "u";
                      jwt.ExpiresAt := Some 1700000000000000000;
                      jwt.NotBefore := Some 1700000000000000000;
                      jwt.IssuedAt := Some 1700000000000000000;
                      jwt.ID := "6964" |} |})
           1700000000000000000) = false.
Proof.
  apply (proj1 (nonpositive_TTL_token_never_valid "k" 0 7 (Some "id") 1700000000123456789
                  1700000000000000000 "u" "e" "ADMIN" "n" _)).
  - lia.
  - vm_compute. reflexivity.
Defined.

(** ** More on secrets and generators *)

Lemma xval_hex_digit (d : N) : (d < 16)%N -> uuid.xval (uuid.hex_digit d) = Some d.
Proof.
  intros H.
  assert (Hall : forall k, (k < 16)%nat ->
                           uuid.xval (uuid.hex_digit (N.of_nat k)) = Some (N.of_nat k)).
  { intros k Hk. do 16 (destruct k as [| k]; [reflexivity |]). lia. }
  rewrite <- (N2Nat.id d). apply Hall. lia.
Qed.

Lemma N_of_ascii_lt (c : ascii) : (N_of_ascii c < 256)%N.
Proof. apply N_ascii_bounded. Qed.

Lemma EncodeToString_inj (a : string) :
  forall b, hex.EncodeToString a = hex.EncodeToString b -> a = b.
Proof.
  induction a as [| c a IH]; intros [| c' b] H; simpl in H; try discriminate; [reflexivity |].
  injection H as Hhi Hlo Hrest.
  pose proof (N_of_ascii_lt c). pose proof (N_of_ascii_lt c').
  apply (f_equal uuid.xval) in Hhi, Hlo.
  rewrite !xval_hex_digit in Hhi, Hlo
    by (try apply N.mod_lt; try apply N.Div0.div_lt_upper_bound; lia).
  injection Hhi as Hhi. injection Hlo as Hlo.
  f_equal; [| exact (IH b Hrest)].
  rewrite <- (ascii_N_embedding c), <- (ascii_N_embedding c'). f_equal.
  rewrite (N.div_mod (N_of_ascii c) 16), (N.div_mod (N_of_ascii c') 16) by lia. lia.
Qed.

Lemma EncodeToString_length (a : string) :
  String.length (hex.EncodeToString a) = (2 * String.length a)%nat.
Proof. induction a as [| c a IH]; simpl; [reflexivity | rewrite IH; lia]. Qed.

Lemma EncodeToString_hex (a : string) :
  Forall (fun c => c ∈ uuid.hexdigits) (list_ascii_of_string (hex.EncodeToString a)).
Proof.
  assert (Hd : forall d, (d < 16)%N -> uuid.hex_digit d ∈ uuid.hexdigits).
  { assert (Hall : forall k, (k < 16)%nat -> uuid.hex_digit (N.of_nat k) ∈ uuid.hexdigits).
    { intros k Hk.
      do 16 (destruct k as [| k]; [apply list_elem_of_In; vm_compute; tauto |]). lia. }
    intros d H. rewrite <- (N2Nat.id d). apply Hall. lia. }
  induction a as [| c a IH]; simpl; [constructor |].
  pose proof (N_of_ascii_lt c).
  constructor; [apply Hd; apply N.Div0.div_lt_upper_bound; lia |].
  constructor; [apply Hd; apply N.mod_lt; lia | exact IH].
Qed.

(** X5.  The identifier [generateUniqueID] gives a token, and the reset and
    verification tokens of the password manager, are the random bytes read,
    in lower-case hexadecimal: twice as many characters as bytes, all of
    them hexadecimal digits, and different bytes give different
    identifiers. *)
Theorem generateUniqueID_hex (pm : auth.PasswordManager) (bytes : string) :
  exists id,
    auth.generateUniqueID (Some bytes) = Ok id
    /\ auth.GenerateResetToken pm (Some bytes) = Ok id
    /\ auth.GenerateEmailVerificationToken pm (Some bytes) = Ok id
    /\ String.length id = (2 * String.length bytes)%nat
    /\ Forall (fun c => c ∈ uuid.hexdigits) (list_ascii_of_string id)
    /\ forall bytes',
         (auth.generateUniqueID (Some bytes') = Ok id
          \/ auth.GenerateResetToken pm (Some bytes') = Ok id
          \/ auth.GenerateEmailVerificationToken pm (Some bytes') = Ok id) ->
         bytes' = bytes.
Proof.
  exists (hex.EncodeToString bytes). repeat split.
  - apply EncodeToString_length.
  - apply EncodeToString_hex.
  - intros bytes' [[= H] | [[= H] | [= H]]]; by apply EncodeToString_inj.
Qed.

(** A secret of 8 to 128 bytes with a byte of each class passes the
    policy. *)
Lemma ValidatePassword_accepts (pm : auth.PasswordManager) (password : string) :
  (8 <= String.length password <= 128)%nat ->
  auth.MatchString auth.isUpper password = true ->
  auth.MatchString auth.isLower password = true ->
  auth.MatchString auth.isNumber password = true ->
  auth.MatchString auth.isSpecial password = true ->
  auth.ValidatePassword pm password = None.
Proof.
  intros [Hlo Hhi] Hu Hl Hn Hs. unfold auth.ValidatePassword.
  rewrite !bool_decide_false by lia. rewrite Hu, Hl, Hn, Hs. reflexivity.
Qed.

(** X6.  [ValidatePassword] accepts a secret exactly when it is 8 to 128
    bytes long and contains an uppercase letter, a lowercase letter, a digit
    and one of the listed symbols. *)
Theorem ValidatePassword_accepts_iff (pm : auth.PasswordManager) (password : string) :
  auth.ValidatePassword pm password = None
  <-> (8 <= String.length password <= 128)%nat
      /\ auth.MatchString auth.isUpper password = true
      /\ auth.MatchString auth.isLower password = true
      /\ auth.MatchString auth.isNumber password = true
      /\ auth.MatchString auth.isSpecial password = true.
Proof.
  split.
  - unfold auth.ValidatePassword.
    intros H. repeat (case_match; try discriminate).
    repeat match goal with
           | H : bool_decide _ = false |- _ => apply bool_decide_eq_false in H
           | H : negb _ = false |- _ => apply negb_false_iff in H
           end.
    repeat split; (lia || assumption).
  - intros (Hlen & Hu & Hl & Hn & Hs). by apply ValidatePassword_accepts.
Qed.

(** X7.  A hash [HashPassword] returns was made from a secret the policy
    accepts and bcrypt can take (at most 72 bytes), with the manager's cost,
    which lies between 10 and 31, and from the key material of that secret.
    A manager built with more than 31 rounds hashes nothing. *)
Theorem HashPassword_sound (rounds : Z) (salt : option string) (password : string) :
  (forall h,
     auth.HashPassword (auth.NewPasswordManager rounds) salt password = Ok h ->
     auth.ValidatePassword (auth.NewPasswordManager rounds) password = None
     /\ (String.length password <= 72)%nat
     /\ exists cost s,
          salt = Some s
          /\ h = bcrypt.Hashed cost s (bcrypt.key_material password)
          /\ cost = (if rounds <? 10 then 12 else rounds)
          /\ 10 <= cost <= 31)
  /\ (31 < rounds ->
      is_Ok (auth.HashPassword (auth.NewPasswordManager rounds) salt password) = false).
Proof.
  unfold auth.HashPassword, bcrypt.GenerateFromPassword, auth.NewPasswordManager,
    bcrypt.MinCost, bcrypt.MaxCost, bcrypt.DefaultCost.
  cbn [auth.saltRounds].
  set (cost := if rounds <? 10 then 12 else rounds).
  assert (Hc : 10 <= cost) by (subst cost; destruct (rounds <? 10) eqn:E; lia).
  replace (cost <? 4) with false by (symmetry; apply Z.ltb_ge; lia).
  split.
  - intros h.
    destruct (auth.ValidatePassword _ password); [discriminate |].
    destruct (bool_decide (72 < String.length password)%nat) eqn:Hlen; [discriminate |].
    apply bool_decide_eq_false in Hlen.
    destruct (31 <? cost) eqn:Hmax; [discriminate |]. apply Z.ltb_ge in Hmax.
    destruct salt as [s |]; [| discriminate]. intros [= <-].
    split; [reflexivity |]. split; [lia |]. exists cost, s. auto.
  - intros Hr. assert (cost = rounds) as -> by (subst cost; destruct (rounds <? 10) eqn:E; lia).
    destruct (auth.ValidatePassword _ password); [reflexivity |].
    destruct (bool_decide (72 < String.length password)%nat); [reflexivity |].
    replace (31 <? rounds) with true by (symmetry; apply Z.ltb_lt; lia). reflexivity.
Qed.

Lemma HashPassword_sound_witness :
  is_Ok (auth.HashPassword (auth.NewPasswordManager 32) (Some "0123456789abcdef")
           "TestPassword123!") = false.
Proof.
  apply (proj2 (HashPassword_sound 32 (Some "0123456789abcdef") "TestPassword123!")). lia.
Defined.

Lemma randInt_range (bytes : auth.Bytes4) (max : Z) :
  0 < max -> 0 <= auth.randInt bytes max < max.
Proof.
  intros Hmax. unfold auth.randInt. destruct bytes as [[[b0 b1] b2] b3].
  replace (max <=? 0) with false by (symmetry; apply Z.leb_gt; lia).
  set (n := Z.lor _ _).
  assert (Hn : 0 <= n).
  { subst n. repeat (apply Z.lor_nonneg; split); try apply Z.shiftl_nonneg; lia. }
  replace (n <? 0) with false by (symmetry; apply Z.ltb_ge; lia).
  apply Z.rem_bound_pos; lia.
Qed.

Lemma byteAt_in_range (s : list ascii) (i : Z) :
  0 <= i < Z.of_nat (length s) -> exists c, auth.byteAt s i = Some c /\ s !! Z.to_nat i = Some c.
Proof.
  intros H. unfold auth.byteAt.
  replace (0 <=? i) with true by (symmetry; apply Z.leb_le; lia).
  destruct (lookup_lt_is_Some_2 s (Z.to_nat i) ltac:(lia)) as [c Hc]. eauto.
Qed.

Lemma setAt_in_range (s : list ascii) (i : Z) (c : ascii) :
  0 <= i < Z.of_nat (length s) -> auth.setAt s i c = Some (<[Z.to_nat i := c]> s).
Proof.
  intros H. unfold auth.setAt.
  replace (0 <=? i) with true by (symmetry; apply Z.leb_le; lia).
  replace (i <? Z.of_nat (length s)) with true by (symmetry; apply Z.ltb_lt; lia).
  reflexivity.
Qed.

Lemma hasClass_swap (class : ascii -> bool) (l : list ascii) (i j : nat) (a b : ascii) :
  l !! i = Some a -> l !! j = Some b ->
  hasClass class l -> hasClass class (<[j := a]> (<[i := b]> l)).
Proof.
  intros Hi Hj (m & c & Hm & Hc).
  assert (Hli : (i < length l)%nat) by (apply lookup_lt_is_Some; eauto).
  assert (Hlj : (j < length l)%nat) by (apply lookup_lt_is_Some; eauto).
  destruct (decide (m = j)) as [-> | Hmj].
  - assert (c = b) as -> by congruence.
    destruct (decide (i = j)) as [-> | Hij].
    + exists j, a. split; [| congruence].
      apply list_lookup_insert_eq. rewrite length_insert. exact Hlj.
    + exists i, b. split; [| exact Hc].
      rewrite list_lookup_insert_ne by congruence. by apply list_lookup_insert_eq.
  - destruct (decide (m = i)) as [-> | Hmi].
    + assert (c = a) as -> by congruence.
      exists j, a. split; [| exact Hc].
      apply list_lookup_insert_eq. rewrite length_insert. exact Hlj.
    + exists m, c. split; [| exact Hc].
      rewrite !list_lookup_insert_ne by congruence. exact Hm.
Qed.

Lemma fillRest_ok (rnd : nat -> auth.Bytes4) (n : nat) :
  forall (i : Z) (k : nat) (p : list ascii),
    4 <= i -> Z.of_nat n + i = Z.of_nat (length p) ->
    exists p', auth.fillRest rnd n i k p = Some p'
               /\ length p' = length p
               /\ forall m, (m < 4)%nat -> p' !! m = p !! m.
Proof.
  induction n as [| n IH]; intros i k p Hi Hlen; cbn [auth.fillRest].
  - eauto.
  - destruct (byteAt_in_range auth.allChars
                (auth.randInt (rnd k) (Z.of_nat (length auth.allChars)))) as (c & -> & _).
    { apply randInt_range. vm_compute. reflexivity. }
    cbn [mbind option_bind]. rewrite setAt_in_range by lia. cbn [mbind option_bind].
    destruct (IH (i + 1) (S k) (<[Z.to_nat i := c]> p)) as (p' & Hp' & Hl & Hsame).
    + lia.
    + rewrite length_insert. lia.
    + exists p'. split; [exact Hp' |]. rewrite Hl, length_insert. split; [reflexivity |].
      intros m Hm. rewrite Hsame by exact Hm. apply list_lookup_insert_ne. lia.
Qed.

Lemma shuffle_ok (rnd : nat -> auth.Bytes4) (n : nat) :
  forall (i : Z) (k : nat) (p : list ascii),
    Z.of_nat n = i -> i < Z.of_nat (length p) ->
    exists p', auth.shuffle rnd n i k p = Some p'
               /\ length p' = length p
               /\ forall class, hasClass class p -> hasClass class p'.
Proof.
  induction n as [| n IH]; intros i k p Hn Hlen; cbn [auth.shuffle].
  - eauto.
  - pose proof (randInt_range (rnd k) (i + 1) ltac:(lia)) as Hj.
    destruct (byteAt_in_range p (auth.randInt (rnd k) (i + 1)) ltac:(lia)) as (pj & -> & Hpj).
    destruct (byteAt_in_range p i ltac:(lia)) as (pi & -> & Hpi).
    cbn [mbind option_bind]. rewrite setAt_in_range by lia. cbn [mbind option_bind].
    rewrite setAt_in_range by (rewrite length_insert; lia). cbn [mbind option_bind].
    destruct (IH (i - 1) (S k)
                (<[Z.to_nat (auth.randInt (rnd k) (i + 1)) := pi]> (<[Z.to_nat i := pj]> p)))
      as (p' & Hp' & Hl & Hcls).
    + lia.
    + rewrite !length_insert. lia.
    + exists p'. split; [exact Hp' |]. rewrite Hl, !length_insert. split; [reflexivity |].
      intros class Hc. apply Hcls. by apply hasClass_swap.
Qed.

Lemma hasClass_existsb (class : ascii -> bool) (l : list ascii) :
  hasClass class l -> existsb class l = true.
Proof.
  intros (m & c & Hm & Hc). apply existsb_exists. exists c. split; [| exact Hc].
  apply list_elem_of_In. eapply list_elem_of_lookup_2. exact Hm.
Qed.

Lemma class_of_lookup (class : ascii -> bool) (chars : list ascii) (i : nat) (c : ascii) :
  forallb class chars = true -> chars !! i = Some c -> class c = true.
Proof.
  intros Hall Hc. rewrite forallb_forall in Hall. apply Hall.
  apply list_elem_of_In. eapply list_elem_of_lookup_2. exact Hc.
Qed.

Lemma length_string_of_list_ascii (l : list ascii) :
  String.length (string_of_list_ascii l) = List.length l.
Proof. induction l as [| c l IH]; simpl; [reflexivity | by rewrite IH]. Qed.

(** X8.  As long as the runtime allocates the bytes of the password (the
    length is within the allocation limit, which is an [int]),
    [GenerateRandomPassword] never indexes out of range, whatever the random
    bytes, and returns a password of the length asked, of 12 when fewer than
    8 are asked.  Up to 128 the password meets the policy of
    [ValidatePassword]; beyond, the password it returns is refused as too
    long.  A length the runtime does not allocate stops the program. *)
Theorem GenerateRandomPassword_valid (pm : auth.PasswordManager) (limit : Z)
    (rnd : nat -> auth.Bytes4) (length : Z) :
  ((if length <? 8 then 12 else length) <= limit -> limit < 2 ^ 63 ->
   exists password,
     auth.GenerateRandomPassword pm limit rnd length = Some password
     /\ String.length password = Z.to_nat (if length <? 8 then 12 else length)
     /\ (length <= 128 -> auth.ValidatePassword pm password = None)
     /\ (128 < length ->
         auth.ValidatePassword pm password
         = Some (errors_New "password must be less than 128 characters long")))
  /\ (limit < (if length <? 8 then 12 else length) ->
      auth.GenerateRandomPassword pm limit rnd length = None).
Proof.
  unfold auth.GenerateRandomPassword, auth.makeBytes.
  set (L := if length <? 8 then 12 else length).
  assert (HL : 8 <= L) by (subst L; destruct (length <? 8) eqn:E; lia).
  assert (HLdef : L = if length <? 8 then 12 else length) by reflexivity.
  clearbody L.
  split.
  2:{ intros Hlim. replace (L <=? limit) with false by (symmetry; apply Z.leb_gt; lia).
      rewrite andb_false_r. reflexivity. }
  intros Hlim _.
  replace (0 <=? L) with true by (symmetry; apply Z.leb_le; lia).
  replace (L <=? limit) with true by (symmetry; apply Z.leb_le; lia).
  cbn [andb mbind option_bind].
  set (p0 := replicate (Z.to_nat L) Ascii.zero).
  assert (Hp0 : List.length p0 = Z.to_nat L) by apply length_replicate.
  clearbody p0.
  destruct (byteAt_in_range auth.uppercase
              (auth.randInt (rnd 0%nat) (Z.of_nat (List.length auth.uppercase))))
    as (cu & -> & Hcu); [apply randInt_range; vm_compute; reflexivity |].
  cbn [mbind option_bind]. rewrite setAt_in_range by lia. cbn [mbind option_bind].
  destruct (byteAt_in_range auth.lowercase
              (auth.randInt (rnd 1%nat) (Z.of_nat (List.length auth.lowercase))))
    as (cl & -> & Hcl); [apply randInt_range; vm_compute; reflexivity |].
  cbn [mbind option_bind]. rewrite setAt_in_range by (rewrite !length_insert; lia).
  cbn [mbind option_bind].
  destruct (byteAt_in_range auth.numbers
              (auth.randInt (rnd 2%nat) (Z.of_nat (List.length auth.numbers))))
    as (cn & -> & Hcn); [apply randInt_range; vm_compute; reflexivity |].
  cbn [mbind option_bind]. rewrite setAt_in_range by (rewrite !length_insert; lia).
  cbn [mbind option_bind].
  destruct (byteAt_in_range auth.special
              (auth.randInt (rnd 3%nat) (Z.of_nat (List.length auth.special))))
    as (cs & -> & Hcs); [apply randInt_range; vm_compute; reflexivity |].
  cbn [mbind option_bind]. rewrite setAt_in_range by (rewrite !length_insert; lia).
  cbn [mbind option_bind].
  set (p4 := <[Z.to_nat 3 := cs]> (<[Z.to_nat 2 := cn]> (<[Z.to_nat 1 := cl]>
               (<[Z.to_nat 0 := cu]> p0)))).
  assert (Hp4 : List.length p4 = Z.to_nat L) by (subst p4; rewrite !length_insert; exact Hp0).
  assert (Hp4_0 : p4 !! 0%nat = Some cu).
  { subst p4. rewrite !list_lookup_insert_ne by (simpl; lia).
    apply list_lookup_insert_eq. lia. }
  assert (Hp4_1 : p4 !! 1%nat = Some cl).
  { subst p4. rewrite !list_lookup_insert_ne by (simpl; lia).
    apply list_lookup_insert_eq. rewrite length_insert. lia. }
  assert (Hp4_2 : p4 !! 2%nat = Some cn).
  { subst p4. rewrite !list_lookup_insert_ne by (simpl; lia).
    apply list_lookup_insert_eq. rewrite !length_insert. lia. }
  assert (Hp4_3 : p4 !! 3%nat = Some cs).
  { subst p4. apply list_lookup_insert_eq. rewrite !length_insert. lia. }
  clearbody p4.
  destruct (fillRest_ok rnd (Z.to_nat (L - 4)) 4 4%nat p4 ltac:(lia) ltac:(lia))
    as (p5 & -> & Hp5 & Hsame).
  cbn [mbind option_bind].
  destruct (shuffle_ok rnd (Z.to_nat (Z.of_nat (List.length p5) - 1))
              (Z.of_nat (List.length p5) - 1) (Z.to_nat L) p5 ltac:(lia) ltac:(lia))
    as (p6 & -> & Hp6 & Hcls).
  cbn [mbind option_bind]. eexists. split; [reflexivity |].
  assert (Hlen : String.length (string_of_list_ascii p6) = Z.to_nat L).
  { rewrite length_string_of_list_ascii. congruence. }
  split; [exact Hlen |].
  assert (Hcls' : forall class m c, (m < 4)%nat -> p4 !! m = Some c -> class c = true ->
                                    auth.MatchString class (string_of_list_ascii p6) = true).
  { intros class m c Hm Hc Hclass. unfold auth.MatchString.
    rewrite list_ascii_of_string_of_list_ascii. apply hasClass_existsb, Hcls.
    exists m, c. rewrite Hsame by exact Hm. auto. }
  assert (HU : auth.MatchString auth.isUpper (string_of_list_ascii p6) = true).
  { apply (Hcls' _ 0%nat cu); [lia | exact Hp4_0 |].
    eapply class_of_lookup; [| exact Hcu]. reflexivity. }
  assert (HLo : auth.MatchString auth.isLower (string_of_list_ascii p6) = true).
  { apply (Hcls' _ 1%nat cl); [lia | exact Hp4_1 |].
    eapply class_of_lookup; [| exact Hcl]. reflexivity. }
  assert (HN : auth.MatchString auth.isNumber (string_of_list_ascii p6) = true).
  { apply (Hcls' _ 2%nat cn); [lia | exact Hp4_2 |].
    eapply class_of_lookup; [| exact Hcn]. reflexivity. }
  assert (HS : auth.MatchString auth.isSpecial (string_of_list_ascii p6) = true).
  { apply (Hcls' _ 3%nat cs); [lia | exact Hp4_3 |].
    eapply class_of_lookup; [| exact Hcs]. vm_compute. reflexivity. }
  split.
  - intros H128. apply ValidatePassword_accepts; try assumption.
    rewrite Hlen. destruct (length <? 8); lia.
  - intros H128. unfold auth.ValidatePassword. rewrite Hlen.
    rewrite bool_decide_false by lia. rewrite bool_decide_true; [reflexivity |].
    destruct (length <? 8) eqn:E; [apply Z.ltb_lt in E |]; lia.
Qed.

Lemma GenerateRandomPassword_valid_witness :
  exists password,
    auth.GenerateRandomPassword (auth.NewPasswordManager 12) 1048576
      (fun k => (ascii_of_nat k, ascii_of_nat (3 * k), ascii_of_nat (5 * k),
                 ascii_of_nat (7 * k + 1))) 16 = Some password
    /\ auth.ValidatePassword (auth.NewPasswordManager 12) password = None.
Proof.
  destruct (proj1 (GenerateRandomPassword_valid (auth.NewPasswordManager 12) 1048576
                     (fun k => (ascii_of_nat k, ascii_of_nat (3 * k), ascii_of_nat (5 * k),
                                ascii_of_nat (7 * k + 1))) 16))
    as (p & Hp & _ & Hok & _); [vm_compute; discriminate | reflexivity |].
  exists p. split; [exact Hp | apply Hok; lia].
Defined.

(** ** The session manager and the combined manager *)

(** X9.  The session manager's life cycle: a generated session is valid
    exactly until its lifetime has run; a refresh makes an active session
    valid for one more lifetime from the refresh, even one that had expired;
    a revoked session is valid at no instant, and no refresh brings it back.
    A nil session is never valid. *)
Theorem SessionManager_lifecycle (sm : auth.SessionManager) (session : auth.Session.t)
    (entropy : option string) (userID ip agent : string) (created t u now : time.Time) :
  (auth.GenerateSession sm entropy created userID ip agent = Ok session ->
   auth.IsSessionValid sm (Some session) now
   = bool_decide (now < created + auth.sessionTTL sm))
  /\ auth.IsSessionValid sm (Some (auth.RefreshSession sm session t u)) now
     = auth.Session.IsActive session && bool_decide (now < t + auth.sessionTTL sm)
  /\ auth.IsSessionValid sm (Some (auth.RevokeSession sm session t)) now = false
  /\ (forall t' u', auth.IsSessionValid sm
                      (Some (auth.RefreshSession sm (auth.RevokeSession sm session t) t' u'))
                      now
                    = false)
  /\ auth.IsSessionValid sm None now = false.
Proof.
  assert (Hb : forall a b, (a <? b) = bool_decide (a < b)).
  { intros a b. destruct (a <? b) eqn:E.
    - apply Z.ltb_lt in E. by rewrite bool_decide_true.
    - apply Z.ltb_ge in E. rewrite bool_decide_false; [reflexivity | lia]. }
  unfold auth.IsSessionValid, auth.RefreshSession, auth.RevokeSession, auth.GenerateSession,
    auth.generateSecureToken, time.Before, time.Add.
  simpl. repeat split.
  - destruct entropy; [| discriminate]. intros [= <-]. simpl. apply Hb.
  - by rewrite Hb.
Qed.

Lemma SessionManager_lifecycle_witness :
  auth.IsSessionValid (auth.NewSessionManager 24)
    (Some {| auth.Session.SessionToken := "6162";
             auth.Session.UserID := "user123";
             auth.Session.ExpiresAt := time.Add 1000 (auth.sessionTTL (auth.NewSessionManager 24));
             auth.Session.CreatedAt := 1000;
             auth.Session.UpdatedAt := 1000;
             auth.Session.IPAddress := "192.168.1.1";
             auth.Session.UserAgent := "Mozilla/5.0 Test";
             auth.Session.IsActive := true |}) 2000
  = bool_decide (2000 < 1000 + auth.sessionTTL (auth.NewSessionManager 24)).
Proof.
  apply (proj1 (SessionManager_lifecycle (auth.NewSessionManager 24) _ (Some "ab") "user123"
                  "192.168.1.1" "Mozilla/5.0 Test" 1000 0 0 2000)).
  reflexivity.
Defined.

Lemma GenerateAccessToken_Some j bytes issued userID email role name :
  exists tok, auth.GenerateAccessToken j (Some bytes) issued userID email role name = Ok tok.
Proof. unfold auth.GenerateAccessToken, auth.generateUniqueID. simpl. eauto. Qed.

Lemma GenerateRefreshToken_Some j bytes issued userID email :
  exists tok, auth.GenerateRefreshToken j (Some bytes) issued userID email = Ok tok.
Proof. unfold auth.GenerateRefreshToken, auth.generateUniqueID. simpl. eauto. Qed.

(** X10.  [RefreshAuthTokens] builds the new access token from the claims
    of the refresh token, and a refresh token carries no role and no name:
    refreshing the pair [CreateAuthTokens] made gives an access token for the
    same user and email (as JSON carries them: coerced to valid UTF-8) whose
    role and name are empty.  An access token is not accepted for
    refreshing. *)
Theorem RefreshAuthTokens_drops_role (am : auth.AuthManager)
    (e1 e2 : option string) (a r : string) (issued now : time.Time)
    (userID email role name : string) (accessToken refreshToken : auth.Token) :
  auth.CreateAuthTokens am e1 e2 issued userID email role name
  = Ok (accessToken, refreshToken) ->
  (issued <= now ->
   now < time.Truncate (time.Add issued (auth.refreshTokenTTL (auth.jwtManager am)))
           time.Second ->
   exists newAccess newRefresh claims,
     auth.RefreshAuthTokens am (Some a) (Some r) now refreshToken = Ok (newAccess, newRefresh)
     /\ auth.GetTokenClaims newAccess = Ok claims
     /\ auth.TokenType claims = "access"
     /\ auth.UserID claims = json.coerce userID /\ auth.Email claims = json.coerce email
     /\ auth.Role claims = "" /\ auth.Name claims = "")
  /\ auth.RefreshAuthTokens am (Some a) (Some r) now accessToken
     = Err (errors_New "invalid refresh token").
Proof.
  unfold auth.CreateAuthTokens. intros Hcreate.
  destruct (auth.GenerateAccessToken _ e1 _ _ _ _ _) as [acc |] eqn:Hacc; [| discriminate].
  destruct (auth.GenerateRefreshToken _ e2 _ _ _) as [ref |] eqn:Href; [| discriminate].
  injection Hcreate as <- <-.
  split.
  - intros Hle Hlt.
    destruct (GenerateRefreshToken_inv _ _ _ _ _ _ Href) as (c & -> & Hty & Huid & Hexp & Hnbf).
    apply GenerateRefreshToken_claims in Href as (Hemail & Hrole & Hname).
    unfold auth.RefreshAuthTokens, auth.ValidateRefreshToken.
    rewrite (ValidateToken_before_expiry _ c _ _ now Hexp Hnbf)
      by (try exact Hlt; pose proof (Truncate_Second_le issued); lia).
    rewrite Hty. cbn [negb bool_decide decide_rel].
    rewrite bool_decide_true by reflexivity. cbn [negb].
    destruct (GenerateAccessToken_Some (auth.jwtManager am) a now (auth.UserID c)
                (auth.Email c) (auth.Role c) (auth.Name c)) as [newAccess Hnew].
    destruct (GenerateRefreshToken_Some (auth.jwtManager am) r now (auth.UserID c)
                (auth.Email c)) as [newRefresh Hnew'].
    rewrite Hnew, Hnew'.
    destruct (GenerateAccessToken_inv _ _ _ _ _ _ _ _ Hnew) as (c2 & -> & Hty2 & Huid2 & _).
    apply GenerateAccessToken_claims in Hnew as (Hemail2 & Hrole2 & Hname2).
    exists (jwt.Signed jwt.SigningMethodHS256 (auth.secretKey (auth.jwtManager am)) c2),
      newRefresh, c2.
    rewrite Huid2, Hemail2, Hrole2, Hname2, Huid, Hemail, Hrole, Hname.
    rewrite !coerce_idempotent. repeat split; assumption.
  - unfold auth.RefreshAuthTokens, auth.ValidateRefreshToken.
    apply GenerateAccessToken_inv in Hacc as (c & -> & Hty & _).
    destruct (auth.ValidateToken _ _ _ _) as [c' | e] eqn:Hv; [| reflexivity].
    apply ValidateToken_claims in Hv as ->. rewrite Hty. reflexivity.
Qed.

Lemma RefreshAuthTokens_drops_role_witness :
  auth.RefreshAuthTokens (auth.NewAuthManager "test-secret-key" 1 7 24 12)
    (Some "a") (Some "r") (sampleInstant + 5 * time.Second) sampleAccessToken
  = Err (errors_New "invalid refresh token").
Proof.
  apply (RefreshAuthTokens_drops_role (auth.NewAuthManager "test-secret-key" 1 7 24 12)
           (Some "0123456789abcdef") (Some "fedcba9876543210") "a" "r" sampleInstant
           (sampleInstant + 5 * time.Second) "user123" "test@example.com" "MANAGER"
           "Test User" sampleAccessToken sampleRefreshToken).
  vm_compute. reflexivity.
Defined.

(** ** More on roles *)

Lemma roleHierarchy_level (role : Role) :
  default 0 (services.roleHierarchy !! role)
  = if bool_decide (role = RoleAdmin) then 3
    else if bool_decide (role = RoleManager) then 2
    else if bool_decide (role = RoleCashier) then 1 else 0.
Proof.
  unfold services.roleHierarchy.
  repeat case_bool_decide; subst; try reflexivity.
  rewrite !lookup_insert_ne by congruence. reflexivity.
Qed.

(** X11.  The two role checks of the code, [AuthService.ValidateRole] and
    [User.CanAccessResource], decide alike whenever the required role is one
    of the three roles, whatever the user's role is; for any other required
    role [CanAccessResource] refuses and [ValidateRole] grants. *)
Theorem ValidateRole_CanAccessResource (s : services.AuthService) (u : User.t)
    (requiredRole : Role) :
  (models.ValidateRole requiredRole = true ->
   (services.ValidateRole s (User.Role u) requiredRole = None
    <-> CanAccessResource u requiredRole = true))
  /\ (models.ValidateRole requiredRole = false ->
      CanAccessResource u requiredRole = false
      /\ services.ValidateRole s (User.Role u) requiredRole = None).
Proof.
  unfold services.ValidateRole. rewrite !roleHierarchy_level.
  unfold models.ValidateRole, CanAccessResource, IsAdmin, IsManager, IsCashier,
    RoleAdmin, RoleManager, RoleCashier.
  split; intros Hrec;
    repeat case_bool_decide; subst; simpl in *; try discriminate;
    repeat (split || intros); try reflexivity; try discriminate; try congruence.
Qed.

Lemma ValidateRole_CanAccessResource_witness :
  CanAccessResource
    {| User.ID := 1%N; User.Email := "a@x.com"; User.Name := "Ann"; User.Role := "GUEST";
       User.IsActive := true; User.LastLoginAt := None |} "OWNER" = false
  /\ services.ValidateRole sampleService "GUEST" "OWNER" = None.
Proof.
  apply (proj2 (ValidateRole_CanAccessResource sampleService
                  {| User.ID := 1%N; User.Email := "a@x.com"; User.Name := "Ann";
                     User.Role := "GUEST"; User.IsActive := true;
                     User.LastLoginAt := None |} "OWNER")).
  reflexivity.
Defined.

(** X12.  [ValidateRole] orders roles: every role satisfies itself, the
    check is transitive, any two roles are comparable, and [ADMIN] satisfies
    every requirement. *)
Theorem ValidateRole_total_preorder (s : services.AuthService) (a b c : Role) :
  services.ValidateRole s a a = None
  /\ (services.ValidateRole s a b = None -> services.ValidateRole s b c = None ->
      services.ValidateRole s a c = None)
  /\ (services.ValidateRole s a b = None \/ services.ValidateRole s b a = None)
  /\ services.ValidateRole s RoleAdmin a = None.
Proof.
  unfold services.ValidateRole.
  assert (Ha : 0 <= default 0 (services.roleHierarchy !! a) <= 3)
    by (rewrite roleHierarchy_level; repeat case_bool_decide; lia).
  change (default 0 (services.roleHierarchy !! RoleAdmin)) with 3.
  generalize dependent (default 0 (services.roleHierarchy !! a)).
  generalize (default 0 (services.roleHierarchy !! b)).
  generalize (default 0 (services.roleHierarchy !! c)).
  intros lc lb la Ha.
  destruct (la <? la) eqn:E1, (la <? lb) eqn:E2, (lb <? lc) eqn:E3, (la <? lc) eqn:E4,
    (lb <? la) eqn:E5, (3 <? la) eqn:E6;
    repeat match goal with
           | H : (_ <? _) = true |- _ => apply Z.ltb_lt in H
           | H : (_ <? _) = false |- _ => apply Z.ltb_ge in H
           end;
    try lia; repeat split; auto; try discriminate.
Qed.

Lemma ValidateRole_total_preorder_witness :
  services.ValidateRole sampleService "ADMIN" "CASHIER" = None.
Proof.
  apply (proj1 (proj2 (ValidateRole_total_preorder sampleService "ADMIN" "MANAGER" "CASHIER")));
    reflexivity.
Defined.

(** ** Identifiers *)

Lemma hex_of_length (n : nat) : forall u, String.length (uuid.hex_of n u) = n.
Proof.
  induction n as [| n IH]; intros u; cbn [uuid.hex_of]; [reflexivity |].
  rewrite length_append, IH. simpl. lia.
Qed.

Lemma list_ascii_of_string_app (a b : string) :
  list_ascii_of_string (a ++ b)%string
  = (list_ascii_of_string a ++ list_ascii_of_string b)%list.
Proof. induction a as [| c a IH]; [reflexivity |]. cbn. by rewrite <- IH. Qed.

Lemma parse_hex_app (l1 l2 : list ascii) :
  forall acc, uuid.parse_hex acc (l1 ++ l2)
              = match uuid.parse_hex acc l1 with
                | Some a => uuid.parse_hex a l2
                | None => None
                end.
Proof.
  induction l1 as [| c l1 IH]; intros acc; simpl; [reflexivity |].
  destruct (uuid.xval c); [apply IH | reflexivity].
Qed.

Lemma parse_hex_hex_of (n : nat) :
  forall u acc,
    uuid.parse_hex acc (list_ascii_of_string (uuid.hex_of n u))
    = Some (acc * 16 ^ N.of_nat n + u mod 16 ^ N.of_nat n)%N.
Proof.
  induction n as [| n IH]; intros u acc.
  - simpl. f_equal. rewrite N.mod_1_r. lia.
  - cbn [uuid.hex_of]. rewrite list_ascii_of_string_app, parse_hex_app, IH.
    cbn [list_ascii_of_string uuid.parse_hex].
    rewrite xval_hex_digit by (apply N.mod_lt; lia). f_equal.
    rewrite Nat2N.inj_succ, N.pow_succ_r'.
    rewrite (N.Div0.mod_mul_r u 16 (16 ^ N.of_nat n)). lia.
Qed.

Lemma Forall_substring (P : ascii -> Prop) (s : string) :
  Forall P (list_ascii_of_string s) ->
  forall n m, Forall P (list_ascii_of_string (substring n m s)).
Proof.
  induction s as [| c s IH]; intros Hs n m.
  - destruct n, m; constructor.
  - cbn [list_ascii_of_string] in Hs. apply Forall_cons in Hs as [Hc Hs].
    destruct n as [| n]; [destruct m as [| m] |]; cbn [substring list_ascii_of_string].
    + constructor.
    + constructor; [exact Hc | by apply IH].
    + by apply IH.
Qed.

Lemma hex_digit_ascii (d : N) : (utf8.byte (uuid.hex_digit d) < 128)%N.
Proof.
  unfold uuid.hex_digit. generalize (N.to_nat d). intros k.
  do 16 (destruct k as [| k]; [vm_compute; reflexivity |]).
  destruct k; vm_compute; reflexivity.
Qed.

Lemma hex_of_ascii (n : nat) :
  forall u, Forall (fun c => (utf8.byte c < 128)%N) (list_ascii_of_string (uuid.hex_of n u)).
Proof.
  induction n as [| n IH]; intros u; cbn [uuid.hex_of]; [constructor |].
  rewrite list_ascii_of_string_app. apply Forall_app. split; [apply IH |].
  repeat constructor. apply hex_digit_ascii.
Qed.

(** A printed identifier is ASCII: JSON carries it unchanged. *)
Lemma coerce_uuid_String (u : uuid.UUID) : json.coerce (uuid.String u) = uuid.String u.
Proof.
  apply coerce_ascii. unfold uuid.String. cbv zeta.
  pose proof (hex_of_ascii 32 u) as Hh.
  rewrite !list_ascii_of_string_app.
  repeat (apply Forall_app; split);
    try (apply Forall_substring; exact Hh);
    repeat constructor.
Qed.

(** Printing a 128-bit identifier and parsing it back gives the
    identifier. *)
Lemma Parse_String (u : uuid.UUID) : (u < 2 ^ 128)%N -> uuid.Parse (uuid.String u) = Some u.
Proof.
  intros Hu. unfold uuid.String.
  pose proof (hex_of_length 32 u) as Hlen.
  pose proof (parse_hex_hex_of 32 u 0) as Hparse.
  rewrite N.mod_small in Hparse by exact Hu.
  rewrite N.mul_0_l, N.add_0_l in Hparse.
  generalize dependent (uuid.hex_of 32 u). intros h Hlen Hparse.
  do 32 (destruct h as [| ? h]; [discriminate Hlen |]).
  destruct h; [| discriminate Hlen]. clear Hlen.
  unfold uuid.Parse. cbv zeta.
  rewrite bool_decide_true by (vm_compute; reflexivity).
  unfold uuid.parse_hyphenated. cbv zeta.
  rewrite bool_decide_true by (vm_compute; auto).
  etransitivity; [| exact Hparse]. f_equal; try (vm_compute; reflexivity).
Qed.

(** ** More on the authentication service *)

Lemma find_app_last {A} (f : A -> bool) (l : list A) (x : A) :
  existsb f l = false -> f x = true -> List.find f (l ++ [x]) = Some x.
Proof.
  induction l as [| a l IH]; simpl; intros Hl Hx.
  - by rewrite Hx.
  - apply orb_false_iff in Hl as [Ha Hl]. rewrite Ha. by apply IH.
Qed.

Lemma existsb_orb_false {A} (f g : A -> bool) (l : list A) :
  existsb (fun a => f a || g a) l = false -> existsb f l = false /\ existsb g l = false.
Proof.
  induction l as [| a l IH]; simpl; [auto |].
  intros H. apply orb_false_iff in H as [Ha Hl]. apply orb_false_iff in Ha as [Hf Hg].
  destruct (IH Hl) as [-> ->]. rewrite Hf, Hg. auto.
Qed.

(** What a successful [Register] has done. *)
Lemma Register_success s env req db resp db' :
  services.Register s env req db = (Ok resp, db') ->
  let user := AuthResponse.User resp in
  User.ID user = newUserID env
  /\ User.Email user = RegisterRequest.Email req
  /\ User.Name user = RegisterRequest.Name req
  /\ User.Role user = RoleCashier
  /\ User.IsActive user = true
  /\ users db' = (users db ++ [user])%list
  /\ existsb (fun u => bool_decide (User.ID u = newUserID env)) (users db) = false
  /\ existsb (fun u => bool_decide (User.Email u = RegisterRequest.Email req)) (users db)
     = false
  /\ (exists h p,
        bcrypt.GenerateFromPassword (salt env) (RegisterRequest.Password req)
          bcrypt.DefaultCost = Ok h
        /\ passwords db' = (passwords db ++ [p])%list
        /\ Password.UserID p = newUserID env
        /\ Password.HashedPassword p = h
        /\ existsb (fun q => bool_decide (Password.UserID q = newUserID env)) (passwords db)
           = false)
  /\ auth.GenerateAccessToken (services.jwtManager s) (accessEntropy env) (now env)
       (uuid.String (newUserID env)) (RegisterRequest.Email req) RoleCashier
       (RegisterRequest.Name req) = Ok (AuthResponse.AccessToken resp)
  /\ auth.GenerateRefreshToken (services.jwtManager s) (refreshEntropy env) (now env)
       (uuid.String (newUserID env)) (RegisterRequest.Email req)
     = Ok (AuthResponse.RefreshToken resp)
  /\ sessions db'
     = (sessions db
          ++ [repository.Session.stored
                (services.newSession env (newUserID env) (AuthResponse.RefreshToken resp))])%list.
Proof.
  unfold services.Register. unfold_repos. run_store. intros Hrun.
  repeat (case_match; simplify_eq); simpl in *.
  all: match goal with
       | H : existsb _ (users _) = false |- _ =>
           destruct (existsb_orb_false _ _ _ H) as [Hid Hem]
       end.
  all: match goal with
       | H : existsb _ (passwords _) = false |- _ =>
           destruct (existsb_orb_false _ _ _ H) as [_ Hpw]
       end.
  all: repeat split; try assumption; try reflexivity.
  all: eexists _, _; repeat split; try eassumption; reflexivity.
Qed.

(** X13.  The access token a successful [Register] returns identifies the
    registered user: from the registration until the token expires,
    [GetUserFromToken] returns that user for it and leaves the store as it
    is, provided the user can be read. *)
Theorem Register_then_GetUserFromToken (s : services.AuthService) (env env' : Env)
    (req : RegisterRequest.t) (db db' : DB) (resp : AuthResponse.t) :
  services.Register s env req db = (Ok resp, db') ->
  (newUserID env < 2 ^ 128)%N ->
  fault env' UserGetByID = false ->
  now env <= now env' ->
  now env' < time.Truncate (time.Add (now env) (auth.accessTokenTTL (services.jwtManager s)))
               time.Second ->
  services.GetUserFromToken s env' (AuthResponse.AccessToken resp) db'
  = (Ok (AuthResponse.User resp), db').
Proof.
  intros Hreg Hid Hfault Hle Hlt.
  apply Register_success in Hreg
    as (Huid & Hemail & Hname & Hrole & Hactive & Husers & Hfresh & _ & _ & Hacc & _ & _).
  apply GenerateAccessToken_inv in Hacc as (c & Htok & Hty & Hcuid & Hexp & Hnbf).
  unfold services.GetUserFromToken, repository.User.GetByID. run_store.
  unfold auth.ValidateAccessToken. rewrite Htok.
  rewrite (ValidateToken_before_expiry _ c _ _ (now env') Hexp Hnbf)
    by (try exact Hlt; pose proof (Truncate_Second_le (now env)); lia).
  rewrite Hty. simpl.
  rewrite Hcuid, coerce_uuid_String, (Parse_String _ Hid), Hfault, Husers.
  rewrite (find_app_last _ _ (AuthResponse.User resp) Hfresh)
    by (apply bool_decide_eq_true; exact Huid).
  rewrite Hactive. reflexivity.
Qed.

Lemma Register_then_GetUserFromToken_witness :
  exists resp,
    fst registered = Ok resp
    /\ services.GetUserFromToken sampleService laterEnv (AuthResponse.AccessToken resp)
         (snd registered)
       = (Ok (AuthResponse.User resp), snd registered).
Proof.
  destruct registered as [[resp | e] db'] eqn:Hreg; [| vm_compute in Hreg; discriminate].
  exists resp. split; [reflexivity |].
  apply (Register_then_GetUserFromToken sampleService sampleEnv laterEnv annRegisters emptyDB).
  - exact Hreg.
  - vm_compute. reflexivity.
  - reflexivity.
  - vm_compute. discriminate.
  - vm_compute. reflexivity.
Defined.

Lemma GenerateFromPassword_Compare salt password cost h :
  bcrypt.GenerateFromPassword salt password cost = Ok h ->
  bcrypt.CompareHashAndPassword h password = None.
Proof.
  unfold bcrypt.GenerateFromPassword. intros H.
  repeat (case_match; simplify_eq).
  all: unfold bcrypt.CompareHashAndPassword.
  all: rewrite bool_decide_true by reflexivity; reflexivity.
Qed.

(** X14.  Whoever has registered can log in: with the e-mail address and
    the password of a successful [Register], [Login] returns the registered
    user and the tokens minted at the time of the login, provided the user,
    the credential and the new session can be read and written and the new
    session clashes with no stored one.  A failing update of the last-login
    time does not stand in the way. *)
Theorem Register_then_Login (s : services.AuthService) (env env' : Env)
    (req : RegisterRequest.t) (db db' : DB) (resp : AuthResponse.t)
    (accessToken refreshToken : auth.Token) :
  services.Register s env req db = (Ok resp, db') ->
  fault env' UserGetByEmail = false ->
  fault env' PasswordGetByUserID = false ->
  fault env' SessionCreate = false ->
  auth.GenerateAccessToken (services.jwtManager s) (accessEntropy env') (now env')
    (uuid.String (newUserID env)) (RegisterRequest.Email req) RoleCashier
    (RegisterRequest.Name req) = Ok accessToken ->
  auth.GenerateRefreshToken (services.jwtManager s) (refreshEntropy env') (now env')
    (uuid.String (newUserID env)) (RegisterRequest.Email req) = Ok refreshToken ->
  (forall x, In x (sessions db') ->
             Session.ID x <> newSessionID env' /\ Session.SessionToken x <> refreshToken) ->
  fst (services.Login s env'
         {| LoginRequest.Email := RegisterRequest.Email req;
            LoginRequest.Password := RegisterRequest.Password req |} db')
  = Ok {| AuthResponse.AccessToken := accessToken;
          AuthResponse.RefreshToken := refreshToken;
          AuthResponse.ExpiresIn := 3600;
          AuthResponse.User := AuthResponse.User resp |}.
Proof.
  intros Hreg Hf1 Hf2 Hf3 Hat Hrt Hfresh.
  apply Register_success in Hreg
    as (Huid & Hemail & Hname & Hrole & Hactive & Husers & _ & Hnew
        & (h & p & Hhash & Hpws & Hpuid & Hph & Hpfresh) & _ & _ & _).
  assert (Hdup : existsb (fun x => bool_decide (Session.ID x = newSessionID env')
                                   || bool_decide (Session.SessionToken x = refreshToken))
                   (sessions db') = false).
  { apply not_true_is_false. intros Hex. apply existsb_exists in Hex as (x & Hx & Hb).
    destruct (Hfresh x Hx) as [H1 H2].
    apply orb_true_iff in Hb as [Hb | Hb]; apply bool_decide_eq_true in Hb; congruence. }
  unfold services.Login. unfold_repos. run_store. simpl.
  rewrite Hf1, Husers.
  rewrite (find_app_last _ _ (AuthResponse.User resp) Hnew)
    by (apply bool_decide_eq_true; exact Hemail).
  rewrite Hactive. simpl. rewrite Hf2, Hpws, Huid.
  rewrite (find_app_last _ _ p Hpfresh) by (apply bool_decide_eq_true; exact Hpuid).
  rewrite Hph, (GenerateFromPassword_Compare _ _ _ _ Hhash).
  rewrite Hemail, Hname, Hrole, Hat, Hrt.
  destruct (fault env' UserUpdateLastLogin); simpl; rewrite Hf3; simpl.
  all: rewrite Hdup; reflexivity.
Qed.

Lemma Register_then_Login_witness :
  exists resp accessToken refreshToken,
    fst registered = Ok resp
    /\ fst (services.Login sampleService (withFault laterEnv lastLoginUnwritable)
              {| LoginRequest.Email := RegisterRequest.Email annRegisters;
                 LoginRequest.Password := RegisterRequest.Password annRegisters |}
              (snd registered))
       = Ok {| AuthResponse.AccessToken := accessToken;
               AuthResponse.RefreshToken := refreshToken;
               AuthResponse.ExpiresIn := 3600;
               AuthResponse.User := AuthResponse.User resp |}.
Proof.
  destruct registered as [[resp | e] db'] eqn:Hreg; [| vm_compute in Hreg; discriminate].
  destruct (auth.GenerateAccessToken sampleManager (accessEntropy laterEnv) (now laterEnv)
              (uuid.String 1%N) "a@x.com" RoleCashier "Ann")
    as [accessToken | e] eqn:Hat; [| vm_compute in Hat; discriminate].
  destruct (auth.GenerateRefreshToken sampleManager (refreshEntropy laterEnv) (now laterEnv)
              (uuid.String 1%N) "a@x.com")
    as [refreshToken | e] eqn:Hrt; [| vm_compute in Hrt; discriminate].
  exists resp, accessToken, refreshToken. split; [reflexivity |].
  apply (Register_then_Login sampleService sampleEnv (withFault laterEnv lastLoginUnwritable)
           annRegisters emptyDB db' resp accessToken refreshToken Hreg);
    try reflexivity; try assumption.
  vm_compute in Hreg, Hrt. simplify_eq.
  intros x [<- | []]. split; discriminate.
Defined.

Lemma existsb_In {A} (f : A -> bool) (l : list A) (x : A) :
  In x l -> f x = true -> existsb f l = true.
Proof. intros Hin Hx. apply existsb_exists. eauto. Qed.

Lemma find_In_is_Some {A} (f : A -> bool) (l : list A) (x : A) :
  In x l -> f x = true -> exists y, List.find f l = Some y.
Proof.
  intros Hin Hx. destruct (List.find f l) as [y |] eqn:Hf; [eauto |].
  eapply find_none in Hf; [| exact Hin]. congruence.
Qed.

(** X15.  An e-mail address is registered once: while a user with the
    address is stored, [Register] fails and leaves the store as it is,
    whatever else goes wrong; it answers [ErrEmailAlreadyExists] when the
    user could be read. *)
Theorem Register_existing_email (s : services.AuthService) (env : Env)
    (req : RegisterRequest.t) (db : DB) (u : User.t) :
  In u (users db) ->
  User.Email u = RegisterRequest.Email req ->
  exists e, services.Register s env req db = (Err e, db)
            /\ (fault env UserGetByEmail = false -> e = ErrEmailAlreadyExists).
Proof.
  intros Hin Hemail.
  destruct (find_In_is_Some
              (fun u => bool_decide (User.Email u = RegisterRequest.Email req))
              (users db) u Hin) as [y Hy]; [by apply bool_decide_eq_true |].
  assert (Hdup : existsb (fun u0 => bool_decide (User.ID u0 = newUserID env)
                                    || bool_decide (User.Email u0 = RegisterRequest.Email req))
                   (users db) = true).
  { apply (existsb_In _ _ u Hin). apply orb_true_iff. right.
    by apply bool_decide_eq_true. }
  unfold services.Register. unfold_repos. run_store. simpl.
  destruct (fault env UserGetByEmail); simpl.
  - destruct (fault env UserCreate); simpl.
    + eexists. split; [reflexivity | discriminate].
    + rewrite Hdup. simpl. eexists. split; [reflexivity | discriminate].
  - rewrite Hy. simpl. eexists. split; reflexivity.
Qed.

Lemma Register_existing_email_witness :
  exists e, services.Register sampleService laterEnv annRegisters (snd registered)
            = (Err e, snd registered)
            /\ (fault laterEnv UserGetByEmail = false -> e = ErrEmailAlreadyExists).
Proof.
  apply (Register_existing_email sampleService laterEnv annRegisters (snd registered)
           {| User.ID := 1%N; User.Email := "a@x.com"; User.Name := "Ann";
              User.Role := RoleCashier; User.IsActive := true; User.LastLoginAt := None |}).
  - vm_compute. left. reflexivity.
  - reflexivity.
Defined.

(** X16.  A deactivated account is told apart without the password: when
    the user found for the e-mail address is not active, [Login] answers
    [ErrUserNotActive] for every password, right or wrong, and changes
    nothing. *)
Theorem Login_inactive_user (s : services.AuthService) (env : Env) (req : LoginRequest.t)
    (db : DB) (u : User.t) :
  fault env UserGetByEmail = false ->
  List.find (fun u => bool_decide (User.Email u = LoginRequest.Email req)) (users db)
  = Some u ->
  User.IsActive u = false ->
  forall secret,
    services.Login s env {| LoginRequest.Email := LoginRequest.Email req;
                            LoginRequest.Password := secret |} db
    = (Err ErrUserNotActive, db).
Proof.
  intros Hf Hfind Hact secret.
  unfold services.Login. unfold_repos. run_store. simpl.
  rewrite Hf, Hfind. simpl. rewrite Hact. reflexivity.
Qed.

Lemma Login_inactive_user_witness :
  services.Login sampleService laterEnv
    {| LoginRequest.Email := "a@x.com"; LoginRequest.Password := "not the password" |}
    deactivated
  = (Err ErrUserNotActive, deactivated).
Proof.
  apply (Login_inactive_user sampleService laterEnv
           {| LoginRequest.Email := "a@x.com"; LoginRequest.Password := "" |} deactivated
           {| User.ID := 1%N; User.Email := "a@x.com"; User.Name := "Ann";
              User.Role := RoleCashier; User.IsActive := false; User.LastLoginAt := None |}).
  - reflexivity.
  - vm_compute. reflexivity.
  - reflexivity.
Defined.

Lemma find_filter_keep {A} (f g : A -> bool) (l : list A) :
  (forall x, In x l -> f x = true -> g x = true) ->
  List.find f (List.filter g l) = List.find f l.
Proof.
  induction l as [| a l IH]; simpl; intros H; [reflexivity |].
  destruct (g a) eqn:Hg; simpl.
  - destruct (f a); [reflexivity |]. apply IH. intros x Hx. apply H. by right.
  - destruct (f a) eqn:Hfa.
    + rewrite (H a) in Hg by auto. discriminate.
    + apply IH. intros x Hx. apply H. by right.
Qed.

(** The outcome of [RefreshToken] depends on the store through the users
    and the session found for the token only. *)
Lemma RefreshToken_fst_ext s env req d1 d2 :
  users d1 = users d2 ->
  List.find (fun x => bool_decide
                        (Session.SessionToken x = RefreshTokenRequest.RefreshToken req))
    (sessions d1)
  = List.find (fun x => bool_decide
                          (Session.SessionToken x = RefreshTokenRequest.RefreshToken req))
      (sessions d2) ->
  fst (services.RefreshToken s env req d1) = fst (services.RefreshToken s env req d2).
Proof.
  intros Hu Hs.
  unfold services.RefreshToken, repository.User.GetByID, repository.Session.GetByToken,
    repository.Session.Delete.
  run_store.
  destruct (auth.ValidateRefreshToken _ _ _ _) as [c | e]; cbn beta iota; [| reflexivity].
  destruct (uuid.Parse _) as [userID |]; cbn beta iota; [| reflexivity].
  destruct (fault env UserGetByID); cbn beta iota; [reflexivity |].
  rewrite Hu.
  destruct (List.find _ (users d2)) as [u |]; cbn beta iota; [| reflexivity].
  destruct (User.IsActive u); cbn [negb]; cbn beta iota; [| reflexivity].
  destruct (fault env SessionGetByToken); cbn beta iota; [reflexivity |].
  rewrite Hs.
  destruct (List.find _ (sessions d2)) as [x |]; cbn beta iota; [| reflexivity].
  destruct (time.Before _ _); cbn beta iota.
  - destruct (fault env (SessionDelete _)); reflexivity.
  - destruct (auth.GenerateAccessToken _ _ _ _ _ _ _); reflexivity.
Qed.

(** X17.  Logging out one session leaves the others in use: where the
    session rows have pairwise distinct ids, a [Logout] with one refresh
    token does not change what a later [RefreshToken] answers for any
    other refresh token. *)
Theorem Logout_keeps_other_sessions (s : services.AuthService) (env env' : Env)
    (token : auth.Token) (req : RefreshTokenRequest.t) (db : DB) :
  List.NoDup (map Session.ID (sessions db)) ->
  RefreshTokenRequest.RefreshToken req <> token ->
  fst (services.RefreshToken s env' req (snd (services.Logout s env token db)))
  = fst (services.RefreshToken s env' req db).
Proof.
  intros Hnd Hne. apply RefreshToken_fst_ext.
  all: unfold services.Logout, repository.Session.GetByToken, repository.Session.Delete.
  all: run_store.
  all: destruct (fault env SessionGetByToken); cbn beta iota; [reflexivity |].
  all: destruct (List.find _ (sessions db)) as [y |] eqn:Hf; cbn beta iota;
    [| reflexivity].
  all: destruct (fault env (SessionDelete _)); [reflexivity |].
  - reflexivity.
  - cbn [snd sessions].
    apply find_some in Hf as [Hy Hty]. apply bool_decide_eq_true in Hty.
    apply find_filter_keep. intros x Hx Htok.
    apply bool_decide_eq_true in Htok.
    apply negb_true_iff, bool_decide_eq_false. intros Hid.
    assert (x = y) by (apply (NoDup_map_eq Session.ID (sessions db)); assumption).
    congruence.
Qed.

Lemma Logout_keeps_other_sessions_witness :
  fst (services.RefreshToken sampleService laterEnv annRefreshesSecond
         (snd (services.Logout sampleService laterEnv annRefreshToken (snd loggedInTwice))))
  = fst (services.RefreshToken sampleService laterEnv annRefreshesSecond (snd loggedInTwice)).
Proof.
  apply (Logout_keeps_other_sessions sampleService laterEnv laterEnv annRefreshToken
           annRefreshesSecond (snd loggedInTwice)).
  - vm_compute.
    constructor; [intros [H | []]; discriminate |].
    constructor; [intros [] | constructor].
  - vm_compute. discriminate.
Defined.

(** X18.  Logging out twice is the same as logging out once: after a
    [Logout] that reached the store, the tokens of the session rows being
    pairwise distinct, a further [Logout] with the same token reports
    success and changes nothing, whether or not it can read the sessions. *)
Theorem Logout_twice (s : services.AuthService) (env env' : Env) (token : auth.Token)
    (db : DB) :
  List.NoDup (map Session.SessionToken (sessions db)) ->
  fault env SessionGetByToken = false ->
  (forall id, fault env (SessionDelete id) = false) ->
  services.Logout s env' token (snd (services.Logout s env token db))
  = (Ok tt, snd (services.Logout s env token db)).
Proof.
  intros Hnd Hget Hdel.
  destruct (Logout_revokes s env token db Hnd Hget Hdel) as [_ Hrev].
  apply find_none_revoked in Hrev.
  generalize dependent (snd (services.Logout s env token db)). intros db1 Hrev.
  unfold services.Logout, repository.Session.GetByToken. run_store.
  destruct (fault env' SessionGetByToken); [reflexivity |].
  rewrite Hrev. reflexivity.
Qed.

Lemma Logout_twice_witness :
  services.Logout sampleService laterEnv annRefreshToken
    (snd (services.Logout sampleService laterEnv annRefreshToken (snd loggedInTwice)))
  = (Ok tt, snd (services.Logout sampleService laterEnv annRefreshToken (snd loggedInTwice))).
Proof.
  apply (Logout_twice sampleService laterEnv laterEnv annRefreshToken (snd loggedInTwice)).
  - vm_compute.
    constructor; [intros [H | []]; discriminate |].
    constructor; [intros [] | constructor].
  - reflexivity.
  - intros id. reflexivity.
Defined.

(** X19.  What a successful [RefreshToken] has done: nothing to the store,
    and no new refresh token (that field of the answer is empty, the
    presented token stays the one in use).  The access token it returns is
    the one minted at that time for a stored, active user named by the
    refresh token, with the e-mail address, role and name the store holds
    for that user at the time of the refresh. *)
Theorem RefreshToken_success (s : services.AuthService) (env : Env)
    (req : RefreshTokenRequest.t) (db db' : DB) (resp : RefreshTokenResponse.t) :
  services.RefreshToken s env req db = (Ok resp, db') ->
  db' = db
  /\ RefreshTokenResponse.RefreshToken resp = jwt.Malformed ""
  /\ exists claims userID user,
       auth.ValidateRefreshToken auth.jwt_ParseWithClaims (services.jwtManager s)
         (RefreshTokenRequest.RefreshToken req) (now env) = Ok claims
       /\ uuid.Parse (auth.UserID claims) = Some userID
       /\ List.find (fun u => bool_decide (User.ID u = userID)) (users db) = Some user
       /\ User.IsActive user = true
       /\ auth.GenerateAccessToken (services.jwtManager s) (accessEntropy env) (now env)
            (uuid.String userID) (User.Email user) (User.Role user) (User.Name user)
          = Ok (RefreshTokenResponse.AccessToken resp).
Proof.
  unfold services.RefreshToken, repository.User.GetByID, repository.Session.GetByToken,
    repository.Session.Delete.
  run_store.
  destruct (auth.ValidateRefreshToken _ _ _ _) as [c | e] eqn:Hval; cbn beta iota;
    [| discriminate].
  destruct (uuid.Parse _) as [userID |] eqn:Hparse; cbn beta iota; [| discriminate].
  destruct (fault env UserGetByID); cbn beta iota; [discriminate |].
  destruct (List.find _ (users db)) as [u |] eqn:Hu; cbn beta iota; [| discriminate].
  destruct (User.IsActive u) eqn:Hact; cbn [negb]; cbn beta iota; [| discriminate].
  destruct (fault env SessionGetByToken); cbn beta iota; [discriminate |].
  destruct (List.find _ (sessions db)) as [x |]; cbn beta iota; [| discriminate].
  destruct (time.Before _ _); cbn beta iota.
  { destruct (fault env (SessionDelete _)); discriminate. }
  apply find_some in Hu as Hu'. destruct Hu' as [_ Hid]. apply bool_decide_eq_true in Hid.
  rewrite Hid.
  destruct (auth.GenerateAccessToken _ _ _ _ _ _ _) as [tok | e] eqn:Hgen; [| discriminate].
  intros [= <- <-]. repeat split.
  exists c, userID, u. repeat split; assumption.
Qed.

Lemma RefreshToken_success_witness :
  exists resp,
    services.RefreshToken sampleService laterEnv annRefreshes (snd registered)
    = (Ok resp, snd registered)
    /\ RefreshTokenResponse.RefreshToken resp = jwt.Malformed "".
Proof.
  destruct (services.RefreshToken sampleService laterEnv annRefreshes (snd registered))
    as [[resp | e] db'] eqn:Hrun; [| vm_compute in Hrun; discriminate].
  destruct (RefreshToken_success sampleService laterEnv annRefreshes (snd registered) db' resp
              Hrun) as (-> & Hempty & _).
  exists resp. split; [reflexivity | exact Hempty].
Defined.

(** X20.  [ChangePassword] fails before it writes: whenever it reports an
    error, the store is as it was, credentials and sessions included. *)
Theorem ChangePassword_error_changes_nothing (s : services.AuthService) (env : Env)
    (userID : uuid.UUID) (req : ChangePasswordRequest.t) (db db' : DB) (e : error) :
  services.ChangePassword s env userID req db = (Err e, db') -> db' = db.
Proof.
  unfold services.ChangePassword, repository.Password.GetByUserID, repository.Password.Update,
    repository.Session.GetByUserID.
  run_store. run_store.
  destruct (fault env PasswordGetByUserID); cbn beta iota; [congruence |].
  destruct (List.find _ (passwords db)) as [p |]; cbn beta iota; [| congruence].
  destruct (bcrypt.CompareHashAndPassword _ _); [congruence |].
  destruct (bcrypt.GenerateFromPassword _ _ _) as [h | e']; cbn beta iota; [| congruence].
  destruct (fault env PasswordUpdate); cbn beta iota; [congruence |].
  destruct (fault env SessionGetByUserID); cbn beta iota; discriminate.
Qed.

Lemma ChangePassword_error_changes_nothing_witness :
  services.ChangePassword sampleService laterEnv 1%N
    {| ChangePasswordRequest.CurrentPassword := "not the password";
       ChangePasswordRequest.NewPassword := "Xyz98765?" |} (snd registered)
  = (Err ErrInvalidCredentials, snd registered).
Proof.
  destruct (services.ChangePassword sampleService laterEnv 1%N
              {| ChangePasswordRequest.CurrentPassword := "not the password";
                 ChangePasswordRequest.NewPassword := "Xyz98765?" |} (snd registered))
    as [[[] | e] db'] eqn:Hrun; [vm_compute in Hrun; discriminate |].
  rewrite (ChangePassword_error_changes_nothing _ _ _ _ _ _ _ Hrun).
  f_equal. vm_compute in Hrun. congruence.
Defined.

Lemma find_map_replace {A} (f g : A -> bool) (new : A) (l : list A) (p0 : A) :
  List.find f l = Some p0 -> g p0 = true -> f new = true ->
  List.find f (map (fun q => if g q then new else q) l) = Some new.
Proof.
  intros Hfind Hg Hnew. induction l as [| a l IH]; simpl in *; [discriminate |].
  destruct (f a) eqn:Hfa.
  - simplify_eq. rewrite Hg, Hnew. reflexivity.
  - destruct (g a); [by rewrite Hnew |]. rewrite Hfa. by apply IH.
Qed.

Lemma delete_loop_keeps env (l : list Session.t) (db : DB) :
  let db' := fold_left
               (fun d session => snd (repository.Session.Delete env (Session.ID session) d))
               l db in
  users db' = users db /\ passwords db' = passwords db.
Proof.
  revert db. induction l as [| a l IH]; intros db; simpl; [auto |].
  destruct (IH (snd (repository.Session.Delete env (Session.ID a) db))) as [-> ->].
  unfold repository.Session.Delete, repository.guarded.
  destruct (fault env _); auto.
Qed.

(** X21.  After a successful [ChangePassword] the credential stored for the
    user verifies the new password, which was not checked against any
    strength policy, and no longer verifies the old one unless bcrypt
    cannot tell the two apart; the users are untouched. *)
Theorem ChangePassword_stores_new_secret (s : services.AuthService) (env : Env)
    (userID : uuid.UUID) (req : ChangePasswordRequest.t) (db db' : DB) :
  services.ChangePassword s env userID req db = (Ok tt, db') ->
  users db' = users db
  /\ exists p,
       List.find (fun p => bool_decide (Password.UserID p = userID)) (passwords db') = Some p
       /\ bcrypt.CompareHashAndPassword (Password.HashedPassword p)
            (ChangePasswordRequest.NewPassword req) = None
       /\ (bcrypt.key_material (ChangePasswordRequest.CurrentPassword req)
           <> bcrypt.key_material (ChangePasswordRequest.NewPassword req) ->
           bcrypt.CompareHashAndPassword (Password.HashedPassword p)
             (ChangePasswordRequest.CurrentPassword req)
           = Some bcrypt_ErrMismatchedHashAndPassword).
Proof.
  unfold services.ChangePassword, repository.Password.GetByUserID, repository.Password.Update,
    repository.Session.GetByUserID.
  run_store. run_store.
  destruct (fault env PasswordGetByUserID); cbn beta iota; [discriminate |].
  destruct (List.find _ (passwords db)) as [p0 |] eqn:Hfind; cbn beta iota; [| discriminate].
  destruct (bcrypt.CompareHashAndPassword _ _); [discriminate |].
  destruct (bcrypt.GenerateFromPassword _ _ _) as [h | e'] eqn:Hhash; cbn beta iota;
    [| discriminate].
  destruct (fault env PasswordUpdate); cbn beta iota; [discriminate |].
  set (new := {| Password.ID := Password.ID p0; Password.UserID := Password.UserID p0;
                 Password.HashedPassword := h |}).
  assert (Hnew : List.find (fun p => bool_decide (Password.UserID p = userID))
                   (map (fun p => if bool_decide (Password.ID p = Password.ID new)
                                  then new else p) (passwords db)) = Some new).
  { apply (find_map_replace _ (fun p => bool_decide (Password.ID p = Password.ID new))
             new _ p0 Hfind).
    - by apply bool_decide_eq_true.
    - apply find_some in Hfind as [_ Hp0]. exact Hp0. }
  assert (Hcmp : bcrypt.CompareHashAndPassword h (ChangePasswordRequest.NewPassword req) = None)
    by exact (GenerateFromPassword_Compare _ _ _ _ Hhash).
  assert (Hold : bcrypt.key_material (ChangePasswordRequest.CurrentPassword req)
                 <> bcrypt.key_material (ChangePasswordRequest.NewPassword req) ->
                 bcrypt.CompareHashAndPassword h (ChangePasswordRequest.CurrentPassword req)
                 = Some bcrypt_ErrMismatchedHashAndPassword).
  { intros Hne. revert Hhash. unfold bcrypt.GenerateFromPassword. intros Hhash.
    repeat (case_match; simplify_eq).
    all: unfold bcrypt.CompareHashAndPassword.
    all: rewrite bool_decide_false by exact Hne; reflexivity. }
  destruct (fault env SessionGetByUserID); cbn beta iota.
  - intros [= <-]. cbn [users passwords]. split; [reflexivity |].
    exists new. auto.
  - intros [= <-].
    match goal with
    | |- context [fold_left ?f ?l ?d] =>
        destruct (delete_loop_keeps env l d) as [Hu Hp]
    end.
    cbv zeta in Hu, Hp. rewrite Hu, Hp. cbn [users passwords]. split; [reflexivity |].
    exists new. auto.
Qed.

Lemma ChangePassword_stores_new_secret_witness :
  exists db',
    services.ChangePassword sampleService laterEnv 1%N
      {| ChangePasswordRequest.CurrentPassword := "Abc12345!";
         ChangePasswordRequest.NewPassword := "x" |} (snd registered) = (Ok tt, db')
    /\ exists p,
         List.find (fun p => bool_decide (Password.UserID p = 1%N)) (passwords db') = Some p
         /\ bcrypt.CompareHashAndPassword (Password.HashedPassword p) "x" = None.
Proof.
  destruct (services.ChangePassword sampleService laterEnv 1%N
              {| ChangePasswordRequest.CurrentPassword := "Abc12345!";
                 ChangePasswordRequest.NewPassword := "x" |} (snd registered))
    as [[[] | e] db'] eqn:Hrun; [| vm_compute in Hrun; discriminate].
  exists db'. split; [reflexivity |].
  destruct (ChangePassword_stores_new_secret _ _ _ _ _ _ Hrun) as (_ & p & Hp & Hnew & _).
  exists p. split; assumption.
Defined.

(** What a successful [Register] has stored for the session. *)
Lemma Register_session s env req db resp db' :
  services.Register s env req db = (Ok resp, db') ->
  existsb (fun x => bool_decide (Session.SessionToken x = AuthResponse.RefreshToken resp))
    (sessions db) = false.
Proof.
  unfold services.Register. unfold_repos. run_store. intros Hrun.
  repeat (case_match; simplify_eq); simpl in *.
  all: match goal with
       | H : existsb _ (sessions _) = false |- _ =>
           destruct (existsb_orb_false _ _ _ H) as [_ Htok]
       end.
  all: exact Htok.
Qed.

(** X26.  The refresh token a successful [Register] returns can be
    exchanged as long as the token has not expired and the 30 days of its
    session have not passed (the last instant of the 30 days included): a
    [RefreshToken] in that time, with the user and the session readable,
    returns the access token minted at that time for the registered user and
    changes nothing. *)
Theorem Register_then_RefreshToken (s : services.AuthService) (env env' : Env)
    (req : RegisterRequest.t) (db db' : DB) (resp : AuthResponse.t)
    (accessToken : auth.Token) :
  services.Register s env req db = (Ok resp, db') ->
  (newUserID env < 2 ^ 128)%N ->
  fault env' UserGetByID = false ->
  fault env' SessionGetByToken = false ->
  now env <= now env' ->
  now env' < time.Truncate (time.Add (now env) (auth.refreshTokenTTL (services.jwtManager s)))
               time.Second ->
  now env' <= time.Add (now env) (24 * time.Hour * 30) ->
  auth.GenerateAccessToken (services.jwtManager s) (accessEntropy env') (now env')
    (uuid.String (newUserID env)) (RegisterRequest.Email req) RoleCashier
    (RegisterRequest.Name req) = Ok accessToken ->
  services.RefreshToken s env'
    {| RefreshTokenRequest.RefreshToken := AuthResponse.RefreshToken resp |} db'
  = (Ok {| RefreshTokenResponse.AccessToken := accessToken;
           RefreshTokenResponse.RefreshToken := jwt.Malformed "";
           RefreshTokenResponse.ExpiresIn := 3600 |}, db').
Proof.
  intros Hreg Hid Hf1 Hf2 Hle Hlt Hsess Hat.
  pose proof (Register_session _ _ _ _ _ _ Hreg) as Hfresh.
  apply Register_success in Hreg
    as (Huid & Hemail & Hname & Hrole & Hactive & Husers & Hnew & _ & _ & _ & Hrt & Hsessions).
  apply GenerateRefreshToken_inv in Hrt as (c & Htok & Hty & Hcuid & Hexp & Hnbf).
  unfold services.RefreshToken, repository.User.GetByID, repository.Session.GetByToken.
  run_store. cbn [RefreshTokenRequest.RefreshToken].
  unfold auth.ValidateRefreshToken. rewrite Htok.
  rewrite (ValidateToken_before_expiry _ c _ _ (now env') Hexp Hnbf)
    by (try exact Hlt; pose proof (Truncate_Second_le (now env)); lia).
  rewrite Hty. simpl.
  rewrite Hcuid, coerce_uuid_String, (Parse_String _ Hid), Hf1, Husers.
  rewrite (find_app_last _ _ (AuthResponse.User resp) Hnew)
    by (apply bool_decide_eq_true; exact Huid).
  rewrite Hactive. simpl. rewrite Hf2, Hsessions.
  rewrite <- Htok.
  rewrite (find_app_last _ _ _ Hfresh) by (apply bool_decide_eq_true; reflexivity).
  simpl. unfold time.Before.
  replace (_ <? now env') with false by (symmetry; apply Z.ltb_ge; exact Hsess).
  rewrite Huid, Hemail, Hname, Hrole, Hat. reflexivity.
Qed.

Lemma Register_then_RefreshToken_witness :
  exists resp accessToken,
    fst registered = Ok resp
    /\ services.RefreshToken sampleService laterEnv
         {| RefreshTokenRequest.RefreshToken := AuthResponse.RefreshToken resp |}
         (snd registered)
       = (Ok {| RefreshTokenResponse.AccessToken := accessToken;
                RefreshTokenResponse.RefreshToken := jwt.Malformed "";
                RefreshTokenResponse.ExpiresIn := 3600 |}, snd registered).
Proof.
  destruct registered as [[resp | e] db'] eqn:Hreg; [| vm_compute in Hreg; discriminate].
  destruct (auth.GenerateAccessToken sampleManager (accessEntropy laterEnv) (now laterEnv)
              (uuid.String 1%N) "a@x.com" RoleCashier "Ann")
    as [accessToken | e] eqn:Hat; [| vm_compute in Hat; discriminate].
  exists resp, accessToken. split; [reflexivity |].
  apply (Register_then_RefreshToken sampleService sampleEnv laterEnv annRegisters emptyDB
           db' resp accessToken Hreg); try reflexivity; try exact Hat.
  - vm_compute. discriminate.
  - vm_compute. discriminate.
Defined.

(** ** The middleware *)

Lemma HasPrefix_split (prefix : string) :
  forall s, strings.HasPrefix s prefix = true ->
            s = (prefix ++ strings.TrimPrefix s prefix)%string.
Proof.
  unfold strings.TrimPrefix. intros s H. rewrite H. revert s H. unfold strings.HasPrefix.
  induction prefix as [| a p IH]; intros s H.
  - simpl. by rewrite Nat.sub_0_r, substring_0_length.
  - destruct s as [| b s]; simpl in H; [discriminate |].
    destruct (ascii_dec a b) as [-> |]; [| discriminate].
    rewrite append_String. cbn [String.length substring Nat.sub]. f_equal. by apply IH.
Qed.

Lemma HasPrefix_app (prefix rest : string) :
  strings.HasPrefix (prefix ++ rest) prefix = true
  /\ strings.TrimPrefix (prefix ++ rest) prefix = rest.
Proof.
  unfold strings.TrimPrefix, strings.HasPrefix.
  induction prefix as [| a p [IH1 IH2]].
  - change ("" ++ rest)%string with rest. cbn [String.prefix String.length].
    rewrite Nat.sub_0_r, substring_0_length. destruct rest; split; reflexivity.
  - rewrite append_String. simpl. destruct (ascii_dec a a); [| contradiction].
    rewrite IH1 in *. split; [reflexivity | exact IH2].
Qed.

(** What [GetUserFromToken] answers, it answers without touching the
    store; the user it returns is stored and active. *)
Lemma GetUserFromToken_inv s env token db r db' :
  services.GetUserFromToken s env token db = (r, db') ->
  db' = db
  /\ forall user, r = Ok user -> In user (users db) /\ User.IsActive user = true.
Proof.
  unfold services.GetUserFromToken, repository.User.GetByID. run_store.
  destruct (auth.ValidateAccessToken _ _ _ _) as [c | e]; cbn beta iota;
    [| intros [= <- <-]; split; [reflexivity | discriminate]].
  destruct (uuid.Parse _) as [userID |]; cbn beta iota;
    [| intros [= <- <-]; split; [reflexivity | discriminate]].
  destruct (fault env UserGetByID); cbn beta iota;
    [intros [= <- <-]; split; [reflexivity | discriminate] |].
  destruct (List.find _ (users db)) as [u |] eqn:Hu; cbn beta iota;
    [| intros [= <- <-]; split; [reflexivity | discriminate]].
  destruct (User.IsActive u) eqn:Hact; cbn [negb]; cbn beta iota;
    [| intros [= <- <-]; split; [reflexivity | discriminate]].
  intros [= <- <-]. split; [reflexivity |]. intros user [= <-].
  apply find_some in Hu as [Hin _]. auto.
Qed.

Lemma authenticated_user c user :
  gin.Get (authenticated c user) "user" = Some (gin.VUser user)
  /\ gin.Get (authenticated c user) "user_role" = Some (gin.VRole (User.Role user))
  /\ gin.aborted (authenticated c user) = gin.aborted c
  /\ gin.written (authenticated c user) = gin.written c.
Proof.
  unfold authenticated, gin.Get, gin.Set_. cbn [gin.Keys gin.aborted gin.written].
  repeat split.
  - rewrite !lookup_insert_ne by discriminate. apply lookup_insert_eq.
  - apply lookup_insert_eq.
Qed.

(** What [RequireAuth] does, by the bearer token of the request. *)
Lemma RequireAuth_cases decode m env c db :
  (exists token user,
      gin.GetHeader c "Authorization" = ("Bearer " ++ token)%string
      /\ token <> ""
      /\ services.GetUserFromToken (middleware.authService m) env (decode token) db
         = (Ok user, db)
      /\ In user (users db) /\ User.IsActive user = true
      /\ middleware.RequireAuth decode m env c db = (authenticated c user, db))
  \/ ((forall token user,
          gin.GetHeader c "Authorization" = ("Bearer " ++ token)%string ->
          token <> "" ->
          services.GetUserFromToken (middleware.authService m) env (decode token) db
          <> (Ok user, db))
      /\ exists msg,
           middleware.RequireAuth decode m env c db
           = (gin.Abort (gin.JSON c http.StatusUnauthorized msg), db)).
Proof.
  unfold middleware.RequireAuth. cbv zeta.
  destruct (bool_decide (gin.GetHeader c "Authorization" = "")) eqn:Hempty.
  { right. apply bool_decide_eq_true in Hempty. split; [| eauto].
    intros token user Hh. rewrite Hh in Hempty. discriminate. }
  destruct (strings.HasPrefix (gin.GetHeader c "Authorization") "Bearer ") eqn:Hpre;
    cbn [negb].
  2:{ right. split; [| eauto]. intros token user Hh.
      rewrite Hh in Hpre. by rewrite (proj1 (HasPrefix_app "Bearer " token)) in Hpre. }
  apply HasPrefix_split in Hpre.
  assert (Htrim : forall token',
             gin.GetHeader c "Authorization" = ("Bearer " ++ token')%string ->
             strings.TrimPrefix (gin.GetHeader c "Authorization") "Bearer " = token').
  { intros token' ->. apply HasPrefix_app. }
  destruct (bool_decide (strings.TrimPrefix (gin.GetHeader c "Authorization") "Bearer " = ""))
    eqn:Htok.
  { right. apply bool_decide_eq_true in Htok. split; [| eauto].
    intros token' user Hh Hne. apply Htrim in Hh. congruence. }
  apply bool_decide_eq_false in Htok.
  destruct (services.GetUserFromToken _ _ _ _) as [[user | e] db'] eqn:Hrun;
    apply GetUserFromToken_inv in Hrun as Hinv; destruct Hinv as [-> Hu].
  - left. destruct (Hu user eq_refl) as [Hin Hact]. eexists _, user.
    repeat split; eauto.
  - right. split; [| eauto]. intros token' user Hh Hne. apply Htrim in Hh.
    rewrite <- Hh, Hrun. discriminate.
Qed.

(** X22.  The route guard made of [RequireAuth] and [RequireRole]: it
    never touches the store, and it lets a request through exactly when the
    [Authorization] header is [Bearer ] followed by a non-empty token for
    which [GetUserFromToken] returns a user whose role passes [ValidateRole]
    for the required role.  A request it lets through has that user under
    the key [user] and the user's role under [user_role], and the user is
    stored and active; one it stops has been answered once, with 401 or 403,
    never with 500. *)
Theorem RequireAuth_RequireRole (decode : string -> auth.Token)
    (m : middleware.AuthMiddleware) (required : Role) (env : Env) (c : gin.Context)
    (db : DB) :
  gin.aborted c = false ->
  let out := middleware.run [middleware.RequireAuth decode m;
                             middleware.RequireRole m required] env c db in
  snd out = db
  /\ (gin.aborted (fst out) = false
      <-> exists token user,
            gin.GetHeader c "Authorization" = ("Bearer " ++ token)%string
            /\ token <> ""
            /\ services.GetUserFromToken (middleware.authService m) env (decode token) db
               = (Ok user, db)
            /\ services.ValidateRole (middleware.authService m) (User.Role user) required
               = None)
  /\ (gin.aborted (fst out) = false ->
      exists user, middleware.GetUserFromContext (fst out) = Some user
                   /\ middleware.GetUserRoleFromContext (fst out) = (User.Role user, true)
                   /\ In user (users db) /\ User.IsActive user = true
                   /\ gin.written (fst out) = gin.written c)
  /\ (gin.aborted (fst out) = true ->
      exists code msg,
        gin.written (fst out) = (gin.written c ++ [(code, msg)])%list
        /\ (code = 401 \/ code = 403)).
Proof.
  intros Hc out. subst out. cbn [middleware.run]. rewrite Hc.
  destruct (RequireAuth_cases decode m env c db)
    as [(token & user & Hh & Hne & Hrun & Hin & Hact & ->) | [Hno [msg ->]]].
  - destruct (authenticated_user c user) as (HK & HR & Hab & Hw).
    cbn beta iota. rewrite Hab, Hc.
    unfold middleware.RequireRole. rewrite HK.
    assert (Htrim : forall token',
               gin.GetHeader c "Authorization" = ("Bearer " ++ token')%string ->
               token' = token).
    { intros token' Hh'. rewrite Hh in Hh'.
      pose proof (proj2 (HasPrefix_app "Bearer " token)) as H1.
      rewrite Hh' in H1. by rewrite (proj2 (HasPrefix_app "Bearer " token')) in H1. }
    destruct (services.ValidateRole _ _ _) as [e |] eqn:Hrole; cbn [fst snd].
    + split; [reflexivity |]. cbn [gin.Abort gin.JSON gin.aborted gin.written].
      split; [| split]; [| discriminate |].
      * split; [discriminate |]. intros (token' & user' & Hh' & _ & Hrun' & Hrole').
        apply Htrim in Hh'. subst token'. rewrite Hrun in Hrun'. simplify_eq.
      * intros _. exists 403, "Insufficient permissions". rewrite Hw. auto.
    + split; [reflexivity |]. rewrite Hab, Hc.
      split; [| split]; [| | discriminate].
      * split; [| reflexivity]. intros _. exists token, user. auto.
      * intros _. exists user.
        unfold middleware.GetUserFromContext, middleware.GetUserRoleFromContext.
        rewrite HK, HR. auto.
  - cbn. split; [reflexivity |]. split; [| split]; [| discriminate |].
    + split; [discriminate |]. intros (token & user & Hh & Hne & Hrun & _).
      exfalso. exact (Hno token user Hh Hne Hrun).
    + intros _. exists 401, msg. auto.
Qed.

Lemma ValidateRole_RoleAdmin s (role : Role) :
  services.ValidateRole s role RoleAdmin = None <-> role = RoleAdmin.
Proof.
  unfold services.ValidateRole. rewrite !roleHierarchy_level.
  unfold RoleAdmin, RoleManager, RoleCashier.
  repeat case_bool_decide; subst; simpl; split; congruence.
Qed.

Lemma ValidateRole_RoleManager s (role : Role) :
  services.ValidateRole s role RoleManager = None
  <-> role = RoleManager \/ role = RoleAdmin.
Proof.
  unfold services.ValidateRole. rewrite !roleHierarchy_level.
  unfold RoleAdmin, RoleManager, RoleCashier.
  repeat case_bool_decide; subst; simpl; split; try congruence; intuition congruence.
Qed.

Lemma RequireAuth_RequireRole_witness :
  gin.aborted
    (fst (middleware.run [middleware.RequireAuth sampleDecode sampleMiddleware;
                          middleware.RequireRole sampleMiddleware RoleCashier]
            laterEnv annRequests (snd registered))) = false
  /\ gin.aborted
       (fst (middleware.run [middleware.RequireAuth sampleDecode sampleMiddleware;
                             middleware.RequireRole sampleMiddleware RoleManager]
               laterEnv annRequests (snd registered))) = true.
Proof.
  split.
  - apply (proj1 (proj2 (RequireAuth_RequireRole sampleDecode sampleMiddleware RoleCashier
                           laterEnv annRequests (snd registered) eq_refl))).
    exists "ann",
      {| User.ID := 1%N; User.Email := "a@x.com"; User.Name := "Ann";
         User.Role := RoleCashier; User.IsActive := true; User.LastLoginAt := None |}.
    repeat split; try discriminate; vm_compute; reflexivity.
  - destruct (gin.aborted _) eqn:Hab; [reflexivity |].
    apply (proj1 (proj2 (RequireAuth_RequireRole sampleDecode sampleMiddleware RoleManager
                           laterEnv annRequests (snd registered) eq_refl))) in Hab
      as (token & user & Hh & _ & Hrun & Hrole).
    vm_compute in Hh. injection Hh as <-.
    vm_compute in Hrun. injection Hrun as <-.
    vm_compute in Hrole. discriminate.
Defined.

(** X23.  [RequireActivation] adds nothing after [RequireAuth]: the user
    [RequireAuth] hands on is active, so a route guarded by both answers
    every request as [RequireAuth] alone does. *)
Theorem RequireActivation_after_RequireAuth (decode : string -> auth.Token)
    (m : middleware.AuthMiddleware) (env : Env) (c : gin.Context) (db : DB) :
  gin.aborted c = false ->
  middleware.run [middleware.RequireAuth decode m; middleware.RequireActivation m] env c db
  = middleware.RequireAuth decode m env c db.
Proof.
  intros Hc. cbn [middleware.run]. rewrite Hc.
  destruct (RequireAuth_cases decode m env c db)
    as [(token & user & _ & _ & _ & _ & Hact & ->) | [_ [msg ->]]].
  - destruct (authenticated_user c user) as (HK & _ & Hab & _).
    cbn beta iota. rewrite Hab, Hc.
    unfold middleware.RequireActivation. rewrite HK, Hact. reflexivity.
  - reflexivity.
Qed.

Lemma RequireActivation_after_RequireAuth_witness :
  middleware.run [middleware.RequireAuth sampleDecode sampleMiddleware;
                  middleware.RequireActivation sampleMiddleware]
    laterEnv annRequests (snd registered)
  = middleware.RequireAuth sampleDecode sampleMiddleware laterEnv annRequests (snd registered).
Proof.
  apply (RequireActivation_after_RequireAuth sampleDecode sampleMiddleware laterEnv
           annRequests (snd registered)).
  reflexivity.
Defined.

(** X24.  [OptionalAuth] is [RequireAuth] without the refusals: where
    [RequireAuth] lets a request through, [OptionalAuth] hands on the same
    context; where [RequireAuth] stops it, [OptionalAuth] hands the request
    on untouched and unanswered. *)
Theorem OptionalAuth_RequireAuth (decode : string -> auth.Token)
    (m : middleware.AuthMiddleware) (env : Env) (c : gin.Context) (db : DB) :
  gin.aborted c = false ->
  middleware.OptionalAuth decode m env c db
  = if gin.aborted (fst (middleware.RequireAuth decode m env c db)) then (c, db)
    else middleware.RequireAuth decode m env c db.
Proof.
  intros Hc. unfold middleware.OptionalAuth, middleware.RequireAuth. cbv zeta.
  destruct (bool_decide (gin.GetHeader c "Authorization" = "")); [reflexivity |].
  destruct (strings.HasPrefix _ _); cbn [negb]; [| reflexivity].
  destruct (bool_decide (strings.TrimPrefix _ _ = "")); [reflexivity |].
  destruct (services.GetUserFromToken _ _ _ _) as [[user | e] db'] eqn:Hrun;
    apply GetUserFromToken_inv in Hrun as [-> _].
  - cbn [fst gin.Set_ gin.aborted]. rewrite Hc. reflexivity.
  - reflexivity.
Qed.

Lemma OptionalAuth_RequireAuth_witness :
  middleware.OptionalAuth sampleDecode sampleMiddleware laterEnv
    {| gin.Header := {[ "Authorization" := "Bearer bob" ]};
       gin.Keys := ∅; gin.written := []; gin.aborted := false |} (snd registered)
  = ({| gin.Header := {[ "Authorization" := "Bearer bob" ]};
        gin.Keys := ∅; gin.written := []; gin.aborted := false |}, snd registered).
Proof.
  rewrite (OptionalAuth_RequireAuth sampleDecode sampleMiddleware laterEnv
             {| gin.Header := {[ "Authorization" := "Bearer bob" ]};
                gin.Keys := ∅; gin.written := []; gin.aborted := false |} (snd registered))
    by reflexivity.
  replace (gin.aborted _) with true by (vm_compute; reflexivity).
  reflexivity.
Defined.

(** X25.  [RequireAdmin] lets only administrators through and
    [RequireManager] only managers and administrators: a request that has
    passed [RequireAuth] and then one of them belongs to a user with such a
    role. *)
Theorem RequireAdmin_RequireManager (decode : string -> auth.Token)
    (m : middleware.AuthMiddleware) (env : Env) (c : gin.Context) (db : DB) :
  gin.aborted c = false ->
  (gin.aborted (fst (middleware.run [middleware.RequireAuth decode m;
                                     middleware.RequireAdmin m] env c db)) = false ->
   exists user,
     middleware.GetUserFromContext
       (fst (middleware.run [middleware.RequireAuth decode m; middleware.RequireAdmin m]
               env c db)) = Some user
     /\ User.Role user = RoleAdmin)
  /\ (gin.aborted (fst (middleware.run [middleware.RequireAuth decode m;
                                        middleware.RequireManager m] env c db)) = false ->
      exists user,
        middleware.GetUserFromContext
          (fst (middleware.run [middleware.RequireAuth decode m; middleware.RequireManager m]
                  env c db)) = Some user
        /\ (User.Role user = RoleManager \/ User.Role user = RoleAdmin)).
Proof.
  intros Hc. unfold middleware.RequireAdmin, middleware.RequireManager.
  cbn [middleware.run]. rewrite Hc.
  destruct (RequireAuth_cases decode m env c db)
    as [(token & user & _ & _ & _ & _ & _ & ->) | [_ [msg ->]]];
    [| split; discriminate].
  destruct (authenticated_user c user) as (HK & _ & Hab & _).
  cbn beta iota. rewrite Hab, Hc.
  unfold middleware.RequireRole, middleware.GetUserFromContext. rewrite HK.
  split.
  - destruct (services.ValidateRole _ _ RoleAdmin) eqn:Hrole;
      cbn [fst gin.Abort gin.aborted]; [discriminate |].
    intros _. exists user. rewrite HK. split; [reflexivity |].
    by apply ValidateRole_RoleAdmin in Hrole.
  - destruct (services.ValidateRole _ _ RoleManager) eqn:Hrole;
      cbn [fst gin.Abort gin.aborted]; [discriminate |].
    intros _. exists user. rewrite HK. split; [reflexivity |].
    by apply ValidateRole_RoleManager in Hrole.
Qed.

Lemma RequireAdmin_RequireManager_witness :
  exists user,
    middleware.GetUserFromContext
      (fst (middleware.run [middleware.RequireAuth sampleDecode sampleMiddleware;
                            middleware.RequireAdmin sampleMiddleware]
              laterEnv annRequests promoted)) = Some user
    /\ User.Role user = RoleAdmin.
Proof.
  apply (proj1 (RequireAdmin_RequireManager sampleDecode sampleMiddleware laterEnv
                  annRequests promoted eq_refl)).
  vm_compute. reflexivity.
Defined.
